(** * Phone Store Maracaibo: the catalog filter pipeline, lookup and badges

    A shallow embedding of [js/products.data.js], of the data layer of
    [js/catalogo.js] and of [resolveBadge] of [js/producto.js], with the
    properties of the catalog specification stated over it.

    Layout: the JavaScript built-ins the code calls ([JS]), the product record
    and the seeded catalog ([PSM]), the array store and the filter stages
    ([Catalogo]), the detail page's badge ([Producto]), then the theorems. *)

From Stdlib Require Import String Ascii List ZArith NArith Bool Arith Lia Permutation.
From Stdlib Require DecimalString DecimalNat DecimalFacts.
Import ListNotations.

Local Open Scope string_scope.
Local Open Scope list_scope.

(** ** Built-ins of the host language

    A JavaScript string is modelled as a Rocq [string] holding its UTF-8
    bytes; a lone surrogate, which has no UTF-8 form, as the three bytes of
    its generalised form, and a surrogate pair always as the four bytes of
    its code point.  Equality of strings is equality of these bytes;
    [includes] searches as JavaScript does, code unit by code unit, on
    [units]. *)
Module JS.

Definition code (c : ascii) : N := N_of_ascii c.

Definition dquote : string := String (ascii_of_N 34) "".

(** *** White space ([WhiteSpace] and [LineTerminator] of ECMA-262)

    One-byte: U+0009..U+000D and U+0020.  Two-byte: U+00A0.  Three-byte:
    U+1680, U+2000..U+200A, U+2028, U+2029, U+202F, U+205F, U+3000, U+FEFF. *)
Definition ws1 (c : ascii) : bool :=
  let n := code c in ((9 <=? n) && (n <=? 13) || (n =? 32))%N.

Definition ws2 (c d : ascii) : bool :=
  ((code c =? 194) && (code d =? 160))%N.

Definition ws3 (c d e : ascii) : bool :=
  let n := code c in let m := code d in let k := code e in
  ((n =? 225) && (m =? 154) && (k =? 128)
   || (n =? 226) && (m =? 128)
        && ((128 <=? k) && (k <=? 138) || (k =? 168) || (k =? 169) || (k =? 175))
   || (n =? 226) && (m =? 129) && (k =? 159)
   || (n =? 227) && (m =? 128) && (k =? 128)
   || (n =? 239) && (m =? 187) && (k =? 191))%N.

(** [String.prototype.trimStart]. *)
Fixpoint trimStart (s : string) : string :=
  match s with
  | String c r =>
      if ws1 c then trimStart r
      else match r with
           | String d r2 =>
               if ws2 c d then trimStart r2
               else match r2 with
                    | String e r3 => if ws3 c d e then trimStart r3 else s
                    | EmptyString => s
                    end
           | EmptyString => s
           end
  | EmptyString => s
  end.

(** [String.prototype.trimEnd]: a suffix made of white space only is dropped.
    No white-space sequence starts with a UTF-8 continuation byte, so the test
    fails inside a multi-byte character. *)
Fixpoint trimEnd (s : string) : string :=
  match s with
  | String c r => if trimStart s =? "" then "" else String c (trimEnd r)
  | EmptyString => ""
  end.

(** [String.prototype.trim]. *)
Definition trim (s : string) : string := trimEnd (trimStart s).

(** [ToBoolean] on a string: only the empty string is falsy. *)
Definition truthy (s : string) : bool := negb (s =? "").

(** *** Text as code points

    [decode] reads the bytes as code points, a lone surrogate (U+D800 to
    U+DFFF) in its three-byte form being one of them.  A byte that belongs to
    no sequence is kept as the item [1114112 + byte] (past the last code
    point), which [encode] writes back as that byte. *)
Definition continuation (c : ascii) : option N :=
  let n := code c in
  if ((128 <=? n) && (n <=? 191))%N then Some (n - 128)%N else None.

Definition raw (c : ascii) : N := (1114112 + code c)%N.

Definition lead2 (n : N) : bool := ((194 <=? n) && (n <=? 223))%N.

(** Three bytes: no overlong form. *)
Definition lead3 (n x : N) : bool :=
  ((224 <=? n) && (n <=? 239) && (negb (n =? 224) || (32 <=? x)))%N.

(** Four bytes: no overlong form, nothing past U+10FFFF. *)
Definition lead4 (n x : N) : bool :=
  ((240 <=? n) && (n <=? 244)
   && (negb (n =? 240) || (16 <=? x)) && (negb (n =? 244) || (x <? 16)))%N.

Fixpoint decode (s : string) : list N :=
  match s with
  | EmptyString => []
  | String c r =>
      let n := code c in
      if (n <? 128)%N then n :: decode r
      else
        match r with
        | String d r2 =>
            match continuation d with
            | Some x =>
                if lead2 n then ((n - 192) * 64 + x)%N :: decode r2
                else
                  match r2 with
                  | String e r3 =>
                      match continuation e with
                      | Some y =>
                          if lead3 n x then
                            ((n - 224) * 4096 + x * 64 + y)%N :: decode r3
                          else
                            match r3 with
                            | String f r4 =>
                                match continuation f with
                                | Some z =>
                                    if lead4 n x then
                                      ((n - 240) * 262144 + x * 4096 + y * 64 + z)%N
                                        :: decode r4
                                    else raw c :: decode r
                                | None => raw c :: decode r
                                end
                            | EmptyString => raw c :: decode r
                            end
                      | None => raw c :: decode r
                      end
                  | EmptyString => raw c :: decode r
                  end
            | None => raw c :: decode r
            end
        | EmptyString => raw c :: decode r
        end
  end.

Fixpoint encode (l : list N) : string :=
  match l with
  | [] => ""
  | n :: r =>
      let rest := encode r in
      if (n <? 128)%N then String (ascii_of_N n) rest
      else if (n <? 2048)%N then
        String (ascii_of_N (192 + n / 64))
          (String (ascii_of_N (128 + n mod 64)) rest)
      else if (n <? 65536)%N then
        String (ascii_of_N (224 + n / 4096))
          (String (ascii_of_N (128 + (n / 64) mod 64))
             (String (ascii_of_N (128 + n mod 64)) rest))
      else if (n <? 1114112)%N then
        String (ascii_of_N (240 + n / 262144))
          (String (ascii_of_N (128 + (n / 4096) mod 64))
             (String (ascii_of_N (128 + (n / 64) mod 64))
                (String (ascii_of_N (128 + n mod 64)) rest)))
      else String (ascii_of_N (n - 1114112)) rest
  end.

(** [String.prototype.isWellFormed]: no lone surrogate. *)
Definition isWellFormed (s : string) : bool :=
  forallb (fun n => ((n <? 55296) || (57343 <? n) && (n <? 1114112))%N)
          (decode s).

(** The UTF-16 code units of a code point: itself, or the surrogate pair of
    a code point past U+FFFF. *)
Definition unitsOf (n : N) : list N :=
  if ((65536 <=? n) && (n <? 1114112))%N
  then [55296 + (n - 65536) / 1024; 56320 + (n - 65536) mod 1024]%N
  else [n].

(** The code units of a string, which is what JavaScript indexes and
    compares. *)
Definition units (s : string) : list N := flat_map unitsOf (decode s).

(** *** Case mapping

    [String.prototype.toLowerCase]: the lower-case mapping of the Unicode
    Character Database (version 14.0), code point by code point, without
    locale.  [lowerTable] holds the simple mappings as runs
    [(first, last, step, image of first)]: the code points [first],
    [first + step], ... up to [last] map to the image of [first] shifted by
    the same amount.  U+0130 is the one code point whose image is two code
    points.  U+03A3, capital sigma, becomes the final sigma U+03C2 when a
    cased letter comes before it and none after it, letters that case
    ignores being skipped ([caseIgnorable] is the property Case_Ignorable,
    [cased] the property Cased), and the small sigma U+03C3 otherwise. *)
Definition lowerTable : list (N * N * N * N) :=
  ([
    (65, 90, 1, 97); (192, 214, 1, 224); (216, 222, 1, 248);
    (256, 302, 2, 257); (306, 310, 2, 307); (313, 327, 2, 314);
    (330, 374, 2, 331); (376, 376, 1, 255); (377, 381, 2, 378);
    (385, 385, 1, 595); (386, 388, 2, 387); (390, 390, 1, 596);
    (391, 391, 1, 392); (393, 394, 1, 598); (395, 395, 1, 396);
    (398, 398, 1, 477); (399, 399, 1, 601); (400, 400, 1, 603);
    (401, 401, 1, 402); (403, 403, 1, 608); (404, 404, 1, 611);
    (406, 406, 1, 617); (407, 407, 1, 616); (408, 408, 1, 409);
    (412, 412, 1, 623); (413, 413, 1, 626); (415, 415, 1, 629);
    (416, 420, 2, 417); (422, 422, 1, 640); (423, 423, 1, 424);
    (425, 425, 1, 643); (428, 428, 1, 429); (430, 430, 1, 648);
    (431, 431, 1, 432); (433, 434, 1, 650); (435, 437, 2, 436);
    (439, 439, 1, 658); (440, 440, 1, 441); (444, 444, 1, 445);
    (452, 452, 1, 454); (453, 453, 1, 454); (455, 455, 1, 457);
    (456, 456, 1, 457); (458, 458, 1, 460); (459, 475, 2, 460);
    (478, 494, 2, 479); (497, 497, 1, 499); (498, 500, 2, 499);
    (502, 502, 1, 405); (503, 503, 1, 447); (504, 542, 2, 505);
    (544, 544, 1, 414); (546, 562, 2, 547); (570, 570, 1, 11365);
    (571, 571, 1, 572); (573, 573, 1, 410); (574, 574, 1, 11366);
    (577, 577, 1, 578); (579, 579, 1, 384); (580, 580, 1, 649);
    (581, 581, 1, 652); (582, 590, 2, 583); (880, 882, 2, 881);
    (886, 886, 1, 887); (895, 895, 1, 1011); (902, 902, 1, 940);
    (904, 906, 1, 941); (908, 908, 1, 972); (910, 911, 1, 973);
    (913, 929, 1, 945); (931, 939, 1, 963); (975, 975, 1, 983);
    (984, 1006, 2, 985); (1012, 1012, 1, 952); (1015, 1015, 1, 1016);
    (1017, 1017, 1, 1010); (1018, 1018, 1, 1019); (1021, 1023, 1, 891);
    (1024, 1039, 1, 1104); (1040, 1071, 1, 1072); (1120, 1152, 2, 1121);
    (1162, 1214, 2, 1163); (1216, 1216, 1, 1231); (1217, 1229, 2, 1218);
    (1232, 1326, 2, 1233); (1329, 1366, 1, 1377); (4256, 4293, 1, 11520);
    (4295, 4295, 1, 11559); (4301, 4301, 1, 11565); (5024, 5103, 1, 43888);
    (5104, 5109, 1, 5112); (7312, 7354, 1, 4304); (7357, 7359, 1, 4349);
    (7680, 7828, 2, 7681); (7838, 7838, 1, 223); (7840, 7934, 2, 7841);
    (7944, 7951, 1, 7936); (7960, 7965, 1, 7952); (7976, 7983, 1, 7968);
    (7992, 7999, 1, 7984); (8008, 8013, 1, 8000); (8025, 8031, 2, 8017);
    (8040, 8047, 1, 8032); (8072, 8079, 1, 8064); (8088, 8095, 1, 8080);
    (8104, 8111, 1, 8096); (8120, 8121, 1, 8112); (8122, 8123, 1, 8048);
    (8124, 8124, 1, 8115); (8136, 8139, 1, 8050); (8140, 8140, 1, 8131);
    (8152, 8153, 1, 8144); (8154, 8155, 1, 8054); (8168, 8169, 1, 8160);
    (8170, 8171, 1, 8058); (8172, 8172, 1, 8165); (8184, 8185, 1, 8056);
    (8186, 8187, 1, 8060); (8188, 8188, 1, 8179); (8486, 8486, 1, 969);
    (8490, 8490, 1, 107); (8491, 8491, 1, 229); (8498, 8498, 1, 8526);
    (8544, 8559, 1, 8560); (8579, 8579, 1, 8580); (9398, 9423, 1, 9424);
    (11264, 11311, 1, 11312); (11360, 11360, 1, 11361); (11362, 11362, 1, 619);
    (11363, 11363, 1, 7549); (11364, 11364, 1, 637); (11367, 11371, 2, 11368);
    (11373, 11373, 1, 593); (11374, 11374, 1, 625); (11375, 11375, 1, 592);
    (11376, 11376, 1, 594); (11378, 11378, 1, 11379); (11381, 11381, 1, 11382);
    (11390, 11391, 1, 575); (11392, 11490, 2, 11393); (11499, 11501, 2, 11500);
    (11506, 11506, 1, 11507); (42560, 42604, 2, 42561); (42624, 42650, 2, 42625);
    (42786, 42798, 2, 42787); (42802, 42862, 2, 42803); (42873, 42875, 2, 42874);
    (42877, 42877, 1, 7545); (42878, 42886, 2, 42879); (42891, 42891, 1, 42892);
    (42893, 42893, 1, 613); (42896, 42898, 2, 42897); (42902, 42920, 2, 42903);
    (42922, 42922, 1, 614); (42923, 42923, 1, 604); (42924, 42924, 1, 609);
    (42925, 42925, 1, 620); (42926, 42926, 1, 618); (42928, 42928, 1, 670);
    (42929, 42929, 1, 647); (42930, 42930, 1, 669); (42931, 42931, 1, 43859);
    (42932, 42946, 2, 42933); (42948, 42948, 1, 42900); (42949, 42949, 1, 642);
    (42950, 42950, 1, 7566); (42951, 42953, 2, 42952); (42960, 42960, 1, 42961);
    (42966, 42968, 2, 42967); (42997, 42997, 1, 42998); (65313, 65338, 1, 65345);
    (66560, 66599, 1, 66600); (66736, 66771, 1, 66776); (66928, 66938, 1, 66967);
    (66940, 66954, 1, 66979); (66956, 66962, 1, 66995); (66964, 66965, 1, 67003);
    (68736, 68786, 1, 68800); (71840, 71871, 1, 71872); (93760, 93791, 1, 93792);
    (125184, 125217, 1, 125218) ])%N.

Definition caseIgnorableTable : list (N * N) :=
  ([
    (39, 39); (46, 46); (58, 58); (94, 94); (96, 96);
    (168, 168); (173, 173); (175, 175); (180, 180); (183, 184);
    (688, 879); (884, 885); (890, 890); (900, 901); (903, 903);
    (1155, 1161); (1369, 1369); (1375, 1375); (1425, 1469); (1471, 1471);
    (1473, 1474); (1476, 1477); (1479, 1479); (1524, 1524); (1536, 1541);
    (1552, 1562); (1564, 1564); (1600, 1600); (1611, 1631); (1648, 1648);
    (1750, 1757); (1759, 1768); (1770, 1773); (1807, 1807); (1809, 1809);
    (1840, 1866); (1958, 1968); (2027, 2037); (2042, 2042); (2045, 2045);
    (2070, 2093); (2137, 2139); (2184, 2184); (2192, 2193); (2200, 2207);
    (2249, 2306); (2362, 2362); (2364, 2364); (2369, 2376); (2381, 2381);
    (2385, 2391); (2402, 2403); (2417, 2417); (2433, 2433); (2492, 2492);
    (2497, 2500); (2509, 2509); (2530, 2531); (2558, 2558); (2561, 2562);
    (2620, 2620); (2625, 2626); (2631, 2632); (2635, 2637); (2641, 2641);
    (2672, 2673); (2677, 2677); (2689, 2690); (2748, 2748); (2753, 2757);
    (2759, 2760); (2765, 2765); (2786, 2787); (2810, 2815); (2817, 2817);
    (2876, 2876); (2879, 2879); (2881, 2884); (2893, 2893); (2901, 2902);
    (2914, 2915); (2946, 2946); (3008, 3008); (3021, 3021); (3072, 3072);
    (3076, 3076); (3132, 3132); (3134, 3136); (3142, 3144); (3146, 3149);
    (3157, 3158); (3170, 3171); (3201, 3201); (3260, 3260); (3263, 3263);
    (3270, 3270); (3276, 3277); (3298, 3299); (3328, 3329); (3387, 3388);
    (3393, 3396); (3405, 3405); (3426, 3427); (3457, 3457); (3530, 3530);
    (3538, 3540); (3542, 3542); (3633, 3633); (3636, 3642); (3654, 3662);
    (3761, 3761); (3764, 3772); (3782, 3782); (3784, 3789); (3864, 3865);
    (3893, 3893); (3895, 3895); (3897, 3897); (3953, 3966); (3968, 3972);
    (3974, 3975); (3981, 3991); (3993, 4028); (4038, 4038); (4141, 4144);
    (4146, 4151); (4153, 4154); (4157, 4158); (4184, 4185); (4190, 4192);
    (4209, 4212); (4226, 4226); (4229, 4230); (4237, 4237); (4253, 4253);
    (4348, 4348); (4957, 4959); (5906, 5908); (5938, 5939); (5970, 5971);
    (6002, 6003); (6068, 6069); (6071, 6077); (6086, 6086); (6089, 6099);
    (6103, 6103); (6109, 6109); (6155, 6159); (6211, 6211); (6277, 6278);
    (6313, 6313); (6432, 6434); (6439, 6440); (6450, 6450); (6457, 6459);
    (6679, 6680); (6683, 6683); (6742, 6742); (6744, 6750); (6752, 6752);
    (6754, 6754); (6757, 6764); (6771, 6780); (6783, 6783); (6823, 6823);
    (6832, 6862); (6912, 6915); (6964, 6964); (6966, 6970); (6972, 6972);
    (6978, 6978); (7019, 7027); (7040, 7041); (7074, 7077); (7080, 7081);
    (7083, 7085); (7142, 7142); (7144, 7145); (7149, 7149); (7151, 7153);
    (7212, 7219); (7222, 7223); (7288, 7293); (7376, 7378); (7380, 7392);
    (7394, 7400); (7405, 7405); (7412, 7412); (7416, 7417); (7468, 7530);
    (7544, 7544); (7579, 7679); (8125, 8125); (8127, 8129); (8141, 8143);
    (8157, 8159); (8173, 8175); (8189, 8190); (8203, 8207); (8216, 8217);
    (8228, 8228); (8231, 8231); (8234, 8238); (8288, 8292); (8294, 8303);
    (8305, 8305); (8319, 8319); (8336, 8348); (8400, 8432); (11388, 11389);
    (11503, 11505); (11631, 11631); (11647, 11647); (11744, 11775); (11823, 11823);
    (12293, 12293); (12330, 12333); (12337, 12341); (12347, 12347); (12441, 12446);
    (12540, 12542); (40981, 40981); (42232, 42237); (42508, 42508); (42607, 42610);
    (42612, 42621); (42623, 42623); (42652, 42655); (42736, 42737); (42752, 42785);
    (42864, 42864); (42888, 42890); (42994, 42996); (43000, 43001); (43010, 43010);
    (43014, 43014); (43019, 43019); (43045, 43046); (43052, 43052); (43204, 43205);
    (43232, 43249); (43263, 43263); (43302, 43309); (43335, 43345); (43392, 43394);
    (43443, 43443); (43446, 43449); (43452, 43453); (43471, 43471); (43493, 43494);
    (43561, 43566); (43569, 43570); (43573, 43574); (43587, 43587); (43596, 43596);
    (43632, 43632); (43644, 43644); (43696, 43696); (43698, 43700); (43703, 43704);
    (43710, 43711); (43713, 43713); (43741, 43741); (43756, 43757); (43763, 43764);
    (43766, 43766); (43867, 43871); (43881, 43883); (44005, 44005); (44008, 44008);
    (44013, 44013); (64286, 64286); (64434, 64450); (65024, 65039); (65043, 65043);
    (65056, 65071); (65106, 65106); (65109, 65109); (65279, 65279); (65287, 65287);
    (65294, 65294); (65306, 65306); (65342, 65342); (65344, 65344); (65392, 65392);
    (65438, 65439); (65507, 65507); (65529, 65531); (66045, 66045); (66272, 66272);
    (66422, 66426); (67456, 67461); (67463, 67504); (67506, 67514); (68097, 68099);
    (68101, 68102); (68108, 68111); (68152, 68154); (68159, 68159); (68325, 68326);
    (68900, 68903); (69291, 69292); (69446, 69456); (69506, 69509); (69633, 69633);
    (69688, 69702); (69744, 69744); (69747, 69748); (69759, 69761); (69811, 69814);
    (69817, 69818); (69821, 69821); (69826, 69826); (69837, 69837); (69888, 69890);
    (69927, 69931); (69933, 69940); (70003, 70003); (70016, 70017); (70070, 70078);
    (70089, 70092); (70095, 70095); (70191, 70193); (70196, 70196); (70198, 70199);
    (70206, 70206); (70367, 70367); (70371, 70378); (70400, 70401); (70459, 70460);
    (70464, 70464); (70502, 70508); (70512, 70516); (70712, 70719); (70722, 70724);
    (70726, 70726); (70750, 70750); (70835, 70840); (70842, 70842); (70847, 70848);
    (70850, 70851); (71090, 71093); (71100, 71101); (71103, 71104); (71132, 71133);
    (71219, 71226); (71229, 71229); (71231, 71232); (71339, 71339); (71341, 71341);
    (71344, 71349); (71351, 71351); (71453, 71455); (71458, 71461); (71463, 71467);
    (71727, 71735); (71737, 71738); (71995, 71996); (71998, 71998); (72003, 72003);
    (72148, 72151); (72154, 72155); (72160, 72160); (72193, 72202); (72243, 72248);
    (72251, 72254); (72263, 72263); (72273, 72278); (72281, 72283); (72330, 72342);
    (72344, 72345); (72752, 72758); (72760, 72765); (72767, 72767); (72850, 72871);
    (72874, 72880); (72882, 72883); (72885, 72886); (73009, 73014); (73018, 73018);
    (73020, 73021); (73023, 73029); (73031, 73031); (73104, 73105); (73109, 73109);
    (73111, 73111); (73459, 73460); (78896, 78904); (92912, 92916); (92976, 92982);
    (92992, 92995); (94031, 94031); (94095, 94111); (94176, 94177); (94179, 94180);
    (110576, 110579); (110581, 110587); (110589, 110590); (113821, 113822); (113824, 113827);
    (118528, 118573); (118576, 118598); (119143, 119145); (119155, 119170); (119173, 119179);
    (119210, 119213); (119362, 119364); (121344, 121398); (121403, 121452); (121461, 121461);
    (121476, 121476); (121499, 121503); (121505, 121519); (122880, 122886); (122888, 122904);
    (122907, 122913); (122915, 122916); (122918, 122922); (123184, 123197); (123566, 123566);
    (123628, 123631); (125136, 125142); (125252, 125259); (127995, 127999); (917505, 917505);
    (917536, 917631); (917760, 917999) ])%N.

Definition casedTable : list (N * N) :=
  ([
    (65, 90); (97, 122); (170, 170); (181, 181); (186, 186);
    (192, 214); (216, 246); (248, 442); (444, 447); (452, 659);
    (661, 696); (704, 705); (736, 740); (837, 837); (880, 883);
    (886, 887); (890, 893); (895, 895); (902, 902); (904, 906);
    (908, 908); (910, 929); (931, 1013); (1015, 1153); (1162, 1327);
    (1329, 1366); (1376, 1416); (4256, 4293); (4295, 4295); (4301, 4301);
    (4304, 4346); (4349, 4351); (5024, 5109); (5112, 5117); (7296, 7304);
    (7312, 7354); (7357, 7359); (7424, 7615); (7680, 7957); (7960, 7965);
    (7968, 8005); (8008, 8013); (8016, 8023); (8025, 8025); (8027, 8027);
    (8029, 8029); (8031, 8061); (8064, 8116); (8118, 8124); (8126, 8126);
    (8130, 8132); (8134, 8140); (8144, 8147); (8150, 8155); (8160, 8172);
    (8178, 8180); (8182, 8188); (8305, 8305); (8319, 8319); (8336, 8348);
    (8450, 8450); (8455, 8455); (8458, 8467); (8469, 8469); (8473, 8477);
    (8484, 8484); (8486, 8486); (8488, 8488); (8490, 8493); (8495, 8500);
    (8505, 8505); (8508, 8511); (8517, 8521); (8526, 8526); (8544, 8575);
    (8579, 8580); (9398, 9449); (11264, 11492); (11499, 11502); (11506, 11507);
    (11520, 11557); (11559, 11559); (11565, 11565); (42560, 42605); (42624, 42653);
    (42786, 42887); (42891, 42894); (42896, 42954); (42960, 42961); (42963, 42963);
    (42965, 42969); (42997, 42998); (43000, 43002); (43824, 43866); (43868, 43880);
    (43888, 43967); (64256, 64262); (64275, 64279); (65313, 65338); (65345, 65370);
    (66560, 66639); (66736, 66771); (66776, 66811); (66928, 66938); (66940, 66954);
    (66956, 66962); (66964, 66965); (66967, 66977); (66979, 66993); (66995, 67001);
    (67003, 67004); (67456, 67456); (67459, 67461); (67463, 67504); (67506, 67514);
    (68736, 68786); (68800, 68850); (71840, 71903); (93760, 93823); (119808, 119892);
    (119894, 119964); (119966, 119967); (119970, 119970); (119973, 119974); (119977, 119980);
    (119982, 119993); (119995, 119995); (119997, 120003); (120005, 120069); (120071, 120074);
    (120077, 120084); (120086, 120092); (120094, 120121); (120123, 120126); (120128, 120132);
    (120134, 120134); (120138, 120144); (120146, 120485); (120488, 120512); (120514, 120538);
    (120540, 120570); (120572, 120596); (120598, 120628); (120630, 120654); (120656, 120686);
    (120688, 120712); (120714, 120744); (120746, 120770); (120772, 120779); (122624, 122633);
    (122635, 122654); (125184, 125251); (127280, 127305); (127312, 127337); (127344, 127369) ])%N.

Fixpoint lookupLower (table : list (N * N * N * N)) (n : N) : N :=
  match table with
  | [] => n
  | (lo, hi, step, image) :: rest =>
      if (n <? lo)%N then n
      else if ((n <=? hi) && ((n - lo) mod step =? 0))%N then (image + (n - lo))%N
      else lookupLower rest n
  end.

Fixpoint inRanges (table : list (N * N)) (n : N) : bool :=
  match table with
  | [] => false
  | (lo, hi) :: rest =>
      if (n <? lo)%N then false
      else if (n <=? hi)%N then true
      else inRanges rest n
  end.

Definition caseIgnorable (n : N) : bool := inRanges caseIgnorableTable n.
Definition cased (n : N) : bool := inRanges casedTable n.

(** The lower-case image of one code point, out of context. *)
Definition toLower1 (n : N) : list N :=
  if (n =? 304)%N then [105; 775]%N else [lookupLower lowerTable n].

(** Going away from a sigma along [l]: the first code point that case does
    not ignore is a cased letter. *)
Fixpoint nextIsCased (l : list N) : bool :=
  match l with
  | [] => false
  | c :: r => if caseIgnorable c then nextIsCased r else cased c
  end.

(** [before] holds the code points already passed, the nearest first. *)
Fixpoint lowerAll (before l : list N) : list N :=
  match l with
  | [] => []
  | c :: r =>
      (if (c =? 931)%N then
         if nextIsCased before && negb (nextIsCased r) then [962%N] else [963%N]
       else toLower1 c)
        ++ lowerAll (c :: before) r
  end.

Definition toLowerCase (s : string) : string :=
  encode (lowerAll [] (decode s)).

(** *** Substring search *)

(** The code units [sub] are the first of [l]. *)
Fixpoint startsWith (l sub : list N) {struct sub} : bool :=
  match sub, l with
  | [], _ => true
  | a :: sub', b :: l' => (a =? b)%N && startsWith l' sub'
  | _ :: _, [] => false
  end.

(** The code units [sub] occur in [l] at some position. *)
Fixpoint occursIn (l sub : list N) : bool :=
  startsWith l sub ||
  match l with
  | _ :: r => occursIn r sub
  | [] => false
  end.

(** [String.prototype.includes]: the code units of [sub] occur in those of
    [s] at some position. *)
Definition includes (s sub : string) : bool := occursIn (units s) (units sub).

(** *** Numbers

    The values [Number] can return on a string.  A finite value is kept as the
    exact decimal [mantissa * 10 ^ exp10] that the literal denotes; rounding to
    binary64 is not modelled. *)
Inductive number : Type :=
| NaN
| Infinity (negative : bool)
| Finite (mantissa exp10 : Z).

Definition digit (base : N) (c : ascii) : option Z :=
  let n := code c in
  let v := (if (48 <=? n) && (n <=? 57) then Some (n - 48)
            else if (97 <=? n) && (n <=? 102) then Some (n - 87)
            else if (65 <=? n) && (n <=? 70) then Some (n - 55)
            else None)%N in
  match v with
  | Some d => if (d <? base)%N then Some (Z.of_N d) else None
  | None => None
  end.

(** Reads the longest run of digits of [base], accumulating onto [acc];
    returns the value, the number of digits read and the rest. *)
Fixpoint readDigits (base : N) (acc : Z) (cnt : nat) (s : string) : Z * nat * string :=
  match s with
  | String c r =>
      match digit base c with
      | Some d => readDigits base (Z.of_N base * acc + d) (S cnt) r
      | None => (acc, cnt, s)
      end
  | EmptyString => (acc, cnt, s)
  end.

(** [NonDecimalIntegerLiteral] after its prefix: digits only, at least one. *)
Definition nonDecimal (base : N) (s : string) : number :=
  match readDigits base 0 0 s with
  | (v, S _, EmptyString) => Finite v 0
  | _ => NaN
  end.

(** A sign: the factor and the rest. *)
Definition readSign (s : string) : Z * string :=
  match s with
  | String "+" r => (1%Z, r)
  | String "-" r => ((-1)%Z, r)
  | _ => (1%Z, s)
  end.

(** [ExponentPart], optional; [None] when what follows is no exponent and
    not the end of the string. *)
Definition readExponent (s : string) : option Z :=
  match s with
  | EmptyString => Some 0%Z
  | String c r =>
      if (Ascii.eqb c "e" || Ascii.eqb c "E")%bool then
        let (sg, r1) := readSign r in
        match readDigits 10 0 0 r1 with
        | (v, S _, EmptyString) => Some (sg * v)%Z
        | _ => None
        end
      else None
  end.

(** [StrUnsignedDecimalLiteral] but [Infinity]. *)
Definition unsignedDecimal (sg : Z) (s : string) : number :=
  let '(ip, ni, r1) := readDigits 10 0 0 s in
  let '(m, nf, r2) :=
    match r1 with
    | String "." r => readDigits 10 ip 0 r
    | _ => (ip, 0, r1)
    end in
  match ni + nf with
  | 0 => NaN
  | S _ =>
      match readExponent r2 with
      | Some e => Finite (sg * m) (e - Z.of_nat nf)
      | None => NaN
      end
  end.

(** [StringToNumber], the conversion [Number(s)] applies to a string. *)
Definition Number (s : string) : number :=
  let t := trim s in
  match t with
  | EmptyString => Finite 0 0
  | String "0" (String "x" r) | String "0" (String "X" r) => nonDecimal 16 r
  | String "0" (String "o" r) | String "0" (String "O" r) => nonDecimal 8 r
  | String "0" (String "b" r) | String "0" (String "B" r) => nonDecimal 2 r
  | _ =>
      let (sg, r) := readSign t in
      if r =? "Infinity" then Infinity (sg <? 0)%Z
      else unsignedDecimal sg r
  end.

(** [x === n] for a number [x] and an integer-valued number [n]. *)
Definition number_eq_int (x : number) (n : Z) : bool :=
  match x with
  | Finite m e =>
      if (0 <=? e)%Z then (m * 10 ^ e =? n)%Z else (m =? n * 10 ^ (- e))%Z
  | _ => false
  end.

(** *** Values of type [number | null]

    A product's [series] is [null] or an integer-valued number: [option Z]. *)

(** [ToBoolean]: [null] and [0] are falsy. *)
Definition truthy_series (v : option Z) : bool :=
  match v with
  | Some n => negb (n =? 0)%Z
  | None => false
  end.

(** [a === b] on two such values. *)
Definition strict_eq_series (a b : option Z) : bool :=
  match a, b with
  | Some n, Some m => (n =? m)%Z
  | None, None => true
  | _, _ => false
  end.

(** [v === x] for such a value [v] and a number [x]. *)
Definition strict_eq_number (v : option Z) (x : number) : bool :=
  match v with
  | Some n => number_eq_int x n
  | None => false
  end.

(** *** Conversions used by the page code *)

(** [String(n)] for a non-negative integer below 10^21: its decimal digits. *)
Definition toStringNat (n : nat) : string :=
  DecimalString.NilEmpty.string_of_uint (Nat.to_uint n).

(** [parseInt(s, 10)]: leading white space is skipped, then a sign, then the
    longest run of decimal digits is read; [NaN] when there is no digit.  The
    integer is kept exact. *)
Definition parseInt (s : string) : number :=
  let (sg, r) := readSign (trimStart s) in
  match readDigits 10 0 0 r with
  | (v, S _, _) => Finite (sg * v) 0
  | (_, O, _) => NaN
  end.

(** [isNaN(x)] on a number. *)
Definition isNaN (x : number) : bool :=
  match x with
  | NaN => true
  | _ => false
  end.

(** [arr[x]] for an array of strings and a number [x]: the element when [x] is
    an index of the array, [undefined] otherwise. *)
Definition index (arr : list string) (x : number) : option string :=
  match x with
  | Finite m e =>
      if (e =? 0)%Z && (0 <=? m)%Z then nth_error arr (Z.to_nat m) else None
  | _ => None
  end.

(** The characters [encodeURIComponent] leaves as they are:
    letters, digits and [- _ . ! ~ * ' ( )]. *)
Definition unreserved (c : ascii) : bool :=
  let n := code c in
  ((65 <=? n) && (n <=? 90) || (97 <=? n) && (n <=? 122)
   || (48 <=? n) && (n <=? 57)
   || (n =? 45) || (n =? 95) || (n =? 46) || (n =? 33) || (n =? 126)
   || (n =? 42) || (n =? 39) || (n =? 40) || (n =? 41))%N.

Definition hexDigit (n : N) : ascii :=
  ascii_of_N (if (n <? 10)%N then 48 + n else 55 + n).

(** [encodeURIComponent], the encoding: every other byte of the UTF-8 form
    becomes [%XX] in upper-case hexadecimal. *)
Fixpoint encodeURIComponent (s : string) : string :=
  match s with
  | String c r =>
      if unreserved c then String c (encodeURIComponent r)
      else String "%" (String (hexDigit (code c / 16))
                         (String (hexDigit (code c mod 16)) (encodeURIComponent r)))
  | EmptyString => ""
  end.

(** The exceptions the form script can end in. *)
Inductive Exception : Type := TypeError | URIError.

(** [encodeURIComponent] with its exception: a string that holds a lone
    surrogate has no UTF-8 form, and the call throws a [URIError]. *)
Definition encodeURIComponent_call (s : string) : Exception + string :=
  if isWellFormed s then inr (encodeURIComponent s) else inl URIError.

(** [lines.join(sep)]. *)
Fixpoint join (sep : string) (lines : list string) : string :=
  match lines with
  | [] => ""
  | [l] => l
  | l :: rest => (l ++ sep ++ join sep rest)%string
  end.

Definition nl : string := String (ascii_of_N 10) "".

(** A template literal: the concatenation of its chunks. *)
Definition template (chunks : list string) : string := String.concat "" chunks.

(** [String(v)] for a string or [undefined]. *)
Definition toStringOpt (v : option string) : string :=
  match v with
  | Some s => s
  | None => "undefined"
  end.

End JS.

(** ** The product record ([@typedef Product] of products.data.js) *)
Record Product : Type := {
  id : string;
  name : string;
  category : string;
  series : option Z;
  condition : string;
  specs : list string;
  gallery : list string;
  description : string;
  waMessage : string
}.

(** ** products.data.js

    [PRODUCTS] is the array literal, as the list of its records.  The two
    functions only read that array and return a product or an array of their
    own, so they are given on the elements. *)
Module PSM.

Definition iph_17_pro_max : Product :=
  {| id := "iph-17-pro-max";
     name := "iPhone 17 Pro Max";
     category := "iphone";
     series := Some 17%Z;
     condition := "nuevo";
     specs := ["A19 Pro"; "Titanio"; "256GB"];
     gallery :=
       ["img/phone/product/iphone_17/17_pro_max_png/17promax.png";
        "img/phone/product/iphone_17/iphone-17-series.webp"];
     description :=
       "El iPhone más avanzado de la historia. El chip A19 Pro establece nuevos estándares de rendimiento, con una cámara Pro de 48 MP con zoom óptico 5x y pantalla Super Retina XDR ProMotion 120Hz en titanio grado aeroespacial.";
     waMessage := "Hola, me interesa el iPhone 17 Pro Max" |}.

Definition iph_17 : Product :=
  {| id := "iph-17";
     name := "iPhone 17";
     category := "iphone";
     series := Some 17%Z;
     condition := "nuevo";
     specs := ["A19"; ("6.1" ++ JS.dquote)%string; "128GB"];
     gallery :=
       ["img/phone/product/iphone_17/17_plus/iphone-17.png";
        "img/phone/product/iphone_17/iphone-17-series.webp"];
     description :=
       "Toda la potencia del A19 en el formato estándar. Dynamic Island, carga rápida y la misma durabilidad de siempre en un diseño renovado.";
     waMessage := "Hola, me interesa el iPhone 17" |}.

Definition iph_16_pro_max : Product :=
  {| id := "iph-16-pro-max";
     name := "iPhone 16 Pro Max";
     category := "iphone";
     series := Some 16%Z;
     condition := "nuevo";
     specs := ["A18 Pro"; "Titanio"; "256GB"];
     gallery :=
       ["img/phone/product/iphone_16/16_pro_max/16_pro_max.png";
        "img/phone/product/iphone_16/0021697_iphone-16-16-plus-series.jpeg"];
     description :=
       ("Pantalla de 6.9" ++ JS.dquote ++ " ProMotion 120Hz, chip A18 Pro y sistema de cámara Pro más avanzado de Apple hasta la fecha. Con Action Button y botón de Control de Cámara. Cuerpo de titanio grado aeroespacial.")%string;
     waMessage := "Hola, me interesa el iPhone 16 Pro Max" |}.

Definition iph_16 : Product :=
  {| id := "iph-16";
     name := "iPhone 16 Negro";
     category := "iphone";
     series := Some 16%Z;
     condition := "nuevo";
     specs := ["A18"; ("6.1" ++ JS.dquote)%string; "128GB"; "Negro Titanio"];
     gallery :=
       ["img/phone/product/iphone_16/png/iphone_16_black_titanium.png";
        "img/phone/product/iphone_16/iphone-16-finish-select-202409-6-1inch-black.jfif"];
     description :=
       "El iPhone 16 en Negro Titanio. Chip A18 con Apple Intelligence, cámara Fusion de 48 MP y Dynamic Island. USB-C con transferencia a 10 Gb/s.";
     waMessage := "Hola, me interesa el iPhone 16 en Negro Titanio" |}.

Definition iph_16_pink : Product :=
  {| id := "iph-16-pink";
     name := "iPhone 16 Rosa";
     category := "iphone";
     series := Some 16%Z;
     condition := "nuevo";
     specs := ["A18"; ("6.1" ++ JS.dquote)%string; "128GB"; "Rosa"];
     gallery :=
       ["img/phone/product/iphone_16/png/iphone_16_pink.png";
        "img/phone/product/iphone_16/iPhone-16-Teal-1.png"];
     description :=
       "El iPhone 16 en acabado Rosa. Todo el rendimiento del A18 con Apple Intelligence en el color más solicitado de la temporada.";
     waMessage := "Hola, me interesa el iPhone 16 en color Rosa" |}.

Definition iph_16_white : Product :=
  {| id := "iph-16-white";
     name := "iPhone 16 Blanco";
     category := "iphone";
     series := Some 16%Z;
     condition := "nuevo";
     specs := ["A18"; ("6.1" ++ JS.dquote)%string; "128GB"; "Blanco"];
     gallery :=
       ["img/phone/product/iphone_16/png/iphone_16_white.png";
        "img/phone/product/iphone_16/0021697_iphone-16-16-plus-series.jpeg"];
     description :=
       "El iPhone 16 en Blanco. Diseño atemporal con chip A18 y el sistema de cámara más inteligente de la línea estándar.";
     waMessage := "Hola, me interesa el iPhone 16 en color Blanco" |}.

Definition iph_15_pro_max : Product :=
  {| id := "iph-15-pro-max";
     name := "iPhone 15 Pro Max";
     category := "iphone";
     series := Some 15%Z;
     condition := "nuevo";
     specs := ["A17 Pro"; "Titanio"; "256GB"];
     gallery :=
       ["img/phone/product/iphone_15/15_pro_max/15_pro_max.png";
        "img/phone/iphone-15-pro-max-blue-titanium-256gb-back_4.jpg"];
     description :=
       "El primer iPhone con cuerpo de titanio grado aeroespacial. Chip A17 Pro con GPU de 6 núcleos, zoom óptico 5x y Action Button personalizable. USB-C con Thunderbolt 3.";
     waMessage := "Hola, me interesa el iPhone 15 Pro Max" |}.

Definition iph_15_black : Product :=
  {| id := "iph-15-black";
     name := "iPhone 15 Negro";
     category := "iphone";
     series := Some 15%Z;
     condition := "certificado";
     specs := ["A16 Bionic"; ("6.1" ++ JS.dquote)%string; "128GB"];
     gallery :=
       ["img/phone/product/iphone_15/iphone_15/iphone_15_black.png";
        "img/phone/product/iphone_15/iphone_15/iphone_15_cream_1.png"];
     description :=
       "Certificado PSM. El iPhone 15 Negro en condición revisada y garantizada. Pantalla Super Retina XDR con Dynamic Island, chip A16 Bionic y cámara principal de 48 MP.";
     waMessage := "Hola, me interesa el iPhone 15 Negro certificado" |}.

Definition iph_15_cream : Product :=
  {| id := "iph-15-cream";
     name := "iPhone 15 Crema";
     category := "iphone";
     series := Some 15%Z;
     condition := "certificado";
     specs := ["A16 Bionic"; ("6.1" ++ JS.dquote)%string; "128GB"; "Crema"];
     gallery :=
       ["img/phone/product/iphone_15/iphone_15/iphone_15_cream_1.png";
        "img/phone/product/iphone_15/iphone_15/iphone_15_white.png"];
     description :=
       "Certificado PSM. iPhone 15 en Crema — el tono más elegante de la Serie 15. Revisado, garantizado y listo para estrenar.";
     waMessage := "Hola, me interesa el iPhone 15 en color Crema" |}.

Definition iph_15_white : Product :=
  {| id := "iph-15-white";
     name := "iPhone 15 Blanco";
     category := "iphone";
     series := Some 15%Z;
     condition := "certificado";
     specs := ["A16 Bionic"; ("6.1" ++ JS.dquote)%string; "128GB"; "Blanco"];
     gallery :=
       ["img/phone/product/iphone_15/iphone_15/iphone_15_white.png";
        "img/phone/product/iphone_15/iphone_15/iphone_15_cream_1.png"];
     description :=
       "Certificado PSM. iPhone 15 Blanco con revisión técnica completa. 60 días de garantía PSM incluida.";
     waMessage := "Hola, me interesa el iPhone 15 en color Blanco" |}.

Definition acc_cargador_40w : Product :=
  {| id := "acc-cargador-40w";
     name := "Cargador Apple 40W";
     category := "accesorio";
     series := None;
     condition := "nuevo";
     specs := ["Original Apple"; "40W"; "USB-C"];
     gallery :=
       ["img/accesorys/cargador40w/PNG/40w.png"];
     description :=
       "Cargador original Apple de 40W con conector USB-C. Compatible con iPhone 15 y 16. Carga hasta un 50% en 30 minutos. Incluye cable USB-C.";
     waMessage := "Hola, me interesa el Cargador Apple 40W" |}.

Definition acc_cable_typec : Product :=
  {| id := "acc-cable-typec";
     name := "Cable Anker USB-C";
     category := "accesorio";
     series := None;
     condition := "nuevo";
     specs := ["Nylon trenzado"; "1 metro"; "USB-C a USB-C"];
     gallery :=
       ["img/accesorys/cableTypeC/PNG/cabletypec.png"];
     description :=
       "Cable Anker USB-C a USB-C de nylon trenzado. 1 metro de longitud, soporta carga rápida y transferencia de datos. Compatible con todos los iPhone con puerto USB-C.";
     waMessage := "Hola, me interesa el Cable Anker USB-C" |}.

Definition acc_airpods_4 : Product :=
  {| id := "acc-airpods-4";
     name := "AirPods Serie 4";
     category := "accesorio";
     series := None;
     condition := "nuevo";
     specs := ["Original Apple"; "ANC activo"; "USB-C"; "H2 chip"];
     gallery :=
       ["img/accesorys/airpods/serie4/PNG/airpods-serie4.png"];
     description :=
       "AirPods Serie 4 con cancelación activa de ruido. Diseño abierto rediseñado, chip H2, hasta 30 horas de batería total con estuche. Puerto USB-C.";
     waMessage := "Hola, me interesa los AirPods Serie 4" |}.

Definition rep_camara_frontal_15 : Product :=
  {| id := "rep-camara-frontal-15";
     name := "Cámara Frontal 15 Pro Max";
     category := "repuesto";
     series := None;
     condition := "nuevo";
     specs := ["Original Apple"; "Serie 13 al 15"; "Incluye instalación"];
     gallery :=
       ["img/accesorys/camara_iphone_pro_max/iphone_15_pro_max/PNG/camara-accesory-iphone-15-pro-max.png"];
     description :=
       "Módulo de cámara frontal TrueDepth original para iPhone 13, 14 y 15 Pro Max. Incluye instalación por técnico certificado PSM y garantía de 30 días sobre el trabajo.";
     waMessage := "Hola, me interesa la Cámara Frontal para mi iPhone" |}.

Definition rep_camara_trasera_14 : Product :=
  {| id := "rep-camara-trasera-14";
     name := "Cámara Trasera Serie 14";
     category := "repuesto";
     series := None;
     condition := "nuevo";
     specs := ["Original Apple"; "Serie 14 al 16"; "Incluye instalación"];
     gallery :=
       ["img/accesorys/camara_iphone_pro_max/trasera-iphone_14/PNG/camara-trasera_iphone14.png"];
     description :=
       "Módulo de cámara trasera original para iPhone 14, 15 y 16. Reemplaza el módulo completo. Instalación por técnico certificado PSM incluida con garantía de 30 días.";
     waMessage := "Hola, me interesa la Cámara Trasera para mi iPhone" |}.

Definition rep_bateria_15 : Product :=
  {| id := "rep-bateria-15";
     name := "Batería iPhone 15 Pro Max";
     category := "repuesto";
     series := None;
     condition := "nuevo";
     specs := ["Original Apple"; "Serie 14 al 16"; "Incluye instalación"; "100% salud"];
     gallery :=
       ["img/accesorys/bateries/PNG/bateries-iphone-15-pro-max.png"];
     description :=
       "Batería original Apple al 100% de salud para iPhone 14, 15 y 16. El reemplazo devuelve la autonomía original de tu iPhone. Instalación en el día con garantía de 30 días.";
     waMessage := "Hola, me interesa el reemplazo de Batería para mi iPhone" |}.

Definition PRODUCTS : list Product :=
  [ iph_17_pro_max;
    iph_17;
    iph_16_pro_max;
    iph_16;
    iph_16_pink;
    iph_16_white;
    iph_15_pro_max;
    iph_15_black;
    iph_15_cream;
    iph_15_white;
    acc_cargador_40w;
    acc_cable_typec;
    acc_airpods_4;
    rep_camara_frontal_15;
    rep_camara_trasera_14;
    rep_bateria_15 ].

(** [window.PSM.findProductById]; [None] is [undefined]. *)
Definition findProductById (id' : string) : option Product :=
  find (fun p => p.(id) =? id') PRODUCTS.

Definition MAX_RELATED : nat := 4.

(** [window.PSM.getRelatedProducts]. *)
Definition getRelatedProducts (product : Product) : list Product :=
  firstn MAX_RELATED
    (filter
       (fun p =>
          negb (p.(id) =? product.(id))
          && ((JS.truthy_series p.(series)
               && JS.strict_eq_series p.(series) product.(series))
              || (p.(category) =? product.(category))))
       PRODUCTS).

End PSM.

(** ** catalogo.js: the data layer

    A JavaScript array is an object with an identity.  The store lists the
    arrays of products allocated so far and a reference is an index in it;
    allocation appends.  A computation takes the store and returns its value
    with the new store; none of the functions below throws.  Only arrays of
    products are kept in the store: the array of closures that
    [getFilteredProducts] builds is the list [stages]. *)
Module Catalogo.

Definition ref : Type := nat.
Definition heap : Type := list (list Product).
Definition M (A : Type) : Type := heap -> A * heap.

Definition ret {A : Type} (a : A) : M A := fun h => (a, h).

Definition bind {A B : Type} (m : M A) (k : A -> M B) : M B :=
  fun h => let (a, h') := m h in k a h'.

Notation "x <- m ;; k" := (bind m (fun x => k))
  (at level 61, m at next level, right associativity).

(** The elements of the array at [r]. *)
Definition contents (h : heap) (r : ref) : list Product := nth r h [].

(** [Array.prototype.filter]: reads [arr], allocates the array of the elements
    the callback accepts and returns the new reference. *)
Definition Array_filter (cb : Product -> bool) (arr : ref) : M ref :=
  fun h => (length h, h ++ [filter cb (contents h arr)]).

(** The store once products.data.js has run on [catalog], and the constant
    [PRODUCTS = window.PSM.PRODUCTS] that refers to the array. *)
Definition loaded (catalog : list Product) : heap := [catalog].
Definition PRODUCTS : ref := 0.

(** The elements of the array a computation returns, run from [h]. *)
Definition result (m : M ref) (h : heap) : list Product :=
  let (r, h') := m h in contents h' r.

Module FilterState.
Record t : Type := {
  category : string;
  series : string;
  condition : string;
  search : string
}.
End FilterState.

(** The filter state at page start. *)
Definition filterState : FilterState.t :=
  {| FilterState.category := "all";
     FilterState.series := "all";
     FilterState.condition := "all";
     FilterState.search := "" |}.

Definition filterByCategory (products : ref) (category' : string) : M ref :=
  if category' =? "all" then ret products
  else Array_filter (fun p => p.(category) =? category') products.

Definition filterBySeries (products : ref) (series' : string) : M ref :=
  if series' =? "all" then ret products
  else Array_filter
         (fun p => JS.strict_eq_number p.(series) (JS.Number series')) products.

Definition filterByCondition (products : ref) (condition' : string) : M ref :=
  if condition' =? "all" then ret products
  else Array_filter (fun p => p.(condition) =? condition') products.

(** The callback of [filterBySearch], on the lowercased query. *)
Definition searchMatch (normalized : string) (p : Product) : bool :=
  JS.includes (JS.toLowerCase p.(name)) normalized
  || existsb (fun s => JS.includes (JS.toLowerCase s) normalized) p.(specs).

Definition filterBySearch (products : ref) (query : string) : M ref :=
  if negb (JS.truthy (JS.trim query)) then ret products
  else
    let normalized := JS.toLowerCase query in
    Array_filter (searchMatch normalized) products.

(** The four closures [getFilteredProducts] folds over. *)
Definition stages (st : FilterState.t) : list (ref -> M ref) :=
  [ fun p => filterByCategory p st.(FilterState.category);
    fun p => filterBySeries p st.(FilterState.series);
    fun p => filterByCondition p st.(FilterState.condition);
    fun p => filterBySearch p st.(FilterState.search) ].

(** [fns.reduce((products, fn) => fn(products), init)]. *)
Fixpoint reduce (fns : list (ref -> M ref)) (init : ref) : M ref :=
  match fns with
  | [] => ret init
  | fn :: rest => products <- fn init ;; reduce rest products
  end.

(** [getFilteredProducts], reading the filter state [st]. *)
Definition getFilteredProducts (st : FilterState.t) : M ref :=
  reduce (stages st) PRODUCTS.

(** A product card's badge. *)
Record Badge : Type := { cssClass : string; label : string }.

(** [resolveBadge] of the catalog page; [MAP] as the lookup of its own keys,
    [None] being [undefined]. *)
Definition MAP (key : string) : option Badge :=
  if key =? "nuevo" then
    Some {| cssClass := "catalog-card__badge--new"; label := "Nuevo" |}
  else if key =? "certificado" then
    Some {| cssClass := "catalog-card__badge--certified"; label := "Certificado" |}
  else if key =? "accesorio" then
    Some {| cssClass := "catalog-card__badge--accessory"; label := "Accesorio" |}
  else if key =? "repuesto" then
    Some {| cssClass := "catalog-card__badge--accessory"; label := "Repuesto" |}
  else None.

Definition resolveBadge (product : Product) : option Badge :=
  if negb (product.(category) =? "iphone") then MAP product.(category)
  else MAP product.(condition).


(** *** The event layer, as far as it decides the filter state *)

(** [filterState[key] = value].  A key that is none of the four fields adds a
    property that no filter reads. *)
Definition assign (key value : string) (st : FilterState.t) : FilterState.t :=
  if key =? "category" then
    {| FilterState.category := value;
       FilterState.series := st.(FilterState.series);
       FilterState.condition := st.(FilterState.condition);
       FilterState.search := st.(FilterState.search) |}
  else if key =? "series" then
    {| FilterState.category := st.(FilterState.category);
       FilterState.series := value;
       FilterState.condition := st.(FilterState.condition);
       FilterState.search := st.(FilterState.search) |}
  else if key =? "condition" then
    {| FilterState.category := st.(FilterState.category);
       FilterState.series := st.(FilterState.series);
       FilterState.condition := value;
       FilterState.search := st.(FilterState.search) |}
  else if key =? "search" then
    {| FilterState.category := st.(FilterState.category);
       FilterState.series := st.(FilterState.series);
       FilterState.condition := st.(FilterState.condition);
       FilterState.search := value |}
  else st.

(** [handleFilterClick], on the filter state: [pillContainer] tells whether
    the clicked pill is inside a pill container, [filter] is the pill's
    [data-filter].  Returns the new state and, unless it returned early, the
    array it hands to [renderGrid]. *)
Definition handleFilterClick (pillContainer : bool) (filterGroup filter : string)
    (st : FilterState.t) : FilterState.t * option (M ref) :=
  if negb pillContainer then (st, None)
  else
    let st1 := assign filterGroup filter st in
    let st2 :=
      if (filterGroup =? "category")
         && negb (st1.(FilterState.category) =? "iphone")
      then assign "series" "all" st1
      else st1 in
    (st2, Some (getFilteredProducts st2)).

(** The handler that [handleSearch] debounces. *)
Definition handleSearch (query : string) (st : FilterState.t)
  : FilterState.t * M ref :=
  let st1 := assign "search" query st in
  (st1, getFilteredProducts st1).

Definition CATEGORY_FILTERS : list string := ["iphone"; "accesorio"; "repuesto"].
Definition CONDITION_FILTERS : list string := ["nuevo"; "certificado"].

(** [Array.prototype.includes] on an array of strings. *)
Definition Array_includes (arr : list string) (x : string) : bool :=
  existsb (fun y => y =? x) arr.

(** [applyUrlFilter], on the filter state; [filter] is what
    [params.get('filter')] returns, [None] being [null]. *)
Definition applyUrlFilter (filter : option string) (st : FilterState.t)
  : FilterState.t :=
  match filter with
  | None => st
  | Some f =>
      if negb (JS.truthy f) then st
      else
        let st1 := if Array_includes CATEGORY_FILTERS f
                   then assign "category" f st else st in
        if Array_includes CONDITION_FILTERS f
        then assign "condition" f st1 else st1
  end.

(** *** The render functions *)

Definition WHATSAPP_NUMBER : string := "584146395496".
Definition WHATSAPP_BASE : string := "https://wa.me/".
Definition ANIMATION_STAGGER_MS : nat := 60.

(** [product.image]: the product record has no such property. *)
Definition image (product : Product) : option string := None.

(** [renderProductCard]; [None] is the [TypeError] of reading [cssClass] of
    an [undefined] badge.  The message of a product is a literal of the data
    file and is taken to hold no lone surrogate, on which
    [encodeURIComponent] would throw. *)
Definition renderProductCard (product : Product) (index : nat) : option string :=
  match resolveBadge product with
  | None => None
  | Some badge =>
      let waUrl :=
        JS.template [ WHATSAPP_BASE; WHATSAPP_NUMBER; "?text=";
                      JS.encodeURIComponent product.(waMessage) ] in
      let delay := index * ANIMATION_STAGGER_MS in
      let specTags :=
        JS.join ""
          (map (fun s =>
                  JS.template [ "<span class="; JS.dquote; "catalog-card__spec-tag";
                                JS.dquote; ">"; s; "</span>" ])
               product.(specs)) in
      Some (JS.template
        [ JS.nl;
          "        <a href="; JS.dquote; "producto.html?id="; product.(id); JS.dquote; " class="; JS.dquote; "catalog-card"; JS.dquote; " style="; JS.dquote; "animation-delay: "; JS.toStringNat delay; "ms"; JS.dquote; " data-product-id="; JS.dquote; product.(id); JS.dquote; ">"; JS.nl;
          "            <div class="; JS.dquote; "catalog-card__image-wrap"; JS.dquote; ">"; JS.nl;
          "                <span class="; JS.dquote; "catalog-card__badge "; badge.(cssClass); JS.dquote; ">"; badge.(label); "</span>"; JS.nl;
          "                <img"; JS.nl;
          "                    class="; JS.dquote; "catalog-card__image"; JS.dquote; JS.nl;
          "                    src="; JS.dquote; JS.toStringOpt (image product); JS.dquote; JS.nl;
          "                    alt="; JS.dquote; product.(name); JS.dquote; JS.nl;
          "                    loading="; JS.dquote; "lazy"; JS.dquote; JS.nl;
          "                >"; JS.nl;
          "            </div>"; JS.nl;
          "            <div class="; JS.dquote; "catalog-card__body"; JS.dquote; ">"; JS.nl;
          "                <h3 class="; JS.dquote; "catalog-card__name"; JS.dquote; ">"; product.(name); "</h3>"; JS.nl;
          "                <div class="; JS.dquote; "catalog-card__specs"; JS.dquote; ">"; specTags; "</div>"; JS.nl;
          "                <div class="; JS.dquote; "catalog-card__cta"; JS.dquote; ">"; JS.nl;
          "                    <a href="; JS.dquote; waUrl; JS.dquote; " target="; JS.dquote; "_blank"; JS.dquote; " rel="; JS.dquote; "noopener"; JS.dquote; " class="; JS.dquote; "btn btn--primary btn--small"; JS.dquote; ">"; JS.nl;
          "                        Consultar"; JS.nl;
          "                    </a>"; JS.nl;
          "                </div>"; JS.nl;
          "            </div>"; JS.nl;
          "        </a>"; JS.nl;
          "    " ])
  end.

(** [products.map(renderProductCard)]: the cards, or [None] when one throws. *)
Fixpoint mapCards (products : list Product) (index : nat) : option (list string) :=
  match products with
  | [] => Some []
  | p :: rest =>
      match renderProductCard p index with
      | None => None
      | Some card =>
          match mapCards rest (S index) with
          | None => None
          | Some cards => Some (card :: cards)
          end
      end
  end.

(** The four elements [renderGrid] looks up, [None] when the page has no such
    element: the [innerHTML] of the grid, the [hidden] flag of the empty
    state, the text of the two counters. *)
Record GridDom : Type := {
  grid : option string;
  emptyState : option bool;
  resultsCount : option string;
  totalCount : option string
}.

(** How a render ends: normally, or with a [TypeError], the page being as it
    was when the error was raised. *)
Inductive Outcome : Type :=
| Done (dom : GridDom)
| Threw (dom : GridDom).

(** [renderGrid], on the array at [products] in the store [h]. *)
Definition renderGrid (products : ref) (h : heap) (dom : GridDom) : Outcome :=
  match dom.(grid) with
  | None => Done dom
  | Some _ =>
      match dom.(totalCount) with
      | None => Threw dom
      | Some _ =>
          let dom1 :=
            {| grid := dom.(grid); emptyState := dom.(emptyState);
               resultsCount := dom.(resultsCount);
               totalCount := Some (JS.toStringNat (length (contents h PRODUCTS))) |} in
          match dom.(resultsCount) with
          | None => Threw dom1
          | Some _ =>
              let n := length (contents h products) in
              let dom2 :=
                {| grid := dom1.(grid); emptyState := dom1.(emptyState);
                   resultsCount :=
                     Some (JS.template
                             [ JS.toStringNat n; " resultado";
                               if negb (n =? 1)%nat then "s" else "" ]);
                   totalCount := dom1.(totalCount) |} in
              if (n =? 0)%nat then
                let dom3 :=
                  {| grid := Some ""; emptyState := dom2.(emptyState);
                     resultsCount := dom2.(resultsCount);
                     totalCount := dom2.(totalCount) |} in
                match dom.(emptyState) with
                | None => Threw dom3
                | Some _ =>
                    Done {| grid := dom3.(grid); emptyState := Some false;
                            resultsCount := dom3.(resultsCount);
                            totalCount := dom3.(totalCount) |}
                end
              else
                match dom.(emptyState) with
                | None => Threw dom2
                | Some _ =>
                    let dom3 :=
                      {| grid := dom2.(grid); emptyState := Some true;
                         resultsCount := dom2.(resultsCount);
                         totalCount := dom2.(totalCount) |} in
                    match mapCards (contents h products) 0 with
                    | None => Threw dom3
                    | Some cards =>
                        Done {| grid := Some (JS.join "" cards);
                                emptyState := dom3.(emptyState);
                                resultsCount := dom3.(resultsCount);
                                totalCount := dom3.(totalCount) |}
                    end
                end
          end
      end
  end.

End Catalogo.

(** ** producto.js: the detail page's badge *)
Module Producto.

Import Catalogo(Badge, Build_Badge, cssClass, label).

Definition MAP (key : string) : option Badge :=
  if key =? "nuevo" then
    Some {| cssClass := "product-detail__badge--nuevo"; label := "Nuevo" |}
  else if key =? "certificado" then
    Some {| cssClass := "product-detail__badge--certificado";
            label := "Certificado PSM" |}
  else if key =? "accesorio" then
    Some {| cssClass := "product-detail__badge--accesorio"; label := "Accesorio" |}
  else if key =? "repuesto" then
    Some {| cssClass := "product-detail__badge--repuesto"; label := "Repuesto" |}
  else None.

Definition resolveBadge (product : Product) : option Badge :=
  if negb (product.(category) =? "iphone") then MAP product.(category)
  else MAP product.(condition).


Definition CATALOG_URL : string := "catalogo.html".

(** The warranty text of the detail page. *)
Record Warranty : Type := { title : string; subtitle : string }.

Definition resolveWarranty (product : Product) : Warranty :=
  if product.(category) =? "iphone" then
    {| title := "60 días de garantía PSM";
       subtitle := "Cubre defectos de fábrica y funcionamiento" |}
  else
    {| title := "30 días de garantía PSM";
       subtitle := "Garantía sobre el producto y la instalación" |}.

(** [heroImage] of [updateMetaTags]: [product.gallery[0] ?? 'img/logo-img-white.png']. *)
Definition heroImage (product : Product) : string :=
  match nth_error product.(gallery) 0 with
  | Some src => src
  | None => "img/logo-img-white.png"
  end.

(** [conditionLabel] of a card of [renderRelated]. *)
Definition conditionLabel (product : Product) : string :=
  if product.(condition) =? "certificado" then "Certificado" else "Nuevo".

(** The click handler of [bindGalleryEvents], for a click on a thumbnail whose
    [data-thumb-index] is [thumbIndex] ([None] when the attribute is missing),
    on a page that has the hero image: the new [src] of the hero image, or
    [None] when the handler returns before it changes the image. *)
Definition thumbClick (product : Product) (thumbIndex : option string)
  : option string :=
  let index := JS.parseInt (JS.toStringOpt thumbIndex) in
  if JS.isNaN index then None
  else
    match JS.index product.(gallery) index with
    | None => None
    | Some src => if negb (JS.truthy src) then None else Some src
    end.

(** What the page does on [DOMContentLoaded]: it leaves for another URL, or
    it renders a product and its related products. *)
Inductive Page : Type :=
| Redirect (url : string)
| Render (product : Product) (related : list Product).

(** The [DOMContentLoaded] handler; [productId] is what
    [getProductIdFromUrl] returns, [None] being [null]. *)
Definition init (productId : option string) : Page :=
  match productId with
  | None => Redirect CATALOG_URL
  | Some i =>
      if negb (JS.truthy i) then Redirect CATALOG_URL
      else
        match PSM.findProductById i with
        | None => Redirect CATALOG_URL
        | Some product => Render product (PSM.getRelatedProducts product)
        end
  end.

End Producto.

(** ** The B2B inquiry form (the form script of the repository)

    The page, as far as the script reads it: the [value] of the element with
    a given id, [None] when the page has no such element, and whether the
    submit button with its [span] is there. *)
Module B2B.

Record Dom : Type := {
  value : string -> option string;
  submitButton : bool
}.

Definition WHATSAPP_NUMBER : string := "584146395496".
Definition WHATSAPP_BASE : string := "https://wa.me/".

Module Field.
Record t : Type := { id : string; label : string; errorId : string }.
End Field.

Definition REQUIRED_FIELDS : list Field.t :=
  [ {| Field.id := "field-name"; Field.label := "nombre completo";
       Field.errorId := "error-name" |};
    {| Field.id := "field-business"; Field.label := "negocio o empresa";
       Field.errorId := "error-business" |};
    {| Field.id := "field-products"; Field.label := "productos";
       Field.errorId := "error-products" |} ].

(** [getFieldValue]: the trimmed value, the empty string without element. *)
Definition getFieldValue (dom : Dom) (fieldId : string) : string :=
  match dom.(value) fieldId with
  | Some v => JS.trim v
  | None => ""
  end.

Module FormData.
Record t : Type := {
  name : string;
  business : string;
  products : string;
  volume : string;
  payment : string;
  message : string
}.
End FormData.

Definition extractFormData (dom : Dom) : FormData.t :=
  {| FormData.name := getFieldValue dom "field-name";
     FormData.business := getFieldValue dom "field-business";
     FormData.products := getFieldValue dom "field-products";
     FormData.volume := getFieldValue dom "field-volume";
     FormData.payment := getFieldValue dom "field-payment";
     FormData.message := getFieldValue dom "field-message" |}.

Module Error.
Record t : Type := { fieldId : string; errorId : string; message : string }.
End Error.

Record ValidationResult : Type := { isValid : bool; errors : list Error.t }.

(** [validateForm]: it reads the fields of the page again and does not use
    [data]. *)
Definition validateForm (dom : Dom) (data : FormData.t) : ValidationResult :=
  let errors :=
    map (fun field =>
           {| Error.fieldId := field.(Field.id);
              Error.errorId := field.(Field.errorId);
              Error.message :=
                JS.template [ "El campo "; JS.dquote; field.(Field.label);
                              JS.dquote; " es requerido." ] |})
        (filter (fun field => negb (JS.truthy (getFieldValue dom field.(Field.id))))
                REQUIRED_FIELDS) in
  {| isValid := (length errors =? 0)%nat; errors := errors |}.

(** The text [buildWhatsAppMessage] encodes: its lines but the [null] ones,
    joined by line feeds. *)
Definition messageText (data : FormData.t) : string :=
  let lines : list (option string) :=
    [ Some "🏢 *SOLICITUD B2B — Phone Store Miami*";
      Some "";
      Some (JS.template [ "👤 *Nombre:* "; data.(FormData.name) ]);
      Some (JS.template [ "🏬 *Negocio:* "; data.(FormData.business) ]);
      Some "";
      Some "📦 *Productos solicitados:*";
      Some (JS.template [ data.(FormData.products) ]);
      Some "";
      (if JS.truthy data.(FormData.volume)
       then Some (JS.template [ "📊 *Volumen estimado:* "; data.(FormData.volume) ])
       else None);
      (if JS.truthy data.(FormData.payment)
       then Some (JS.template [ "💳 *Método de pago:* "; data.(FormData.payment) ])
       else None);
      (if JS.truthy data.(FormData.message)
       then Some (JS.template [ "💬 *Comentarios:*"; JS.nl; data.(FormData.message) ])
       else None);
      Some "";
      Some "_Solicitud enviada desde phonestoreca.com/b2b-miami_" ] in
  JS.join JS.nl
    (flat_map (fun line => match line with Some l => [l] | None => [] end) lines).

(** [buildWhatsAppMessage]: the link, or the [URIError] of
    [encodeURIComponent] on a message with a lone surrogate. *)
Definition buildWhatsAppMessage (data : FormData.t) : JS.Exception + string :=
  match JS.encodeURIComponent_call (messageText data) with
  | inl e => inl e
  | inr text =>
      inr (JS.template [ WHATSAPP_BASE; WHATSAPP_NUMBER; "?text="; text ])
  end.

(** [scrollToFirstError]: the id of the field it scrolls to and focuses;
    [firstField?.focus()] does nothing when the page has no element of the
    first error's id. *)
Definition scrollToFirstError (dom : Dom) (errors : list Error.t) : option string :=
  match errors with
  | [] => None
  | e :: _ =>
      match dom.(value) e.(Error.fieldId) with
      | Some _ => Some e.(Error.fieldId)
      | None => None
      end
  end.

(** What a submission ends in: the errors handed to [showErrors] and the
    field focused, the URL opened in a new tab, or an exception: the
    [TypeError] of [setSubmitLoading] for want of the submit button or its
    [span], the [URIError] of [buildWhatsAppMessage]. *)
Inductive Submission : Type :=
| Rejected (errors : list Error.t) (focus : option string)
| Opened (url : string)
| Failed (e : JS.Exception).

Definition handleSubmit (dom : Dom) : Submission :=
  let data := extractFormData dom in
  let result := validateForm dom data in
  if negb result.(isValid) then
    Rejected result.(errors) (scrollToFirstError dom result.(errors))
  else if negb dom.(submitButton) then Failed JS.TypeError
  else
    match buildWhatsAppMessage data with
    | inl e => Failed e
    | inr waUrl => Opened waUrl
    end.

End B2B.

(** * Vocabulary of the properties *)

Import Catalogo.

(** ** Strings *)

(** [sub] occurs in [s]. *)
Definition Substring (sub s : string) : Prop :=
  exists pre post : string, s = (pre ++ sub ++ post)%string.

(** [Substring], decided. *)
Fixpoint prefixb (sub s : string) {struct sub} : bool :=
  match sub, s with
  | EmptyString, _ => true
  | String a sub', String b s' => Ascii.eqb a b && prefixb sub' s'
  | String _ _, EmptyString => false
  end.

Fixpoint substringb (sub s : string) : bool :=
  prefixb sub s ||
  match s with
  | String _ r => substringb sub r
  | EmptyString => false
  end.

(** Made of white-space characters only (the empty string included). *)
Inductive WhiteSpaceOnly : string -> Prop :=
| wso_nil : WhiteSpaceOnly ""
| wso_1 c r :
    JS.ws1 c = true -> WhiteSpaceOnly r -> WhiteSpaceOnly (String c r)
| wso_2 c d r :
    JS.ws2 c d = true -> WhiteSpaceOnly r ->
    WhiteSpaceOnly (String c (String d r))
| wso_3 c d e r :
    JS.ws3 c d e = true -> WhiteSpaceOnly r ->
    WhiteSpaceOnly (String c (String d (String e r))).

(** ** Lists *)

(** [l1] is [l2] with some elements left out, the others in their order. *)
Inductive Subseq {A : Type} : list A -> list A -> Prop :=
| subseq_nil : Subseq [] []
| subseq_skip x l1 l2 : Subseq l1 l2 -> Subseq l1 (x :: l2)
| subseq_cons x l1 l2 : Subseq l1 l2 -> Subseq (x :: l1) (x :: l2).

(** Equality of products is decidable. *)
Definition Product_eq_dec (p q : Product) : {p = q} + {p <> q}.
Proof.
  pose proof string_dec. pose proof Z.eq_dec.
  pose proof (list_eq_dec string_dec).
  assert (forall a b : option Z, {a = b} + {a <> b}) by (decide equality).
  decide equality.
Defined.

(** ** The store and the stages *)

(** A reference that [h] has not allocated. *)
Definition Fresh (h : heap) (r : ref) : Prop := length h <= r.

(** [h'] is [h] with new arrays: every array of [h] is there, unchanged. *)
Definition Extends (h h' : heap) : Prop := exists new, h' = h ++ new.

(** What each stage keeps, as a predicate on products. *)
Definition keepsCategory (sel : string) (p : Product) : bool :=
  (sel =? "all") || (p.(category) =? sel).

Definition keepsSeries (sel : string) (p : Product) : bool :=
  (sel =? "all") || JS.strict_eq_number p.(series) (JS.Number sel).

Definition keepsCondition (sel : string) (p : Product) : bool :=
  (sel =? "all") || (p.(condition) =? sel).

Definition keepsSearch (query : string) (p : Product) : bool :=
  negb (JS.truthy (JS.trim query)) || searchMatch (JS.toLowerCase query) p.

Definition keeps (st : FilterState.t) (p : Product) : bool :=
  keepsCategory st.(FilterState.category) p
  && keepsSeries st.(FilterState.series) p
  && keepsCondition st.(FilterState.condition) p
  && keepsSearch st.(FilterState.search) p.

(** [fn] returns an array holding the elements of its input that [q] accepts. *)
Definition Filters (fn : ref -> M ref) (q : Product -> bool) : Prop :=
  forall r h, result (fn r) h = filter q (contents h r).

Definition Stage (fn : ref -> M ref) : Prop := exists q, Filters fn q.

(** ** The seeded catalog page *)

(** The store of the catalog page once the seeded data is loaded. *)
Definition seeded : heap := loaded PSM.PRODUCTS.

(** The filter state of the Series-16 scenario. *)
Definition series16 : FilterState.t :=
  {| FilterState.category := "iphone";
     FilterState.series := "16";
     FilterState.condition := "all";
     FilterState.search := "" |}.

(** The label of the badge [resolve] gives a product, if it gives one. *)
Definition labelOf (resolve : Product -> option Badge) (p : Product) : option string :=
  option_map label (resolve p).

(** [sub] occurs in [s] as JavaScript reads strings: the code units of [s]
    hold those of [sub], one after the other. *)
Definition Occurs (sub s : string) : Prop :=
  exists pre post : list N, JS.units s = pre ++ JS.units sub ++ post.

(** [query] occurs in [text], letter case apart: the lowercased text contains
    the lowercased query. *)
Definition ContainsCI (query text : string) : Prop :=
  Occurs (JS.toLowerCase query) (JS.toLowerCase text).

(** A product's name or one of its specs contains the query. *)
Definition Matches (query : string) (p : Product) : Prop :=
  ContainsCI query p.(name) \/ exists s, In s p.(specs) /\ ContainsCI query s.

(** ** Letter case, on Basic Latin

    What "but for the case of the letters" means on text made of Basic Latin
    characters, said without [toLowerCase]. *)

(** Made of Basic Latin characters (U+0000..U+007F) only. *)
Definition IsAscii (s : string) : Prop :=
  Forall (fun c => (JS.code c < 128)%N) (list_ascii_of_string s).

(** The small letter of a capital A..Z; any other character is itself. *)
Definition asciiLower (c : ascii) : ascii :=
  let n := JS.code c in
  if ((65 <=? n) && (n <=? 90))%N then ascii_of_N (n + 32) else c.

(** The same text but for the case of the letters. *)
Fixpoint EqualCI (a b : string) : Prop :=
  match a, b with
  | EmptyString, EmptyString => True
  | String x a', String y b' => asciiLower x = asciiLower y /\ EqualCI a' b'
  | _, _ => False
  end.

(** [text] holds a piece that is the query but for the case of the letters. *)
Definition HoldsCI (query text : string) : Prop :=
  exists pre mid post : string,
    text = (pre ++ mid ++ post)%string /\ EqualCI mid query.

(** A string, character by character. *)
Fixpoint mapString (f : ascii -> ascii) (s : string) : string :=
  match s with
  | EmptyString => ""
  | String c r => String (f c) (mapString f r)
  end.


(** ** Links and percent-encoding *)

(** The value of a hexadecimal digit. *)
Definition hexValue (c : ascii) : N :=
  let n := JS.code c in (if n <? 58 then n - 48 else n - 55)%N.

(** Reads a percent-encoded text back: [%XX] is the byte [XX], any other
    character is itself. *)
Fixpoint percentDecode (s : string) : string :=
  match s with
  | String c r =>
      if Ascii.eqb c "%" then
        match r with
        | String h1 (String h2 r2) =>
            String (ascii_of_N (16 * hexValue h1 + hexValue h2)) (percentDecode r2)
        | _ => s
        end
      else String c (percentDecode r)
  | EmptyString => ""
  end.

(** Every character is one that [encodeURIComponent] leaves alone, or [%]:
    none of [& = ? # / : +], no space, no line feed. *)
Definition UrlSafe (s : string) : Prop :=
  Forall (fun c => JS.unreserved c = true \/ c = "%"%char) (list_ascii_of_string s).

(** ** Well-formed catalogs *)

(** What the [Product] typedef promises of a record. *)
Definition WellFormedProduct (p : Product) : Prop :=
  (p.(series) <> None <-> p.(category) = "iphone")
  /\ In p.(category) CATEGORY_FILTERS
  /\ In p.(condition) CONDITION_FILTERS
  /\ p.(gallery) <> [].

Definition WellFormed (catalog : list Product) : Prop :=
  NoDup (map id catalog) /\ Forall WellFormedProduct catalog.

(** The key [resolveBadge] looks up. *)
Definition badgeKey (p : Product) : string :=
  if negb (p.(category) =? "iphone") then p.(category) else p.(condition).

(** A page on which [renderGrid] finds its four elements. *)
Definition FullDom (dom : GridDom) : Prop :=
  dom.(grid) <> None /\ dom.(emptyState) <> None
  /\ dom.(resultsCount) <> None /\ dom.(totalCount) <> None.

(** A field of the form that is there and not blank. *)
Definition Filled (dom : B2B.Dom) (fieldId : string) : Prop :=
  exists v, dom.(B2B.value) fieldId = Some v /\ ~ WhiteSpaceOnly v.

(** The name, business and products fields are there and not blank. *)
Definition RequiredFilled (dom : B2B.Dom) : Prop :=
  Filled dom "field-name" /\ Filled dom "field-business"
  /\ Filled dom "field-products".

(** The six fields of the form data. *)
Definition fieldsOf (data : B2B.FormData.t) : list string :=
  [ data.(B2B.FormData.name); data.(B2B.FormData.business);
    data.(B2B.FormData.products); data.(B2B.FormData.volume);
    data.(B2B.FormData.payment); data.(B2B.FormData.message) ].

(** No field holds a lone surrogate. *)
Definition WellFormedData (data : B2B.FormData.t) : Prop :=
  forall s, In s (fieldsOf data) -> JS.isWellFormed s = true.

(** The lone high surrogate U+D800, in the byte form of this development. *)
Definition loneSurrogate : string :=
  String (ascii_of_N 237) (String (ascii_of_N 160) (String (ascii_of_N 128) "")).

(** * Properties *)

(** ** Facts about the built-ins *)
Section StringFacts.



Lemma startsWith_spec (l sub : list N) :
  JS.startsWith l sub = true <-> exists post, l = sub ++ post.
Proof.
  revert l; induction sub as [|a sub IH]; intros l; simpl.
  - split; [intros _; now exists l | reflexivity].
  - destruct l as [|b l].
    + split; [discriminate | intros [post H]; discriminate].
    + rewrite andb_true_iff, N.eqb_eq, IH. split.
      * intros [-> [post ->]]. now exists post.
      * intros [post H]. injection H as -> ->. split; [reflexivity | now exists post].
Qed.

Lemma occursIn_spec (l sub : list N) :
  JS.occursIn l sub = true <-> exists pre post, l = pre ++ sub ++ post.
Proof.
  induction l as [|b l IH].
  - simpl. rewrite orb_false_r, startsWith_spec. split.
    + intros [post H]. now exists [], post.
    + intros [pre [post H]]. destruct pre; [now exists post | discriminate].
  - cbn [JS.occursIn]. rewrite orb_true_iff, startsWith_spec, IH. split.
    + intros [[post H] | [pre [post H]]].
      * now exists [], post.
      * exists (b :: pre), post. simpl. now rewrite H.
    + intros [pre [post H]]. destruct pre as [|c pre].
      * left. now exists post.
      * right. simpl in H. injection H as _ ->. now exists pre, post.
Qed.

Lemma includes_spec (s sub : string) :
  JS.includes s sub = true <-> Occurs sub s.
Proof. apply occursIn_spec. Qed.

Lemma ws2_not_ws1 c d : JS.ws2 c d = true -> JS.ws1 c = false.
Proof.
  unfold JS.ws2, JS.ws1. intros H.
  apply andb_true_iff in H as [H _]. apply N.eqb_eq in H. now rewrite H.
Qed.

Lemma ws3_not_ws1 c d e : JS.ws3 c d e = true -> JS.ws1 c = false.
Proof.
  unfold JS.ws3, JS.ws1. intros H.
  repeat (apply orb_true_iff in H as [H | H]);
    repeat (apply andb_true_iff in H as [H _]);
    apply N.eqb_eq in H; now rewrite H.
Qed.

Lemma ws3_not_ws2 c d e : JS.ws3 c d e = true -> JS.ws2 c d = false.
Proof.
  unfold JS.ws3, JS.ws2. intros H.
  repeat (apply orb_true_iff in H as [H | H]);
    repeat (apply andb_true_iff in H as [H _]);
    apply N.eqb_eq in H; now rewrite H.
Qed.

(** The three ways [trimStart] steps, and when it stops. *)
Lemma trimStart_ws1 c r : JS.ws1 c = true -> JS.trimStart (String c r) = JS.trimStart r.
Proof. intros H. simpl. now rewrite H. Qed.

Lemma trimStart_ws2 c d r :
  JS.ws2 c d = true -> JS.trimStart (String c (String d r)) = JS.trimStart r.
Proof.
  intros H. cbn [JS.trimStart]. now rewrite (ws2_not_ws1 _ _ H), H.
Qed.

Lemma trimStart_ws3 c d e r :
  JS.ws3 c d e = true ->
  JS.trimStart (String c (String d (String e r))) = JS.trimStart r.
Proof.
  intros H. cbn [JS.trimStart].
  now rewrite (ws3_not_ws1 _ _ _ H), (ws3_not_ws2 _ _ _ H), H.
Qed.

Lemma WhiteSpaceOnly_trimStart s : WhiteSpaceOnly s -> JS.trimStart s = "".
Proof.
  induction 1 as [|c r H _ IH|c d r H _ IH|c d e r H _ IH].
  - reflexivity.
  - now rewrite trimStart_ws1.
  - now rewrite trimStart_ws2.
  - now rewrite trimStart_ws3.
Qed.

(** What is left by [trimStart] is a suffix that [trimStart] leaves alone; it
    is empty exactly on white space. *)
Lemma trimStart_inv (n : nat) :
  forall s, String.length s <= n ->
    JS.trimStart (JS.trimStart s) = JS.trimStart s
    /\ (JS.trimStart s = "" -> WhiteSpaceOnly s).
Proof.
  induction n as [|n IH]; intros s Hlen.
  - destruct s; [|simpl in Hlen; lia]. split; [reflexivity | constructor].
  - destruct s as [|c r]; [split; [reflexivity | constructor]|].
    simpl in Hlen.
    destruct (JS.ws1 c) eqn:H1.
    { rewrite (trimStart_ws1 _ _ H1). destruct (IH r) as [Hi Hw]; [lia|].
      split; [exact Hi | intros E; apply wso_1; auto]. }
    destruct r as [|d r2].
    { simpl. rewrite H1. simpl. rewrite H1. split; [reflexivity | discriminate]. }
    simpl in Hlen.
    destruct (JS.ws2 c d) eqn:H2.
    { rewrite (trimStart_ws2 _ _ _ H2). destruct (IH r2) as [Hi Hw]; [lia|].
      split; [exact Hi | intros E; apply wso_2; auto]. }
    destruct r2 as [|e r3].
    { cbn [JS.trimStart]. rewrite H1, H2. cbn [JS.trimStart]. rewrite H1, H2.
      split; [reflexivity | discriminate]. }
    simpl in Hlen.
    destruct (JS.ws3 c d e) eqn:H3.
    { rewrite (trimStart_ws3 _ _ _ _ H3). destruct (IH r3) as [Hi Hw]; [lia|].
      split; [exact Hi | intros E; apply wso_3; auto]. }
    cbn [JS.trimStart]. rewrite H1, H2, H3. cbn [JS.trimStart]. rewrite H1, H2, H3.
    split; [reflexivity | discriminate].
Qed.

Lemma trimStart_empty_iff s : JS.trimStart s = "" <-> WhiteSpaceOnly s.
Proof.
  split.
  - apply (trimStart_inv (String.length s) s (le_n _)).
  - apply WhiteSpaceOnly_trimStart.
Qed.

Lemma trimEnd_empty_iff t : JS.trimEnd t = "" <-> JS.trimStart t = "".
Proof.
  destruct t as [|c r]; [simpl; tauto|].
  cbn [JS.trimEnd]. destruct (String.eqb_spec (JS.trimStart (String c r)) "") as [E|E].
  - tauto.
  - split; [discriminate | intros H; contradiction].
Qed.

(** [!query.trim()] holds exactly on the empty and the white-space-only
    queries. *)
Lemma trim_empty_iff s : JS.trim s = "" <-> WhiteSpaceOnly s.
Proof.
  unfold JS.trim. rewrite trimEnd_empty_iff.
  rewrite (proj1 (trimStart_inv (String.length s) s (le_n _))).
  apply trimStart_empty_iff.
Qed.

Lemma truthy_trim_false_iff s :
  negb (JS.truthy (JS.trim s)) = true <-> WhiteSpaceOnly s.
Proof.
  unfold JS.truthy. rewrite negb_involutive, String.eqb_eq. apply trim_empty_iff.
Qed.

End StringFacts.

(** ** Facts about lists *)
Section ListFacts.

Context {A : Type}.

Lemma Subseq_nil_l (l : list A) : Subseq [] l.
Proof. induction l; constructor; assumption. Qed.

Lemma Subseq_firstn_filter (f : A -> bool) (l : list A) :
  forall n, Subseq (firstn n (filter f l)) l.
Proof.
  induction l as [|a l IH]; intros n; simpl.
  - rewrite firstn_nil. constructor.
  - destruct (f a).
    + destruct n; simpl; [apply Subseq_nil_l | apply subseq_cons, IH].
    + apply subseq_skip, IH.
Qed.

Lemma filter_id (f : A -> bool) (l : list A) :
  (forall x, In x l -> f x = true) -> filter f l = l.
Proof.
  induction l as [|a l IH]; intros H; simpl; [reflexivity|].
  rewrite (H a (or_introl eq_refl)), IH; [reflexivity|].
  intros x Hx. apply H. now right.
Qed.

Lemma filter_none (f : A -> bool) (l : list A) :
  (forall x, In x l -> f x = false) -> filter f l = [].
Proof.
  induction l as [|a l IH]; intros H; simpl; [reflexivity|].
  rewrite (H a (or_introl eq_refl)). apply IH.
  intros x Hx. apply H. now right.
Qed.

Lemma filter_twice (f g : A -> bool) (l : list A) :
  filter g (filter f l) = filter (fun x => f x && g x) l.
Proof.
  induction l as [|a l IH]; simpl; [reflexivity|].
  destruct (f a); simpl; [destruct (g a)|]; now rewrite IH.
Qed.

Lemma filter_swap (f g : A -> bool) (l : list A) :
  filter g (filter f l) = filter f (filter g l).
Proof.
  rewrite !filter_twice. apply filter_ext. intros x. apply andb_comm.
Qed.

Lemma count_occ_filter_le (dec : forall x y : A, {x = y} + {x <> y})
      (f : A -> bool) (l : list A) (x : A) :
  count_occ dec (filter f l) x <= count_occ dec l x.
Proof.
  induction l as [|a l IH]; simpl; [lia|].
  destruct (f a); simpl; destruct (dec a x); lia.
Qed.

End ListFacts.

(** ** Facts about the store and the filter stages *)
Section StoreFacts.

Lemma Extends_contents h h' r : Extends h h' -> r < length h -> contents h' r = contents h r.
Proof. intros [new ->] Hr. unfold contents. now rewrite app_nth1. Qed.

Lemma contents_alloc (h : heap) (l : list Product) :
  contents (h ++ [l]) (length h) = l.
Proof.
  unfold contents. rewrite app_nth2 by lia. now rewrite Nat.sub_diag.
Qed.

Lemma result_ret r h : result (ret r) h = contents h r.
Proof. reflexivity. Qed.

Lemma result_Array_filter cb arr h :
  result (Array_filter cb arr) h = filter cb (contents h arr).
Proof. unfold result, Array_filter. apply contents_alloc. Qed.

Lemma Array_filter_fresh cb arr h :
  Fresh h (fst (Array_filter cb arr h)) /\ Extends h (snd (Array_filter cb arr h)).
Proof. split; [apply le_n | now eexists]. Qed.

Ltac stage_cases sel :=
  intros r h; destruct sel eqn:E; simpl;
  [ rewrite result_ret; symmetry; apply filter_id; reflexivity
  | rewrite result_Array_filter; reflexivity ].

Lemma filterByCategory_Filters sel :
  Filters (fun p => filterByCategory p sel) (keepsCategory sel).
Proof.
  unfold Filters, filterByCategory, keepsCategory. stage_cases (sel =? "all").
Qed.

Lemma filterBySeries_Filters sel :
  Filters (fun p => filterBySeries p sel) (keepsSeries sel).
Proof.
  unfold Filters, filterBySeries, keepsSeries. stage_cases (sel =? "all").
Qed.

Lemma filterByCondition_Filters sel :
  Filters (fun p => filterByCondition p sel) (keepsCondition sel).
Proof.
  unfold Filters, filterByCondition, keepsCondition. stage_cases (sel =? "all").
Qed.

Lemma filterBySearch_Filters query :
  Filters (fun p => filterBySearch p query) (keepsSearch query).
Proof.
  unfold Filters, filterBySearch, keepsSearch.
  stage_cases (negb (JS.truthy (JS.trim query))).
Qed.

Lemma stages_Filters st :
  Forall2 Filters (stages st)
    [ keepsCategory st.(FilterState.category);
      keepsSeries st.(FilterState.series);
      keepsCondition st.(FilterState.condition);
      keepsSearch st.(FilterState.search) ].
Proof.
  repeat constructor.
  - apply filterByCategory_Filters.
  - apply filterBySeries_Filters.
  - apply filterByCondition_Filters.
  - apply filterBySearch_Filters.
Qed.

Lemma stages_Stage st : Forall Stage (stages st).
Proof.
  unfold stages. repeat constructor; eexists.
  - apply filterByCategory_Filters.
  - apply filterBySeries_Filters.
  - apply filterByCondition_Filters.
  - apply filterBySearch_Filters.
Qed.

Lemma result_reduce_cons (fn : ref -> M ref) rest r h :
  result (reduce (fn :: rest) r) h
  = result (reduce rest (fst (fn r h))) (snd (fn r h)).
Proof.
  unfold result. cbn [reduce]. unfold bind. now destruct (fn r h).
Qed.

Lemma contents_stage (fn : ref -> M ref) r h :
  contents (snd (fn r h)) (fst (fn r h)) = result (fn r) h.
Proof. unfold result. now destruct (fn r h). Qed.

(** A fold over stages keeps what every stage keeps. *)
Lemma reduce_Filters fns qs :
  Forall2 Filters fns qs ->
  forall r h,
    result (reduce fns r) h
    = filter (fun p => forallb (fun q => q p) qs) (contents h r).
Proof.
  induction 1 as [|fn q fns qs Hq _ IH]; intros r h.
  - simpl. rewrite result_ret. symmetry. apply filter_id. reflexivity.
  - rewrite result_reduce_cons, IH, contents_stage, Hq, filter_twice.
    reflexivity.
Qed.

Lemma getFilteredProducts_result st h :
  result (getFilteredProducts st) h = filter (keeps st) (contents h PRODUCTS).
Proof.
  unfold getFilteredProducts.
  rewrite (reduce_Filters _ _ (stages_Filters st)).
  apply filter_ext. intros p. unfold keeps. cbn [forallb].
  now rewrite andb_true_r, !andb_assoc.
Qed.

(** The result of a fold over stages depends on the elements of the array it
    starts from only, not on where the array is. *)
Lemma reduce_congr fns :
  Forall Stage fns ->
  forall r1 h1 r2 h2,
    contents h1 r1 = contents h2 r2 ->
    result (reduce fns r1) h1 = result (reduce fns r2) h2.
Proof.
  induction 1 as [|fn fns [q Hq] _ IH]; intros r1 h1 r2 h2 E.
  - cbn [reduce]. now rewrite !result_ret.
  - rewrite !result_reduce_cons. apply IH.
    now rewrite !contents_stage, !Hq, E.
Qed.

Lemma reduce_Permutation fns1 fns2 :
  Permutation fns1 fns2 ->
  Forall Stage fns1 ->
  forall r h, result (reduce fns1 r) h = result (reduce fns2 r) h.
Proof.
  induction 1 as [|fn l l' _ IH|f g l|l l' l'' P1 IH1 P2 IH2]; intros HS r h.
  - reflexivity.
  - rewrite !result_reduce_cons. apply IH. now inversion HS.
  - inversion HS as [|? ? [qg Hg] HS']; subst.
    inversion HS' as [|? ? [qf Hf] HS'']; subst.
    rewrite !result_reduce_cons. apply reduce_congr; [assumption|].
    rewrite !contents_stage, Hf, Hg, !contents_stage, Hf, Hg.
    apply filter_swap.
  - rewrite IH1 by assumption. apply IH2.
    eapply Permutation_Forall; eassumption.
Qed.

End StoreFacts.

(** ** Facts about search and lookup *)
Section SearchFacts.

Lemma searchMatch_iff query p :
  searchMatch (JS.toLowerCase query) p = true <-> Matches query p.
Proof.
  unfold searchMatch, Matches, ContainsCI.
  rewrite orb_true_iff, includes_spec, existsb_exists.
  split; intros [H | [s [Hs H]]]; auto; right; exists s; split; auto;
    now apply includes_spec.
Qed.

Lemma filterBySearch_pass products query h :
  WhiteSpaceOnly query -> filterBySearch products query h = (products, h).
Proof.
  intros H. unfold filterBySearch.
  now rewrite (proj2 (truthy_trim_false_iff query) H).
Qed.

Lemma filterBySearch_result products query h :
  ~ WhiteSpaceOnly query ->
  result (filterBySearch products query) h
  = filter (searchMatch (JS.toLowerCase query)) (contents h products).
Proof.
  intros H. unfold filterBySearch.
  destruct (negb (JS.truthy (JS.trim query))) eqn:E.
  - apply truthy_trim_false_iff in E. contradiction.
  - apply result_Array_filter.
Qed.

Lemma In_firstn {A : Type} (x : A) n l : In x (firstn n l) -> In x l.
Proof.
  revert n; induction l as [|a l IH]; intros [|n]; simpl; try tauto.
  intros [H | H]; [now left | right; eauto].
Qed.

Lemma ids_unique : NoDup (map id PSM.PRODUCTS).
Proof.
  repeat (constructor; [simpl; intuition discriminate|]). constructor.
Qed.

Lemma find_by_id (l : list Product) (p : Product) :
  NoDup (map id l) -> In p l -> find (fun x => x.(id) =? p.(id)) l = Some p.
Proof.
  induction l as [|a l IH]; intros ND Hin; [contradiction|].
  simpl in *. inversion ND as [|? ? Hnot ND']; subst.
  destruct (String.eqb_spec (id a) (id p)) as [E|E].
  - destruct Hin as [-> | Hin]; [reflexivity|].
    exfalso. apply Hnot. rewrite E. now apply in_map.
  - destruct Hin as [-> | Hin]; [congruence | now apply IH].
Qed.

End SearchFacts.

(** ** The Series-16 scenario *)

(** C1: on the seeded catalog [getFilteredProducts] with category "iphone",
    series "16", condition "all" and an empty search returns exactly the four
    Series-16 iPhone records iph-16-pro-max, iph-16, iph-16-pink,
    iph-16-white, in the order of the catalog.  (The catalog the data source
    declares holds 16 products.) *)
Theorem series16_scenario :
  length PSM.PRODUCTS = 16
  /\ result (getFilteredProducts series16) seeded
     = [PSM.iph_16_pro_max; PSM.iph_16; PSM.iph_16_pink; PSM.iph_16_white]
  /\ map id (result (getFilteredProducts series16) seeded)
     = ["iph-16-pro-max"; "iph-16"; "iph-16-pink"; "iph-16-white"].
Proof. repeat split; vm_compute; reflexivity. Qed.

(** ** Badges *)

(** C2, as stated, fails on the detail page: for the certified iPhone
    iph-15-black its [resolveBadge] does not give the label "Certificado". *)
Lemma detail_badge_is_not_Certificado :
  PSM.iph_15_black.(category) = "iphone"
  /\ PSM.iph_15_black.(condition) = "certificado"
  /\ labelOf Producto.resolveBadge PSM.iph_15_black <> Some "Certificado".
Proof. repeat split. vm_compute. discriminate. Qed.

(** C2, amended: for every product whose category is "iphone" and condition is
    "certificado", [resolveBadge] of the catalog page returns the label
    "Certificado" and [resolveBadge] of the detail page returns the label
    "Certificado PSM"; for every product whose category is "accesorio", both
    return the label "Accesorio". *)
Theorem resolveBadge_labels (p : Product) :
  (p.(category) = "iphone" -> p.(condition) = "certificado" ->
   labelOf Catalogo.resolveBadge p = Some "Certificado"
   /\ labelOf Producto.resolveBadge p = Some "Certificado PSM")
  /\ (p.(category) = "accesorio" ->
      labelOf Catalogo.resolveBadge p = Some "Accesorio"
      /\ labelOf Producto.resolveBadge p = Some "Accesorio").
Proof.
  unfold labelOf, Catalogo.resolveBadge, Producto.resolveBadge. split.
  - intros -> ->. split; reflexivity.
  - intros ->. split; reflexivity.
Qed.

Lemma resolveBadge_labels_witness :
  (PSM.iph_15_black.(category) = "iphone"
   /\ PSM.iph_15_black.(condition) = "certificado"
   /\ labelOf Catalogo.resolveBadge PSM.iph_15_black = Some "Certificado"
   /\ labelOf Producto.resolveBadge PSM.iph_15_black = Some "Certificado PSM")
  /\ (PSM.acc_airpods_4.(category) = "accesorio"
      /\ labelOf Catalogo.resolveBadge PSM.acc_airpods_4 = Some "Accesorio"
      /\ labelOf Producto.resolveBadge PSM.acc_airpods_4 = Some "Accesorio").
Proof.
  split.
  - split; [reflexivity|]. split; [reflexivity|].
    apply (proj1 (resolveBadge_labels PSM.iph_15_black)); reflexivity.
  - split; [reflexivity|].
    apply (proj2 (resolveBadge_labels PSM.acc_airpods_4)); reflexivity.
Defined.

(** ** Purity of the stages *)

(** No stage changes an array that exists: the store it returns is the one it
    was given, with at most one new array. *)
Lemma stages_extend (products : ref) (sel : string) (h : heap) :
  Extends h (snd (filterByCategory products sel h))
  /\ Extends h (snd (filterBySeries products sel h))
  /\ Extends h (snd (filterByCondition products sel h))
  /\ Extends h (snd (filterBySearch products sel h)).
Proof.
  unfold filterByCategory, filterBySeries, filterByCondition, filterBySearch.
  repeat split;
    match goal with |- context [if ?b then _ else _] => destruct b end;
    simpl; first [ now eexists | exists []; symmetry; apply app_nil_r ].
Qed.

(** On a selection that is not the sentinel, and on a query that is not
    blank, a stage returns an array of its own. *)
Lemma stages_allocate (products : ref) (sel : string) (h : heap) :
  sel <> "all" -> ~ WhiteSpaceOnly sel ->
  Fresh h (fst (filterByCategory products sel h))
  /\ Fresh h (fst (filterBySeries products sel h))
  /\ Fresh h (fst (filterByCondition products sel h))
  /\ Fresh h (fst (filterBySearch products sel h)).
Proof.
  intros Hall Hws.
  unfold filterByCategory, filterBySeries, filterByCondition, filterBySearch.
  apply String.eqb_neq in Hall. rewrite Hall.
  destruct (negb (JS.truthy (JS.trim sel))) eqn:E.
  - apply truthy_trim_false_iff in E. contradiction.
  - repeat split; apply le_n.
Qed.

(** C3: on the "all" sentinel and on the empty query each stage returns the
    very array it was given, not a new one; so does the whole pipeline at the
    initial filter state, whose result is the catalog array itself. *)
Theorem stage_sentinel_returns_input :
  filterByCategory PRODUCTS "all" seeded = (PRODUCTS, seeded)
  /\ filterBySeries PRODUCTS "all" seeded = (PRODUCTS, seeded)
  /\ filterByCondition PRODUCTS "all" seeded = (PRODUCTS, seeded)
  /\ filterBySearch PRODUCTS "" seeded = (PRODUCTS, seeded)
  /\ getFilteredProducts filterState seeded = (PRODUCTS, seeded)
  /\ ~ Fresh seeded PRODUCTS.
Proof.
  repeat split. unfold Fresh, seeded, loaded, PRODUCTS. simpl. lia.
Qed.

(** ** Related products *)

(** C4: for every product [p] of the catalog, [getRelatedProducts p] does not
    hold [p] (nor any product with its id), has at most 4 entries, every entry
    has a non-null series equal to that of [p] or the category of [p], and
    the entries are in catalog order. *)
Theorem getRelatedProducts_spec (p : Product) :
  In p PSM.PRODUCTS ->
  let related := PSM.getRelatedProducts p in
  ~ In p related
  /\ (forall e, In e related -> e.(id) <> p.(id))
  /\ length related <= 4
  /\ (forall e, In e related ->
        (e.(series) <> None /\ e.(series) = p.(series))
        \/ e.(category) = p.(category))
  /\ Subseq related PSM.PRODUCTS.
Proof.
  intros _ related.
  assert (Hin : forall e, In e related ->
            e.(id) <> p.(id)
            /\ ((e.(series) <> None /\ e.(series) = p.(series))
                \/ e.(category) = p.(category))).
  { intros e He. apply In_firstn, filter_In in He as [_ He].
    apply andb_true_iff in He as [Hid Hrel]. split.
    - apply String.eqb_neq. now apply negb_true_iff.
    - apply orb_true_iff in Hrel as [Hs | Hc].
      + left. apply andb_true_iff in Hs as [Ht Heq].
        destruct (series e) as [n|], (series p) as [m|]; try discriminate.
        split; [discriminate|]. simpl in Heq. apply Z.eqb_eq in Heq. now subst.
      + right. now apply String.eqb_eq. }
  repeat split.
  - intros Hp. now apply (proj1 (Hin p Hp)).
  - intros e He. apply (Hin e He).
  - apply firstn_le_length.
  - intros e He. apply (Hin e He).
  - apply Subseq_firstn_filter.
Qed.

Lemma getRelatedProducts_spec_witness :
  In PSM.iph_16 PSM.PRODUCTS
  /\ let related := PSM.getRelatedProducts PSM.iph_16 in
     ~ In PSM.iph_16 related
     /\ (forall e, In e related -> e.(id) <> PSM.iph_16.(id))
     /\ length related <= 4
     /\ (forall e, In e related ->
           (e.(series) <> None /\ e.(series) = PSM.iph_16.(series))
           \/ e.(category) = PSM.iph_16.(category))
     /\ Subseq related PSM.PRODUCTS.
Proof.
  assert (H : In PSM.iph_16 PSM.PRODUCTS).
  { unfold PSM.PRODUCTS. cbn [In]. do 3 right. left. reflexivity. }
  split; [exact H | exact (getRelatedProducts_spec PSM.iph_16 H)].
Defined.

(** ** The pipeline *)

(** C5: for every catalog and every filter state, every product that
    [getFilteredProducts] returns is in the catalog, and no product occurs
    more often in the result than in the catalog. *)
Theorem getFilteredProducts_subset (catalog : list Product) (st : FilterState.t) :
  let out := result (getFilteredProducts st) (loaded catalog) in
  (forall p, In p out -> In p catalog)
  /\ (forall p, count_occ Product_eq_dec out p <= count_occ Product_eq_dec catalog p).
Proof.
  cbv zeta. rewrite getFilteredProducts_result.
  change (contents (loaded catalog) PRODUCTS) with catalog. split.
  - intros p Hp. now apply filter_In in Hp.
  - intros p. apply count_occ_filter_le.
Qed.

(** C6: for every catalog and every filter state, folding over the four
    stages in any order returns the same products, in the same order, as
    [getFilteredProducts]. *)
Theorem stage_order_irrelevant
        (catalog : list Product) (st : FilterState.t) (fns : list (ref -> M ref)) :
  Permutation fns (stages st) ->
  result (reduce fns PRODUCTS) (loaded catalog)
  = result (getFilteredProducts st) (loaded catalog).
Proof.
  intros HP. unfold getFilteredProducts. symmetry.
  apply reduce_Permutation; [now apply Permutation_sym | apply stages_Stage].
Qed.

Lemma stage_order_irrelevant_witness :
  Permutation (rev (stages series16)) (stages series16)
  /\ result (reduce (rev (stages series16)) PRODUCTS) (loaded PSM.PRODUCTS)
     = result (getFilteredProducts series16) (loaded PSM.PRODUCTS).
Proof.
  assert (H : Permutation (rev (stages series16)) (stages series16)).
  { apply Permutation_sym, Permutation_rev. }
  split; [exact H | exact (stage_order_irrelevant PSM.PRODUCTS series16 _ H)].
Defined.

(** ** Search *)

(** *** Lower case on Basic Latin *)

Lemma asciiLower_byte (c : ascii) :
  (JS.code c < 128)%N ->
  (JS.code c <? 128)%N = true
  /\ (JS.code c =? 931)%N = false
  /\ JS.toLower1 (JS.code c) = [JS.code (asciiLower c)]
  /\ (JS.code (asciiLower c) <? 128)%N = true
  /\ ascii_of_N (JS.code (asciiLower c)) = asciiLower c.
Proof.
  destruct c as [[] [] [] [] [] [] [] []]; intros H;
    first [ vm_compute in H; discriminate H
          | vm_compute; repeat split; reflexivity ].
Qed.

(** On Basic Latin text [toLowerCase] makes A..Z small and changes nothing
    else. *)
Lemma toLowerCase_ascii (s : string) :
  IsAscii s -> JS.toLowerCase s = mapString asciiLower s.
Proof.
  unfold JS.toLowerCase, IsAscii. generalize (@nil N) as before.
  induction s as [|c s IH]; intros before H; [reflexivity|].
  cbn [list_ascii_of_string] in H. inversion H as [|? ? Hc Hs]; subst.
  destruct (asciiLower_byte c Hc) as [A [B [C [D E]]]].
  cbn [JS.decode]. cbv zeta. rewrite A. cbn [JS.lowerAll]. rewrite B, C.
  cbn [app JS.encode]. cbv zeta. rewrite D, E. cbn [mapString].
  f_equal. now apply IH.
Qed.

Lemma mapString_app f (a b : string) :
  mapString f (a ++ b)%string = (mapString f a ++ mapString f b)%string.
Proof. induction a as [|c a IH]; cbn; [reflexivity | now rewrite IH]. Qed.

Lemma mapString_split f (t a b : string) :
  mapString f t = (a ++ b)%string ->
  exists t1 t2, t = (t1 ++ t2)%string /\ mapString f t1 = a /\ mapString f t2 = b.
Proof.
  revert t. induction a as [|x a IH]; intros t H.
  - exists "", t. now repeat split.
  - destruct t as [|c t]; [discriminate H|]. cbn in H. injection H as Hx Ht.
    destruct (IH t Ht) as [t1 [t2 [E [E1 E2]]]].
    exists (String c t1), t2. cbn. rewrite E1, Hx. now subst t.
Qed.

Lemma EqualCI_iff (a b : string) :
  EqualCI a b <-> mapString asciiLower a = mapString asciiLower b.
Proof.
  revert b. induction a as [|x a IH]; intros [|y b]; cbn; try tauto.
  - split; [contradiction | discriminate].
  - split; [contradiction | discriminate].
  - rewrite IH. split.
    + intros [-> ->]. reflexivity.
    + intros H. injection H as -> ->. now split.
Qed.

Lemma IsAscii_app (a b : string) :
  IsAscii (a ++ b)%string <-> IsAscii a /\ IsAscii b.
Proof.
  unfold IsAscii. induction a as [|c a IH]; cbn.
  - split; [intros H; split; [constructor | exact H] | tauto].
  - split.
    + intros H. inversion H; subst. apply IH in H3 as [Ha Hb].
      split; [now constructor | exact Hb].
    + intros [Ha Hb]. inversion Ha; subst. constructor; [assumption|].
      apply IH. now split.
Qed.

(** The code units of Basic Latin text are its bytes. *)
Lemma units_ascii (s : string) :
  IsAscii s -> JS.units s = map JS.code (list_ascii_of_string s).
Proof.
  unfold IsAscii, JS.units. induction s as [|c s IH]; intros H; [reflexivity|].
  cbn [list_ascii_of_string] in H. inversion H as [|? ? Hc Hs]; subst.
  cbn [JS.decode]. cbv zeta. rewrite (proj2 (N.ltb_lt _ _) Hc).
  cbn [flat_map list_ascii_of_string map]. rewrite (IH Hs).
  unfold JS.unitsOf.
  replace (65536 <=? JS.code c)%N with false by (symmetry; apply N.leb_gt; lia).
  reflexivity.
Qed.

Lemma bytes_app (a b : string) :
  map JS.code (list_ascii_of_string (a ++ b))
  = map JS.code (list_ascii_of_string a) ++ map JS.code (list_ascii_of_string b).
Proof. induction a as [|c a IH]; cbn; [reflexivity | now rewrite IH]. Qed.

Lemma bytes_inj (a b : string) :
  map JS.code (list_ascii_of_string a) = map JS.code (list_ascii_of_string b) ->
  a = b.
Proof.
  revert b. induction a as [|x a IH]; intros [|y b] H; cbn in H;
    try discriminate H; [reflexivity|].
  injection H as Hx H. f_equal; [|now apply IH].
  unfold JS.code in Hx.
  rewrite <- (ascii_N_embedding x), <- (ascii_N_embedding y). now rewrite Hx.
Qed.

Lemma bytes_split (t : string) (l1 l2 : list N) :
  map JS.code (list_ascii_of_string t) = l1 ++ l2 ->
  exists t1 t2, t = (t1 ++ t2)%string
                /\ map JS.code (list_ascii_of_string t1) = l1
                /\ map JS.code (list_ascii_of_string t2) = l2.
Proof.
  revert t. induction l1 as [|x l1 IH]; intros t H.
  - exists "", t. now repeat split.
  - destruct t as [|c t]; [discriminate H|]. cbn in H. injection H as Hx Ht.
    destruct (IH t Ht) as [t1 [t2 [E [E1 E2]]]].
    exists (String c t1), t2. cbn. rewrite E1, Hx. now subst t.
Qed.

(** On Basic Latin text, to occur code unit by code unit is to occur byte by
    byte. *)
Lemma Occurs_ascii (sub s : string) :
  IsAscii sub -> IsAscii s -> (Occurs sub s <-> Substring sub s).
Proof.
  intros Ha Hs. unfold Occurs, Substring.
  rewrite (units_ascii _ Ha), (units_ascii _ Hs). split.
  - intros [pre [post E]].
    apply bytes_split in E as [t1 [t23 [E [E1 E23]]]].
    apply bytes_split in E23 as [t2 [t3 [E' [E2 E3]]]].
    apply bytes_inj in E2. exists t1, t3. now rewrite E, E', E2.
  - intros [pre [post E]].
    exists (map JS.code (list_ascii_of_string pre)),
           (map JS.code (list_ascii_of_string post)).
    now rewrite E, !bytes_app.
Qed.

Lemma IsAscii_lower (s : string) : IsAscii s -> IsAscii (mapString asciiLower s).
Proof.
  unfold IsAscii. induction s as [|c s IH]; intros H; [constructor|].
  cbn [list_ascii_of_string] in H. inversion H as [|? ? Hc Hs]; subst.
  cbn [mapString list_ascii_of_string]. constructor; [|now apply IH].
  destruct (asciiLower_byte c Hc) as [_ [_ [_ [D _]]]]. now apply N.ltb_lt.
Qed.

(** [includes] compares code units: the first half of a surrogate pair
    occurs in the pair, though its three bytes are not among the four of the
    pair. *)
Remark includes_code_units :
  let half := String (ascii_of_N 237) (String (ascii_of_N 160)
                (String (ascii_of_N 189) "")) in
  JS.units "😀" = [55357%N; 56832%N]
  /\ JS.units half = [55357%N]
  /\ JS.includes "😀" half = true
  /\ substringb half "😀" = false.
Proof. repeat split; vm_compute; reflexivity. Qed.

(** On Basic Latin text, to contain the query "letter case apart" is to hold
    a piece that is the query but for the case of the letters A..Z. *)
Lemma ContainsCI_ascii (query text : string) :
  IsAscii query -> IsAscii text ->
  (ContainsCI query text <-> HoldsCI query text).
Proof.
  intros Hq Ht. unfold ContainsCI.
  rewrite (toLowerCase_ascii _ Hq), (toLowerCase_ascii _ Ht).
  rewrite (Occurs_ascii _ _ (IsAscii_lower _ Hq) (IsAscii_lower _ Ht)).
  unfold HoldsCI, Substring. split.
  - intros [pre [post E]].
    apply mapString_split in E as [t1 [t23 [E [E1 E23]]]].
    apply mapString_split in E23 as [t2 [t3 [E' [E2 E3]]]].
    exists t1, t2, t3. split; [now rewrite E, E'|]. now apply EqualCI_iff.
  - intros [pre [mid [post [E H]]]]. apply EqualCI_iff in H.
    exists (mapString asciiLower pre), (mapString asciiLower post).
    now rewrite E, !mapString_app, H.
Qed.



(** C10: for every query that is not blank, [filterBySearch] keeps a product
    exactly when the lower case of its name or of one of its specs contains
    the lower case of the query as it was typed, code unit by code unit, its
    leading and trailing white space included; on Basic Latin text that is: the name or a spec
    holds a piece equal to the whole query, white space and all, but for the
    case of the letters.  So the queries " pro" and " PRO" only keep a product
    with a space followed by "pro" in its name or in a spec, and the query
    "16 " does not return what its trimmed form "16" returns. *)
Theorem filterBySearch_untrimmed :
  (forall products query h p,
      ~ WhiteSpaceOnly query ->
      (In p (result (filterBySearch products query) h) <->
       In p (contents h products)
       /\ (Occurs (JS.toLowerCase query) (JS.toLowerCase p.(name))
           \/ exists s, In s p.(specs)
                        /\ Occurs (JS.toLowerCase query) (JS.toLowerCase s))))
  /\ (forall products query h p,
        ~ WhiteSpaceOnly query -> IsAscii query ->
        IsAscii p.(name) -> (forall s, In s p.(specs) -> IsAscii s) ->
        (In p (result (filterBySearch products query) h) <->
         In p (contents h products)
         /\ (HoldsCI query p.(name)
             \/ exists s, In s p.(specs) /\ HoldsCI query s)))
  /\ (forall products h p,
        In p (result (filterBySearch products " pro") h) ->
        Occurs " pro" (JS.toLowerCase p.(name))
        \/ exists s, In s p.(specs) /\ Occurs " pro" (JS.toLowerCase s))
  /\ (JS.toLowerCase " PRO" = " pro"
      /\ result (filterBySearch PRODUCTS " PRO") seeded
         = [PSM.iph_17_pro_max; PSM.iph_16_pro_max; PSM.iph_15_pro_max;
            PSM.rep_camara_frontal_15; PSM.rep_bateria_15]
      /\ result (filterBySearch PRODUCTS " pro") seeded
         = result (filterBySearch PRODUCTS " PRO") seeded)
  /\ (JS.trim "16 " = "16"
      /\ result (filterBySearch PRODUCTS "16 ") seeded
         = [PSM.iph_16_pro_max; PSM.iph_16; PSM.iph_16_pink; PSM.iph_16_white;
            PSM.iph_15_black; PSM.iph_15_cream; PSM.iph_15_white]
      /\ In PSM.rep_camara_trasera_14 (result (filterBySearch PRODUCTS "16") seeded)
      /\ ~ In PSM.rep_camara_trasera_14 (result (filterBySearch PRODUCTS "16 ") seeded)).
Proof.
  assert (Hgen : forall products query h p,
             ~ WhiteSpaceOnly query ->
             (In p (result (filterBySearch products query) h) <->
              In p (contents h products) /\ Matches query p)).
  { intros products query h p H.
    rewrite (filterBySearch_result _ _ _ H), filter_In, searchMatch_iff.
    reflexivity. }
  split; [exact Hgen | split; [|split; [|split]]].
  - intros products query h p H Aq An As. rewrite (Hgen products query h p H).
    unfold Matches. rewrite (ContainsCI_ascii _ _ Aq An).
    split; (intros [Hp [Hn | [s [Hs Hc]]]]; split; [exact Hp | now left | exact Hp |]);
      right; exists s; (split; [exact Hs|]);
      now apply (ContainsCI_ascii _ _ Aq (As s Hs)).
  - intros products h p Hp.
    assert (N : ~ WhiteSpaceOnly " pro").
    { intros H. apply trim_empty_iff in H. discriminate H. }
    apply (Hgen products " pro" h p N) in Hp as [_ Hm]. exact Hm.
  - repeat split; vm_compute; reflexivity.
  - split; [reflexivity|]. split; [vm_compute; reflexivity|]. split.
    + vm_compute. do 7 right. left. reflexivity.
    + intros H. vm_compute in H.
      repeat (destruct H as [H | H]; [discriminate H|]). exact H.
Qed.

Lemma filterBySearch_untrimmed_witness :
  ~ WhiteSpaceOnly "16 "
  /\ IsAscii "16 " /\ IsAscii PSM.iph_16.(name)
  /\ (forall s, In s PSM.iph_16.(specs) -> IsAscii s)
  /\ (In PSM.iph_16 (result (filterBySearch PRODUCTS "16 ") seeded) <->
      In PSM.iph_16 (contents seeded PRODUCTS)
      /\ (Occurs (JS.toLowerCase "16 ") (JS.toLowerCase PSM.iph_16.(name))
          \/ exists s, In s PSM.iph_16.(specs)
                       /\ Occurs (JS.toLowerCase "16 ") (JS.toLowerCase s)))
  /\ (In PSM.iph_16 (result (filterBySearch PRODUCTS "16 ") seeded) <->
      In PSM.iph_16 (contents seeded PRODUCTS)
      /\ (HoldsCI "16 " PSM.iph_16.(name)
          \/ exists s, In s PSM.iph_16.(specs) /\ HoldsCI "16 " s)).
Proof.
  assert (H : ~ WhiteSpaceOnly "16 ").
  { intros H. apply trim_empty_iff in H. discriminate H. }
  assert (Aq : IsAscii "16 ") by (repeat constructor).
  assert (An : IsAscii PSM.iph_16.(name)) by (repeat constructor).
  assert (As : forall s, In s PSM.iph_16.(specs) -> IsAscii s).
  { intros s Hs. cbn in Hs.
    repeat (destruct Hs as [<- | Hs]; [repeat constructor|]). contradiction. }
  split; [exact H|]. split; [exact Aq|]. split; [exact An|]. split; [exact As|].
  split.
  - exact (proj1 filterBySearch_untrimmed PRODUCTS "16 " seeded PSM.iph_16 H).
  - exact (proj1 (proj2 filterBySearch_untrimmed)
             PRODUCTS "16 " seeded PSM.iph_16 H Aq An As).
Defined.

(** ** Malformed series *)

(** A selection that [Number] reads as 16, however it is written, selects
    Series 16; a numeric selection that is no series selects nothing. *)
Remark filterBySeries_coerced :
  result (filterBySeries PRODUCTS "0x10") seeded
  = result (filterBySeries PRODUCTS "16") seeded
  /\ result (filterBySeries PRODUCTS " 1.6e1 ") seeded
     = result (filterBySeries PRODUCTS "16") seeded
  /\ result (filterBySeries PRODUCTS "") seeded = []
  /\ result (filterBySeries PRODUCTS "Infinity") seeded = [].
Proof. repeat split; vm_compute; reflexivity. Qed.

(** C8: for every series selection other than "all" that [Number] does not
    read as a number, [filterBySeries] on the seeded catalog returns a new,
    empty array; the call returns, nothing is thrown. *)
Theorem filterBySeries_non_numeric (sel : string) :
  sel <> "all" ->
  JS.Number sel = JS.NaN ->
  exists r h',
    filterBySeries PRODUCTS sel seeded = (r, h')
    /\ contents h' r = []
    /\ result (filterBySeries PRODUCTS sel) seeded = [].
Proof.
  intros Hall Hnan.
  assert (E : result (filterBySeries PRODUCTS sel) seeded = []).
  { unfold filterBySeries. apply String.eqb_neq in Hall. rewrite Hall.
    rewrite result_Array_filter, Hnan. apply filter_none.
    intros p _. now destruct (series p). }
  pose proof E as E'. unfold result in E'.
  destruct (filterBySeries PRODUCTS sel seeded) as [r h'] eqn:F.
  exists r, h'. repeat split; assumption.
Qed.

Lemma filterBySeries_non_numeric_witness :
  "abc" <> "all"
  /\ JS.Number "abc" = JS.NaN
  /\ exists r h',
      filterBySeries PRODUCTS "abc" seeded = (r, h')
      /\ contents h' r = []
      /\ result (filterBySeries PRODUCTS "abc") seeded = [].
Proof.
  assert (H1 : "abc" <> "all") by discriminate.
  assert (H2 : JS.Number "abc" = JS.NaN) by reflexivity.
  split; [exact H1|]. split; [exact H2|].
  exact (filterBySeries_non_numeric "abc" H1 H2).
Defined.

(** ** Lookup *)

(** C9: for every product [p] of the seeded catalog [findProductById] on the
    id of [p] returns [p]; for every id that no product of the catalog has,
    "nonexistent-id" among them, it returns [undefined] and does not throw. *)
Theorem findProductById_spec :
  (forall p, In p PSM.PRODUCTS -> PSM.findProductById p.(id) = Some p)
  /\ (forall i, (forall p, In p PSM.PRODUCTS -> p.(id) <> i) ->
                PSM.findProductById i = None)
  /\ PSM.findProductById "nonexistent-id" = None.
Proof.
  split; [|split].
  - intros p Hp. apply find_by_id; [apply ids_unique | exact Hp].
  - intros i Hi. unfold PSM.findProductById.
    destruct (find _ PSM.PRODUCTS) as [q|] eqn:F; [|reflexivity].
    apply find_some in F as [Hq E]. apply String.eqb_eq in E.
    now destruct (Hi q Hq).
  - reflexivity.
Qed.

Lemma findProductById_spec_witness :
  (In PSM.iph_16 PSM.PRODUCTS
   /\ PSM.findProductById PSM.iph_16.(id) = Some PSM.iph_16)
  /\ ((forall p, In p PSM.PRODUCTS -> p.(id) <> "nonexistent-id")
      /\ PSM.findProductById "nonexistent-id" = None).
Proof.
  assert (H1 : In PSM.iph_16 PSM.PRODUCTS).
  { unfold PSM.PRODUCTS. cbn [In]. do 3 right. left. reflexivity. }
  assert (H2 : forall p, In p PSM.PRODUCTS -> p.(id) <> "nonexistent-id").
  { intros p Hp. unfold PSM.PRODUCTS in Hp. cbn [In] in Hp.
    repeat (destruct Hp as [<- | Hp]; [discriminate|]). contradiction. }
  split.
  - split; [exact H1 | exact (proj1 findProductById_spec _ H1)].
  - split; [exact H2 | exact (proj1 (proj2 findProductById_spec) _ H2)].
Defined.

(** * Further properties of the pages *)

(** ** The pipeline, as a whole *)

Lemma Subseq_refl {A : Type} (l : list A) : Subseq l l.
Proof. induction l; constructor; assumption. Qed.

Lemma Subseq_filter_weaken {A : Type} (f g : A -> bool) (l : list A) :
  (forall x, f x = true -> g x = true) -> Subseq (filter f l) (filter g l).
Proof.
  intros H. induction l as [|a l IH]; simpl; [constructor|].
  destruct (f a) eqn:Fa.
  - rewrite (H a Fa). now apply subseq_cons.
  - destruct (g a); [apply subseq_skip|]; exact IH.
Qed.

Lemma Subseq_filter {A : Type} (f : A -> bool) (l : list A) : Subseq (filter f l) l.
Proof.
  induction l as [|a l IH]; simpl; [constructor|].
  destruct (f a); [apply subseq_cons | apply subseq_skip]; exact IH.
Qed.

Lemma getFilteredProducts_Extends st h :
  Extends h (snd (getFilteredProducts st h)).
Proof.
  unfold getFilteredProducts, stages. cbn [reduce]. unfold bind.
  destruct (filterByCategory PRODUCTS _ h) as [r1 h1] eqn:E1.
  destruct (filterBySeries r1 _ h1) as [r2 h2] eqn:E2.
  destruct (filterByCondition r2 _ h2) as [r3 h3] eqn:E3.
  destruct (filterBySearch r3 _ h3) as [r4 h4] eqn:E4.
  pose proof (proj1 (stages_extend PRODUCTS (FilterState.category st) h)) as X1.
  pose proof (proj1 (proj2 (stages_extend r1 (FilterState.series st) h1))) as X2.
  pose proof (proj1 (proj2 (proj2 (stages_extend r2 (FilterState.condition st) h2)))) as X3.
  pose proof (proj2 (proj2 (proj2 (stages_extend r3 (FilterState.search st) h3)))) as X4.
  rewrite E1 in X1. rewrite E2 in X2. rewrite E3 in X3. rewrite E4 in X4.
  cbn [snd ret] in *.
  destruct X1 as [n1 ->], X2 as [n2 ->], X3 as [n3 ->], X4 as [n4 ->].
  exists (n1 ++ n2 ++ n3 ++ n4). now rewrite <- !app_assoc.
Qed.

(** X1: when the three selections are "all" and the query is empty or white
    space only, [getFilteredProducts] allocates nothing and returns the
    catalog array itself, whatever the store. *)
Theorem blank_state_returns_catalog (st : FilterState.t) (h : heap) :
  st.(FilterState.category) = "all" ->
  st.(FilterState.series) = "all" ->
  st.(FilterState.condition) = "all" ->
  WhiteSpaceOnly st.(FilterState.search) ->
  getFilteredProducts st h = (PRODUCTS, h).
Proof.
  intros Hc Hs Hd Hq. unfold getFilteredProducts, stages. cbn [reduce].
  rewrite Hc, Hs, Hd. unfold bind. cbn.
  now rewrite (filterBySearch_pass _ _ _ Hq).
Qed.

Lemma blank_state_returns_catalog_witness :
  let st := {| FilterState.category := "all"; FilterState.series := "all";
               FilterState.condition := "all"; FilterState.search := "  " |} in
  WhiteSpaceOnly st.(FilterState.search)
  /\ getFilteredProducts st seeded = (PRODUCTS, seeded).
Proof.
  cbv zeta.
  assert (H : WhiteSpaceOnly "  ") by (apply trim_empty_iff; reflexivity).
  split; [exact H|].
  exact (blank_state_returns_catalog
           {| FilterState.category := "all"; FilterState.series := "all";
              FilterState.condition := "all"; FilterState.search := "  " |}
           seeded eq_refl eq_refl eq_refl H).
Defined.

(** X2: setting any one selection back to "all", or the query to the empty
    string, never loses a product: what was returned before is a subsequence
    of what is returned after. *)
Theorem relaxing_a_filter_widens (catalog : list Product) (st : FilterState.t) :
  let out st' := result (getFilteredProducts st') (loaded catalog) in
  Subseq (out st) (out (assign "category" "all" st))
  /\ Subseq (out st) (out (assign "series" "all" st))
  /\ Subseq (out st) (out (assign "condition" "all" st))
  /\ Subseq (out st) (out (assign "search" "" st)).
Proof.
  cbv beta zeta. rewrite !getFilteredProducts_result.
  repeat split; apply Subseq_filter_weaken; intros p; unfold keeps; cbn;
    rewrite !andb_true_iff; tauto.
Qed.

(** X3: filtering is idempotent: running the four stages again on the array
    [getFilteredProducts] returned gives the same products. *)
Theorem pipeline_idempotent (st : FilterState.t) (h : heap) :
  let r1 := fst (getFilteredProducts st h) in
  let h1 := snd (getFilteredProducts st h) in
  result (reduce (stages st) r1) h1 = contents h1 r1.
Proof.
  cbv zeta. rewrite (reduce_Filters _ _ (stages_Filters st)).
  pose proof (getFilteredProducts_result st h) as E. unfold result in E.
  destruct (getFilteredProducts st h) as [r1 h1]. cbn [fst snd].
  rewrite E, filter_twice. apply filter_ext. intros p. unfold keeps. cbn [forallb].
  destruct (keepsCategory _ p), (keepsSeries _ p), (keepsCondition _ p),
    (keepsSearch _ p); reflexivity.
Qed.

(** X4: the result keeps the order of the catalog (it is the catalog with
    products left out), and has no duplicate when the catalog has none. *)
Theorem getFilteredProducts_keeps_order (catalog : list Product) (st : FilterState.t) :
  let out := result (getFilteredProducts st) (loaded catalog) in
  Subseq out catalog /\ (NoDup catalog -> NoDup out).
Proof.
  cbv zeta. rewrite getFilteredProducts_result.
  change (contents (loaded catalog) PRODUCTS) with catalog. split.
  - apply Subseq_filter.
  - apply NoDup_filter.
Qed.

Lemma getFilteredProducts_keeps_order_witness :
  NoDup PSM.PRODUCTS
  /\ NoDup (result (getFilteredProducts series16) (loaded PSM.PRODUCTS)).
Proof.
  assert (H : NoDup PSM.PRODUCTS).
  { apply (NoDup_map_inv id). apply ids_unique. }
  split; [exact H|].
  exact (proj2 (getFilteredProducts_keeps_order PSM.PRODUCTS series16) H).
Defined.

(** X5: a series selection other than "all" never keeps a product whose
    series is [null]: every product [filterBySeries] returns comes from its
    input and has a series. *)
Theorem series_selection_needs_a_series
        (products : ref) (sel : string) (h : heap) (p : Product) :
  sel <> "all" ->
  In p (result (filterBySeries products sel) h) ->
  In p (contents h products) /\ p.(series) <> None.
Proof.
  intros Hall Hin. unfold filterBySeries in Hin.
  apply String.eqb_neq in Hall. rewrite Hall in Hin.
  rewrite result_Array_filter in Hin. apply filter_In in Hin as [Hp Hk].
  split; [exact Hp|]. destruct (series p) as [n|]; [discriminate|].
  discriminate Hk.
Qed.

Lemma series_selection_needs_a_series_witness :
  "16" <> "all"
  /\ In PSM.iph_16 (result (filterBySeries PRODUCTS "16") seeded)
  /\ In PSM.iph_16 (contents seeded PRODUCTS)
  /\ PSM.iph_16.(series) <> None.
Proof.
  assert (H1 : "16" <> "all") by discriminate.
  assert (H2 : In PSM.iph_16 (result (filterBySeries PRODUCTS "16") seeded)).
  { vm_compute. right. left. reflexivity. }
  split; [exact H1|]. split; [exact H2|].
  exact (series_selection_needs_a_series PRODUCTS "16" seeded PSM.iph_16 H1 H2).
Defined.

(** X6: on a catalog in which only iPhones have a series, a filter state that
    selects a series together with a category other than "iphone" returns
    nothing. *)
Theorem series_with_other_category_is_empty
        (catalog : list Product) (st : FilterState.t) :
  Forall (fun p => p.(series) <> None -> p.(category) = "iphone") catalog ->
  st.(FilterState.category) <> "all" ->
  st.(FilterState.category) <> "iphone" ->
  st.(FilterState.series) <> "all" ->
  result (getFilteredProducts st) (loaded catalog) = [].
Proof.
  intros Hwf Hc1 Hc2 Hs. rewrite getFilteredProducts_result.
  change (contents (loaded catalog) PRODUCTS) with catalog.
  apply filter_none. intros p Hp. rewrite Forall_forall in Hwf.
  specialize (Hwf p Hp). unfold keeps, keepsCategory, keepsSeries.
  apply String.eqb_neq in Hc1, Hs. rewrite Hc1, Hs. cbn [orb].
  destruct (String.eqb_spec (category p) (FilterState.category st)) as [E|E];
    [|reflexivity].
  destruct (series p) as [n|]; [|reflexivity].
  exfalso. apply Hc2. rewrite <- E. apply Hwf. discriminate.
Qed.

Lemma series_with_other_category_is_empty_witness :
  let st := {| FilterState.category := "accesorio"; FilterState.series := "16";
               FilterState.condition := "all"; FilterState.search := "" |} in
  Forall (fun p => p.(series) <> None -> p.(category) = "iphone") PSM.PRODUCTS
  /\ result (getFilteredProducts st) (loaded PSM.PRODUCTS) = [].
Proof.
  cbv zeta.
  assert (H : Forall (fun p => p.(series) <> None -> p.(category) = "iphone")
                     PSM.PRODUCTS).
  { repeat (constructor; [cbn; intros E; first [reflexivity | now destruct E]|]).
    constructor. }
  split; [exact H|].
  apply (series_with_other_category_is_empty PSM.PRODUCTS
           {| FilterState.category := "accesorio"; FilterState.series := "16";
              FilterState.condition := "all"; FilterState.search := "" |} H);
    discriminate.
Defined.

(** ** Clicks and the URL parameter *)

(** X7: a click on a category pill selects its value and keeps the condition
    and the query; it sets the series back to "all" unless the value is
    "iphone" (so also when the value is "all"), and keeps the series when it
    is "iphone".  A click on a series or a condition pill changes that one
    field only. *)
Theorem handleFilterClick_state (filter : string) (st : FilterState.t) :
  (let st' := fst (handleFilterClick true "category" filter st) in
   st'.(FilterState.category) = filter
   /\ st'.(FilterState.condition) = st.(FilterState.condition)
   /\ st'.(FilterState.search) = st.(FilterState.search)
   /\ (filter <> "iphone" -> st'.(FilterState.series) = "all")
   /\ (filter = "iphone" -> st'.(FilterState.series) = st.(FilterState.series)))
  /\ (let st' := fst (handleFilterClick true "series" filter st) in
      st'.(FilterState.series) = filter
      /\ st'.(FilterState.category) = st.(FilterState.category)
      /\ st'.(FilterState.condition) = st.(FilterState.condition)
      /\ st'.(FilterState.search) = st.(FilterState.search))
  /\ (let st' := fst (handleFilterClick true "condition" filter st) in
      st'.(FilterState.condition) = filter
      /\ st'.(FilterState.category) = st.(FilterState.category)
      /\ st'.(FilterState.series) = st.(FilterState.series)
      /\ st'.(FilterState.search) = st.(FilterState.search)).
Proof.
  split; [|split; repeat split].
  cbv zeta. unfold handleFilterClick. cbn.
  destruct (String.eqb_spec filter "iphone") as [E|E]; cbn; repeat split;
    intros; congruence.
Qed.

Lemma handleFilterClick_state_witness :
  "accesorio" <> "iphone"
  /\ (fst (handleFilterClick true "category" "accesorio" series16)).(FilterState.series)
     = "all".
Proof.
  assert (H : "accesorio" <> "iphone") by discriminate.
  split; [exact H|].
  exact (proj1 (proj2 (proj2 (proj2
           (proj1 (handleFilterClick_state "accesorio" series16))))) H).
Defined.

(** X8: after a click on a category pill other than "iphone", the array handed
    to [renderGrid] holds the products of the catalog that pass the category,
    the condition and the search; the series selected before plays no part. *)
Theorem category_click_drops_series
        (catalog : list Product) (filter : string) (st : FilterState.t) :
  filter <> "iphone" ->
  exists m,
    snd (handleFilterClick true "category" filter st) = Some m
    /\ result m (loaded catalog)
       = List.filter
           (fun p => keepsCategory filter p
                     && keepsCondition st.(FilterState.condition) p
                     && keepsSearch st.(FilterState.search) p)
           catalog.
Proof.
  intros H. apply String.eqb_neq in H.
  set (st2 := {| FilterState.category := filter; FilterState.series := "all";
                 FilterState.condition := st.(FilterState.condition);
                 FilterState.search := st.(FilterState.search) |}).
  assert (E : handleFilterClick true "category" filter st
              = (st2, Some (getFilteredProducts st2))).
  { unfold handleFilterClick. cbn - [getFilteredProducts]. now rewrite H. }
  rewrite E. eexists. split; [reflexivity|].
  rewrite getFilteredProducts_result.
  change (contents (loaded catalog) PRODUCTS) with catalog.
  apply filter_ext. intros p. unfold keeps, st2.
  cbn [FilterState.category FilterState.series FilterState.condition
       FilterState.search].
  change (keepsSeries "all" p) with true. now rewrite andb_true_r.
Qed.

Lemma category_click_drops_series_witness :
  "accesorio" <> "iphone"
  /\ exists m,
      snd (handleFilterClick true "category" "accesorio" series16) = Some m
      /\ result m (loaded PSM.PRODUCTS)
         = List.filter
             (fun p => keepsCategory "accesorio" p
                       && keepsCondition series16.(FilterState.condition) p
                       && keepsSearch series16.(FilterState.search) p)
             PSM.PRODUCTS.
Proof.
  assert (H : "accesorio" <> "iphone") by discriminate.
  split; [exact H|].
  exact (category_click_drops_series PSM.PRODUCTS "accesorio" series16 H).
Defined.

Lemma Array_includes_In (arr : list string) (x : string) :
  Array_includes arr x = true <-> In x arr.
Proof.
  unfold Array_includes. rewrite existsb_exists. split.
  - intros [y [Hy E]]. apply String.eqb_eq in E. now subst.
  - intros H. exists x. split; [exact H | apply String.eqb_refl].
Qed.

(** X9: [applyUrlFilter] never touches the series or the query.  A parameter
    that is one of "iphone", "accesorio", "repuesto" is stored as the
    category, the condition being kept; one of "nuevo", "certificado" is
    stored as the condition, the category being kept; a missing, empty or
    other parameter ("all", a different letter case) changes nothing. *)
Theorem applyUrlFilter_effect (filter : option string) (st : FilterState.t) :
  let st' := applyUrlFilter filter st in
  st'.(FilterState.series) = st.(FilterState.series)
  /\ st'.(FilterState.search) = st.(FilterState.search)
  /\ (forall f, filter = Some f -> In f CATEGORY_FILTERS ->
                st'.(FilterState.category) = f
                /\ st'.(FilterState.condition) = st.(FilterState.condition))
  /\ (forall f, filter = Some f -> In f CONDITION_FILTERS ->
                st'.(FilterState.condition) = f
                /\ st'.(FilterState.category) = st.(FilterState.category))
  /\ ((forall f, filter = Some f ->
                 ~ In f CATEGORY_FILTERS /\ ~ In f CONDITION_FILTERS) ->
      st' = st).
Proof.
  cbv zeta. unfold applyUrlFilter.
  assert (Hin : forall arr x, Array_includes arr x = false -> ~ In x arr).
  { intros arr x E H. apply Array_includes_In in H. congruence. }
  destruct filter as [f|];
    [|repeat split; intros; first [reflexivity | discriminate]].
  destruct (negb (JS.truthy f)) eqn:T.
  { unfold JS.truthy in T. rewrite negb_involutive in T.
    apply String.eqb_eq in T. subst f.
    repeat split; intros; try reflexivity;
      match goal with E : Some _ = Some _ |- _ => injection E as <- end;
      match goal with H : In _ _ |- _ => cbn in H; intuition discriminate end. }
  assert (Hyes : forall arr x, Array_includes arr x = true -> In x arr).
  { intros arr x E. now apply Array_includes_In. }
  destruct (Array_includes CATEGORY_FILTERS f) eqn:Ec;
    [apply Hyes in Ec | apply Hin in Ec];
    (destruct (Array_includes CONDITION_FILTERS f) eqn:Ed;
     [apply Hyes in Ed | apply Hin in Ed]).
  - exfalso. cbn in Ec, Ed. intuition (subst; discriminate).
  - repeat split; intros;
      repeat match goal with E : Some _ = Some _ |- _ => injection E as <- end;
      try reflexivity; try contradiction;
      match goal with H : forall g, Some f = Some g -> _ |- _ =>
        destruct (H f eq_refl); contradiction end.
  - repeat split; intros;
      repeat match goal with E : Some _ = Some _ |- _ => injection E as <- end;
      try reflexivity; try contradiction;
      match goal with H : forall g, Some f = Some g -> _ |- _ =>
        destruct (H f eq_refl); contradiction end.
  - repeat split; intros;
      repeat match goal with E : Some _ = Some _ |- _ => injection E as <- end;
      try reflexivity; contradiction.
Qed.

Lemma applyUrlFilter_effect_witness :
  (In "iphone" CATEGORY_FILTERS
   /\ (applyUrlFilter (Some "iphone") filterState).(FilterState.category) = "iphone"
   /\ (applyUrlFilter (Some "iphone") filterState).(FilterState.condition) = "all")
  /\ (In "certificado" CONDITION_FILTERS
      /\ (applyUrlFilter (Some "certificado") filterState).(FilterState.condition)
         = "certificado"
      /\ (applyUrlFilter (Some "certificado") filterState).(FilterState.category)
         = "all")
  /\ ((forall f, Some "Iphone" = Some f ->
                 ~ In f CATEGORY_FILTERS /\ ~ In f CONDITION_FILTERS)
      /\ applyUrlFilter (Some "Iphone") filterState = filterState).
Proof.
  assert (H1 : In "iphone" CATEGORY_FILTERS) by (left; reflexivity).
  assert (H2 : In "certificado" CONDITION_FILTERS) by (right; left; reflexivity).
  assert (H3 : forall f, Some "Iphone" = Some f ->
                         ~ In f CATEGORY_FILTERS /\ ~ In f CONDITION_FILTERS).
  { intros f E. injection E as <-. cbn. split; intuition discriminate. }
  split; [|split].
  - split; [exact H1|].
    exact (proj1 (proj2 (proj2 (applyUrlFilter_effect (Some "iphone") filterState)))
             "iphone" eq_refl H1).
  - split; [exact H2|].
    exact (proj1 (proj2 (proj2 (proj2
             (applyUrlFilter_effect (Some "certificado") filterState))))
             "certificado" eq_refl H2).
  - split; [exact H3|].
    exact (proj2 (proj2 (proj2 (proj2
             (applyUrlFilter_effect (Some "Iphone") filterState)))) H3).
Defined.

(** ** The detail page *)

Lemma ids_not_empty (p : Product) : In p PSM.PRODUCTS -> p.(id) <> "".
Proof.
  intros Hp E.
  assert (H : forallb (fun q => negb (q.(id) =? "")) PSM.PRODUCTS = true)
    by (vm_compute; reflexivity).
  rewrite forallb_forall in H. specialize (H p Hp).
  rewrite E in H. discriminate H.
Qed.

Lemma findProductById_inv (i : string) (p : Product) :
  PSM.findProductById i = Some p -> In p PSM.PRODUCTS /\ p.(id) = i.
Proof.
  intros F. apply find_some in F as [Hp E]. split; [exact Hp|].
  now apply String.eqb_eq.
Qed.

Lemma related_in_catalog (p e : Product) :
  In e (PSM.getRelatedProducts p) -> In e PSM.PRODUCTS.
Proof. intros H. now apply In_firstn, filter_In in H. Qed.

Lemma getFilteredProducts_In (catalog : list Product) st p :
  In p (result (getFilteredProducts st) (loaded catalog)) -> In p catalog.
Proof.
  rewrite getFilteredProducts_result. intros H. now apply filter_In in H.
Qed.

Lemma init_renders (p : Product) :
  In p PSM.PRODUCTS ->
  Producto.init (Some p.(id)) = Producto.Render p (PSM.getRelatedProducts p).
Proof.
  intros Hp. unfold Producto.init, JS.truthy.
  pose proof (ids_not_empty p Hp) as Hne. apply String.eqb_neq in Hne.
  rewrite Hne. cbn [negb].
  unfold PSM.findProductById. now rewrite (find_by_id _ _ ids_unique Hp).
Qed.

(** X10: the detail page renders a product exactly when the [id] parameter is
    the id of a catalog product: then it renders that product with its related
    products; with no parameter, an empty one or an unknown id it leaves for
    catalogo.html and renders nothing. *)
Theorem init_spec :
  (forall productId,
      match Producto.init productId with
      | Producto.Render p related =>
          In p PSM.PRODUCTS /\ productId = Some p.(id)
          /\ related = PSM.getRelatedProducts p
      | Producto.Redirect url =>
          url = "catalogo.html"
          /\ forall p, In p PSM.PRODUCTS -> productId <> Some p.(id)
      end)
  /\ (forall p, In p PSM.PRODUCTS ->
                Producto.init (Some p.(id))
                = Producto.Render p (PSM.getRelatedProducts p)).
Proof.
  split; [|exact init_renders].
  intros [i|]; cbn [Producto.init].
  - destruct (negb (JS.truthy i)) eqn:T.
    + split; [reflexivity|]. intros p Hp E. injection E as ->.
      unfold JS.truthy in T. rewrite negb_involutive in T.
      apply String.eqb_eq in T. now apply (ids_not_empty p).
    + destruct (PSM.findProductById i) as [p|] eqn:F.
      * apply findProductById_inv in F as [Hp <-]. now repeat split.
      * split; [reflexivity|]. intros p Hp E. injection E as ->.
        unfold PSM.findProductById in F.
        rewrite (find_by_id _ _ ids_unique Hp) in F. discriminate F.
  - split; [reflexivity | discriminate].
Qed.

Lemma init_spec_witness :
  In PSM.iph_16 PSM.PRODUCTS
  /\ Producto.init (Some PSM.iph_16.(id))
     = Producto.Render PSM.iph_16 (PSM.getRelatedProducts PSM.iph_16).
Proof.
  assert (H : In PSM.iph_16 PSM.PRODUCTS).
  { unfold PSM.PRODUCTS. cbn [In]. do 3 right. left. reflexivity. }
  split; [exact H | exact (proj2 init_spec PSM.iph_16 H)].
Defined.

(** X11: every product link the pages build leads to its product: for each
    product [getFilteredProducts] returns on the seeded catalog, and for each
    related product of any product, the detail page opened on its id renders
    that very product. *)
Theorem product_links_resolve :
  (forall st p,
      In p (result (getFilteredProducts st) seeded) ->
      Producto.init (Some p.(id))
      = Producto.Render p (PSM.getRelatedProducts p))
  /\ (forall q p,
        In p (PSM.getRelatedProducts q) ->
        PSM.findProductById p.(id) = Some p
        /\ Producto.init (Some p.(id))
           = Producto.Render p (PSM.getRelatedProducts p)).
Proof.
  split.
  - intros st p Hp. apply init_renders.
    now apply (getFilteredProducts_In PSM.PRODUCTS st).
  - intros q p Hp. apply related_in_catalog in Hp. split.
    + now apply find_by_id; [apply ids_unique|].
    + now apply init_renders.
Qed.

Lemma product_links_resolve_witness :
  In PSM.iph_16 (result (getFilteredProducts series16) seeded)
  /\ Producto.init (Some PSM.iph_16.(id))
     = Producto.Render PSM.iph_16 (PSM.getRelatedProducts PSM.iph_16).
Proof.
  assert (H : In PSM.iph_16 (result (getFilteredProducts series16) seeded)).
  { vm_compute. right. left. reflexivity. }
  split; [exact H | exact (proj1 product_links_resolve series16 PSM.iph_16 H)].
Defined.

(** *** Gallery thumbnails *)

Lemma readDigits_uint (d : Decimal.uint) :
  forall acc cnt,
    JS.readDigits 10 (Z.of_nat acc) cnt (DecimalString.NilEmpty.string_of_uint d)
    = (Z.of_nat (Nat.of_uint_acc d acc), cnt + Decimal.nb_digits d, "").
Proof.
  induction d; intros acc cnt; cbn [DecimalString.NilEmpty.string_of_uint
    JS.readDigits Nat.of_uint_acc Decimal.nb_digits];
    [ now rewrite Nat.add_0_r | .. ];
    match goal with
    | |- context [JS.digit 10 ?c] =>
        let v := eval vm_compute in (JS.digit 10 c) in
        change (JS.digit 10 c) with v
    end;
    cbv iota;
    match goal with
    | |- JS.readDigits 10 ?z _ _ = (Z.of_nat (Nat.of_uint_acc _ ?n), _, _) =>
        replace z with (Z.of_nat n)
          by (rewrite Nat.tail_mul_spec; change (Z.of_N 10) with 10%Z; lia)
    end;
    rewrite IHd; f_equal; f_equal; lia.
Qed.

Lemma trimStart_digit (c : ascii) (r : string) :
  JS.digit 10 c <> None -> JS.trimStart (String c r) = String c r.
Proof.
  intros H.
  assert (W : JS.ws1 c = false /\ (forall d, JS.ws2 c d = false)
              /\ forall d e, JS.ws3 c d e = false).
  { unfold JS.digit in H. unfold JS.ws1, JS.ws2, JS.ws3.
    destruct ((48 <=? JS.code c)%N && (JS.code c <=? 57)%N) eqn:D.
    - apply andb_true_iff in D as [D1 D2].
      apply N.leb_le in D1, D2.
      assert (E1 : (JS.code c <=? 13)%N = false) by (apply N.leb_gt; lia).
      assert (E2 : (JS.code c =? 32)%N = false) by (apply N.eqb_neq; lia).
      assert (E3 : (JS.code c =? 194)%N = false) by (apply N.eqb_neq; lia).
      assert (E4 : (JS.code c =? 225)%N = false) by (apply N.eqb_neq; lia).
      assert (E5 : (JS.code c =? 226)%N = false) by (apply N.eqb_neq; lia).
      assert (E6 : (JS.code c =? 227)%N = false) by (apply N.eqb_neq; lia).
      assert (E7 : (JS.code c =? 239)%N = false) by (apply N.eqb_neq; lia).
      cbv zeta. rewrite E1, E2, E3, E4, E5, E6, E7.
      rewrite andb_false_r. now repeat split.
    - exfalso. apply H.
      destruct ((97 <=? JS.code c)%N && (JS.code c <=? 102)%N) eqn:D2.
      + apply andb_true_iff in D2 as [A B]. apply N.leb_le in A, B.
        assert (L : (JS.code c - 87 <? 10)%N = false) by (apply N.ltb_ge; lia).
        now rewrite L.
      + destruct ((65 <=? JS.code c)%N && (JS.code c <=? 70)%N) eqn:D3;
          [|reflexivity].
        apply andb_true_iff in D3 as [A B]. apply N.leb_le in A, B.
        assert (L : (JS.code c - 55 <? 10)%N = false) by (apply N.ltb_ge; lia).
        now rewrite L. }
  destruct W as [W1 [W2 W3]].
  destruct r as [|d [|e r]]; cbn [JS.trimStart]; now rewrite ?W1, ?W2, ?W3.
Qed.

(** [parseInt] reads back the digits [String] writes. *)
Lemma parseInt_toStringNat (n : nat) :
  JS.parseInt (JS.toStringNat n) = JS.Finite (Z.of_nat n) 0.
Proof.
  unfold JS.toStringNat.
  pose proof (DecimalNat.Unsigned.of_to n) as Hn.
  assert (Hnil : Nat.to_uint n <> Decimal.Nil).
  { pose proof (DecimalNat.Unsigned.to_of (Nat.to_uint n)) as T.
    rewrite Hn in T. rewrite T. apply DecimalFacts.unorm_nonnil. }
  unfold Nat.of_uint in Hn. revert Hn Hnil.
  generalize (Nat.to_uint n) as d. intros d Hn Hnil.
  pose proof (readDigits_uint d 0 0) as R. rewrite Hn in R. cbn [Z.of_nat] in R.
  unfold JS.parseInt.
  destruct d; [contradiction | ..];
    cbn [DecimalString.NilEmpty.string_of_uint] in *;
    (rewrite trimStart_digit by (vm_compute; discriminate));
    cbn [JS.readSign]; rewrite R; cbn [Nat.add Decimal.nb_digits];
    f_equal; lia.
Qed.

(** X12: a click on a thumbnail only ever shows an image of the product's own
    gallery: whatever the thumbnail's index attribute holds, the hero image
    gets a non-empty entry of the gallery or is left alone. *)
Theorem thumbClick_in_gallery
        (product : Product) (thumbIndex : option string) (src : string) :
  Producto.thumbClick product thumbIndex = Some src ->
  In src product.(gallery) /\ src <> "".
Proof.
  unfold Producto.thumbClick, JS.index. intros H.
  destruct (JS.parseInt (JS.toStringOpt thumbIndex)) as [|b|m e];
    try discriminate H.
  cbn [JS.isNaN] in H.
  destruct ((e =? 0)%Z && (0 <=? m)%Z); [|discriminate H].
  destruct (nth_error (gallery product) (Z.to_nat m)) as [s|] eqn:N;
    [|discriminate H].
  destruct (negb (JS.truthy s)) eqn:T; [discriminate H|].
  injection H as <-. split; [now apply nth_error_In in N|].
  unfold JS.truthy in T. rewrite negb_involutive in T.
  now apply String.eqb_neq.
Qed.

Lemma thumbClick_in_gallery_witness :
  Producto.thumbClick PSM.iph_16 (Some " 1px")
  = Some "img/phone/product/iphone_16/iphone-16-finish-select-202409-6-1inch-black.jfif"
  /\ In "img/phone/product/iphone_16/iphone-16-finish-select-202409-6-1inch-black.jfif"
        PSM.iph_16.(gallery).
Proof.
  assert (H : Producto.thumbClick PSM.iph_16 (Some " 1px")
              = Some "img/phone/product/iphone_16/iphone-16-finish-select-202409-6-1inch-black.jfif")
    by reflexivity.
  split; [exact H|].
  exact (proj1 (thumbClick_in_gallery PSM.iph_16 (Some " 1px") _ H)).
Defined.

(** X13: the index a thumbnail is rendered with, [String(i)], is read back by
    the click handler: a click on the thumbnail of the [i]-th gallery entry
    shows that entry, when it is not the empty string.  An index outside the
    gallery, a negative one, or a missing or non-numeric attribute changes
    nothing. *)
Theorem thumbClick_round_trip (product : Product) :
  (forall i src,
      nth_error product.(gallery) i = Some src -> src <> "" ->
      Producto.thumbClick product (Some (JS.toStringNat i)) = Some src)
  /\ (forall i,
        length product.(gallery) <= i ->
        Producto.thumbClick product (Some (JS.toStringNat i)) = None)
  /\ Producto.thumbClick product (Some "-1") = None
  /\ Producto.thumbClick product (Some "") = None
  /\ Producto.thumbClick product None = None.
Proof.
  split; [|split; [|repeat split]].
  - intros i src Hi Hne. unfold Producto.thumbClick. cbn [JS.toStringOpt].
    rewrite parseInt_toStringNat. cbn [JS.isNaN JS.index].
    rewrite Z.eqb_refl, (proj2 (Z.leb_le 0 (Z.of_nat i)) (Nat2Z.is_nonneg i)).
    cbn [andb]. rewrite Nat2Z.id, Hi.
    apply String.eqb_neq in Hne. unfold JS.truthy. now rewrite Hne.
  - intros i Hi. unfold Producto.thumbClick. cbn [JS.toStringOpt].
    rewrite parseInt_toStringNat. cbn [JS.isNaN JS.index].
    rewrite Z.eqb_refl, (proj2 (Z.leb_le 0 (Z.of_nat i)) (Nat2Z.is_nonneg i)).
    cbn [andb]. rewrite Nat2Z.id.
    now rewrite (proj2 (nth_error_None _ _) Hi).
Qed.

Lemma thumbClick_round_trip_witness :
  nth_error PSM.iph_16.(gallery) 1
  = Some "img/phone/product/iphone_16/iphone-16-finish-select-202409-6-1inch-black.jfif"
  /\ Producto.thumbClick PSM.iph_16 (Some (JS.toStringNat 1))
     = Some "img/phone/product/iphone_16/iphone-16-finish-select-202409-6-1inch-black.jfif"
  /\ length PSM.iph_16.(gallery) <= 2
  /\ Producto.thumbClick PSM.iph_16 (Some (JS.toStringNat 2)) = None.
Proof.
  destruct (thumbClick_round_trip PSM.iph_16) as [Hin [Hout _]].
  assert (H1 : nth_error PSM.iph_16.(gallery) 1
               = Some "img/phone/product/iphone_16/iphone-16-finish-select-202409-6-1inch-black.jfif")
    by reflexivity.
  assert (H2 : length PSM.iph_16.(gallery) <= 2) by (cbn; lia).
  split; [exact H1|]. split; [apply (Hin 1 _ H1); discriminate|].
  split; [exact H2 | exact (Hout 2 H2)].
Defined.

(** ** The catalog data and the badges *)

(** X14: the seeded catalog keeps what the [Product] typedef promises: the ids
    are pairwise distinct, a product has a series exactly when its category is
    "iphone", the category and the condition are among the documented values,
    and no gallery is empty. *)
Theorem seeded_catalog_well_formed : WellFormed PSM.PRODUCTS.
Proof.
  split; [apply ids_unique|].
  repeat (constructor;
          [ unfold WellFormedProduct; cbn; repeat split;
            try discriminate; try (intros; discriminate);
            try (intros H; now contradiction H);
            tauto |]).
  constructor.
Qed.

Lemma resolveBadge_key (p : Product) :
  Catalogo.resolveBadge p = Catalogo.MAP (badgeKey p)
  /\ Producto.resolveBadge p = Producto.MAP (badgeKey p).
Proof.
  unfold Catalogo.resolveBadge, Producto.resolveBadge, badgeKey.
  now destruct (negb (category p =? "iphone")).
Qed.

Lemma resolveBadge_None_iff (p : Product) :
  Catalogo.resolveBadge p = None
  <-> ~ In (badgeKey p) ["nuevo"; "certificado"; "accesorio"; "repuesto"].
Proof.
  rewrite (proj1 (resolveBadge_key p)). unfold Catalogo.MAP.
  generalize (badgeKey p) as k. intros k. cbn [In].
  destruct (String.eqb_spec k "nuevo");
    [split; [intros H; discriminate H | intuition congruence]|].
  destruct (String.eqb_spec k "certificado");
    [split; [intros H; discriminate H | intuition congruence]|].
  destruct (String.eqb_spec k "accesorio");
    [split; [intros H; discriminate H | intuition congruence]|].
  destruct (String.eqb_spec k "repuesto");
    [split; [intros H; discriminate H | intuition congruence]|].
  split; [intuition congruence | reflexivity].
Qed.

Lemma detail_badge_None_iff (p : Product) :
  Producto.resolveBadge p = None <-> Catalogo.resolveBadge p = None.
Proof.
  rewrite (proj1 (resolveBadge_key p)), (proj2 (resolveBadge_key p)).
  unfold Producto.MAP, Catalogo.MAP. generalize (badgeKey p) as k. intros k.
  destruct (k =? "nuevo"); [split; intros H; discriminate H|].
  destruct (k =? "certificado"); [split; intros H; discriminate H|].
  destruct (k =? "accesorio"); [split; intros H; discriminate H|].
  destruct (k =? "repuesto"); [split; intros H; discriminate H|].
  tauto.
Qed.

Lemma WellFormedProduct_badge (p : Product) :
  WellFormedProduct p -> Catalogo.resolveBadge p <> None.
Proof.
  intros [_ [Hc [Hd _]]] N. apply resolveBadge_None_iff in N. apply N.
  unfold badgeKey. cbn [In CATEGORY_FILTERS CONDITION_FILTERS] in *.
  destruct (String.eqb_spec (category p) "iphone") as [E|E]; cbn [negb].
  - intuition.
  - intuition congruence.
Qed.

Lemma renderProductCard_None_iff (p : Product) (i : nat) :
  renderProductCard p i = None <-> Catalogo.resolveBadge p = None.
Proof.
  unfold renderProductCard. destruct (Catalogo.resolveBadge p); split;
    congruence.
Qed.



(** *** Cards *)

Lemma append_nil_r (s : string) : (s ++ "")%string = s.
Proof. induction s; simpl; congruence. Qed.

Lemma append_assoc (a b c : string) :
  ((a ++ b) ++ c)%string = (a ++ b ++ c)%string.
Proof. induction a; simpl; congruence. Qed.

Lemma template_cons (x : string) (xs : list string) :
  JS.template (x :: xs) = (x ++ JS.template xs)%string.
Proof.
  unfold JS.template. destruct xs; cbn [String.concat];
    [now rewrite append_nil_r | reflexivity].
Qed.

Lemma template_app (l1 l2 : list string) :
  JS.template (l1 ++ l2) = (JS.template l1 ++ JS.template l2)%string.
Proof.
  induction l1 as [|x l1 IH]; [reflexivity|].
  cbn [app]. now rewrite !template_cons, IH, append_assoc.
Qed.

Lemma template_Substring (pre mid post : list string) :
  Substring (JS.template mid) (JS.template (pre ++ mid ++ post)).
Proof.
  exists (JS.template pre), (JS.template post). now rewrite !template_app.
Qed.

(** X16: every card [renderProductCard] returns gives its image the source
    "undefined": the template reads [product.image], a property the product
    records do not have, and never the gallery. *)
Theorem renderProductCard_image_undefined (p : Product) (i : nat) (html : string) :
  renderProductCard p i = Some html ->
  Substring ("src=" ++ JS.dquote ++ "undefined" ++ JS.dquote)%string html.
Proof.
  unfold renderProductCard. destruct (Catalogo.resolveBadge p) as [badge|];
    [|discriminate].
  cbv zeta. intros H. injection H as <-.
  match goal with
  | |- Substring _ (JS.template ?chunks) =>
      assert (S : Substring
                    (JS.template [ "                    src="; JS.dquote;
                                   JS.toStringOpt (image p); JS.dquote ])
                    (JS.template chunks))
        by exact (template_Substring
                    (firstn 44 chunks)
                    [ "                    src="; JS.dquote;
                      JS.toStringOpt (image p); JS.dquote ]
                    (skipn 48 chunks))
  end.
  destruct S as [pre [post E]]. rewrite E.
  exists (pre ++ "                    ")%string, post.
  rewrite append_assoc. reflexivity.
Qed.

Lemma renderProductCard_image_undefined_witness :
  exists html,
    renderProductCard PSM.iph_16 0 = Some html
    /\ Substring ("src=" ++ JS.dquote ++ "undefined" ++ JS.dquote)%string html.
Proof.
  eexists. split; [reflexivity|].
  exact (renderProductCard_image_undefined PSM.iph_16 0 _ eq_refl).
Defined.

(** *** The grid *)

Lemma mapCards_total (l : list Product) :
  (forall p, In p l -> Catalogo.resolveBadge p <> None) ->
  forall i, exists cards, mapCards l i = Some cards /\ length cards = length l.
Proof.
  induction l as [|p l IH]; intros H i; [now exists []|].
  cbn [mapCards].
  destruct (renderProductCard p i) as [card|] eqn:C.
  - destruct (IH (fun q Hq => H q (or_intror Hq)) (S i)) as [cards [E L]].
    rewrite E. exists (card :: cards). split; [reflexivity | cbn; now rewrite L].
  - apply renderProductCard_None_iff in C. now destruct (H p (or_introl eq_refl)).
Qed.

Lemma renderGrid_full (products : ref) (h : heap) (dom : GridDom) :
  FullDom dom ->
  (forall p, In p (contents h products) -> Catalogo.resolveBadge p <> None) ->
  let n := length (contents h products) in
  exists dom',
    renderGrid products h dom = Done dom'
    /\ dom'.(totalCount) = Some (JS.toStringNat (length (contents h PRODUCTS)))
    /\ dom'.(resultsCount)
       = Some (JS.toStringNat n
               ++ (if (n =? 1)%nat then " resultado" else " resultados"))%string
    /\ dom'.(emptyState) = Some (negb (n =? 0)%nat)
    /\ (n = 0 -> dom'.(grid) = Some "")
    /\ (n <> 0 ->
        exists cards,
          mapCards (contents h products) 0 = Some cards
          /\ length cards = n
          /\ dom'.(grid) = Some (JS.join "" cards)).
Proof.
  intros [Hg [He [Hr Ht]]] Hb n. subst n. unfold renderGrid.
  destruct (grid dom) as [g|]; [|contradiction].
  destruct (totalCount dom) as [t|]; [|contradiction].
  destruct (resultsCount dom) as [c|]; [|contradiction].
  destruct (emptyState dom) as [e|]; [|contradiction].
  cbv zeta. set (n := length (contents h products)).
  assert (Hlabel :
            JS.template [ JS.toStringNat n; " resultado";
                          if negb (n =? 1)%nat then "s" else "" ]
            = (JS.toStringNat n
               ++ (if (n =? 1)%nat then " resultado" else " resultados"))%string).
  { rewrite !template_cons. now destruct (n =? 1)%nat. }
  rewrite Hlabel.
  destruct (n =? 0)%nat eqn:Z.
  - eexists. split; [reflexivity|]. cbn [grid emptyState resultsCount totalCount].
    apply Nat.eqb_eq in Z. repeat split; congruence.
  - destruct (mapCards_total _ Hb 0) as [cards [E L]]. rewrite E.
    eexists. split; [reflexivity|]. cbn [grid emptyState resultsCount totalCount].
    apply Nat.eqb_neq in Z. repeat split; try congruence.
    intros _. now exists cards.
Qed.


Lemma seeded_badges (p : Product) :
  In p PSM.PRODUCTS -> Catalogo.resolveBadge p <> None.
Proof.
  intros Hp. apply WellFormedProduct_badge.
  assert (W : Forall WellFormedProduct PSM.PRODUCTS).
  { repeat (constructor;
            [ unfold WellFormedProduct; cbn; repeat split;
              try discriminate; try (intros; discriminate);
              try (intros H; now contradiction H);
              tauto |]).
    constructor. }
  rewrite Forall_forall in W. now apply W.
Qed.


(** X18: on the seeded catalog, for every filter state, rendering what
    [getFilteredProducts] returns ends normally on a page with the four
    elements: no card throws, the total reads "16", the count is that of the
    products returned, and the empty state is shown exactly when the filters
    return nothing. *)
Theorem renderGrid_seeded (st : FilterState.t) (dom : GridDom) :
  FullDom dom ->
  let r := fst (getFilteredProducts st seeded) in
  let h := snd (getFilteredProducts st seeded) in
  let out := result (getFilteredProducts st) seeded in
  exists dom',
    renderGrid r h dom = Done dom'
    /\ dom'.(totalCount) = Some "16"
    /\ dom'.(resultsCount)
       = Some (JS.toStringNat (length out)
               ++ (if (length out =? 1)%nat then " resultado" else " resultados"))%string
    /\ (dom'.(emptyState) = Some false <-> out = []).
Proof.
  intros F r h out.
  assert (Hout : contents h r = out).
  { unfold out, result, r, h. now destruct (getFilteredProducts st seeded). }
  assert (Hcat : contents h PRODUCTS = PSM.PRODUCTS).
  { unfold h. rewrite (Extends_contents seeded _ PRODUCTS
                         (getFilteredProducts_Extends st seeded));
      [reflexivity | unfold PRODUCTS, seeded, loaded; cbn [length]; lia]. }
  assert (B : forall p, In p (contents h r) -> Catalogo.resolveBadge p <> None).
  { intros p Hp. apply seeded_badges. rewrite Hout in Hp.
    now apply (getFilteredProducts_In PSM.PRODUCTS st). }
  destruct (renderGrid_full r h dom F B) as [dom' [E [T [R [S _]]]]].
  rewrite Hcat in T. rewrite Hout in R, S.
  exists dom'. split; [exact E|]. split; [exact T|]. split; [exact R|].
  rewrite S. destruct out as [|p out']; cbn; split; congruence.
Qed.

Lemma renderGrid_seeded_witness :
  let dom := {| grid := Some ""; emptyState := Some true;
                resultsCount := Some ""; totalCount := Some "" |} in
  FullDom dom
  /\ exists dom',
      renderGrid (fst (getFilteredProducts series16 seeded))
                 (snd (getFilteredProducts series16 seeded)) dom = Done dom'
      /\ dom'.(totalCount) = Some "16"
      /\ dom'.(resultsCount) = Some "4 resultados".
Proof.
  cbv zeta.
  assert (F : FullDom {| grid := Some ""; emptyState := Some true;
                         resultsCount := Some ""; totalCount := Some "" |}).
  { repeat split; discriminate. }
  split; [exact F|].
  destruct (renderGrid_seeded series16 _ F) as [dom' [E [T [R _]]]].
  exists dom'. repeat split; assumption.
Defined.

(** ** The B2B form *)

Lemma encode_byte (c : ascii) :
  (JS.unreserved c = true /\ Ascii.eqb c "%" = false)
  \/ (JS.unreserved c = false
      /\ JS.unreserved (JS.hexDigit (JS.code c / 16)) = true
      /\ JS.unreserved (JS.hexDigit (JS.code c mod 16)) = true
      /\ ascii_of_N (16 * hexValue (JS.hexDigit (JS.code c / 16))
                     + hexValue (JS.hexDigit (JS.code c mod 16))) = c).
Proof.
  destruct c as [[] [] [] [] [] [] [] []]; vm_compute;
    first [ left; split; reflexivity | right; repeat split; reflexivity ].
Qed.

Lemma percentDecode_encode (s : string) :
  percentDecode (JS.encodeURIComponent s) = s.
Proof.
  induction s as [|c s IH]; [reflexivity|].
  cbn [JS.encodeURIComponent].
  destruct (encode_byte c) as [[U P] | [U [_ [_ V]]]]; rewrite U.
  - cbn [percentDecode]. now rewrite P, IH.
  - cbn [percentDecode]. change (Ascii.eqb "%" "%") with true. cbv iota.
    now rewrite V, IH.
Qed.

Lemma encode_UrlSafe (s : string) : UrlSafe (JS.encodeURIComponent s).
Proof.
  unfold UrlSafe. induction s as [|c s IH]; [constructor|].
  cbn [JS.encodeURIComponent].
  destruct (encode_byte c) as [[U P] | [U [H1 [H2 _]]]]; rewrite U;
    cbn [list_ascii_of_string].
  - constructor; [left; exact U | exact IH].
  - constructor; [right; reflexivity|].
    constructor; [left; exact H1|].
    constructor; [left; exact H2 | exact IH].
Qed.

Lemma wa_url (text : string) :
  JS.template [ B2B.WHATSAPP_BASE; B2B.WHATSAPP_NUMBER; "?text="; text ]
  = ("https://wa.me/584146395496?text=" ++ text)%string.
Proof. now rewrite !template_cons, append_nil_r. Qed.

(** *** Lone surrogates

    Decoding splits at a Basic Latin character: such a byte belongs to no
    sequence of several bytes. *)

Lemma decode_unfold (c : ascii) (r : string) :
  JS.decode (String c r) =
      let n := JS.code c in
      if (n <? 128)%N then n :: JS.decode r
      else
        match r with
        | String d r2 =>
            match JS.continuation d with
            | Some x =>
                if JS.lead2 n then ((n - 192) * 64 + x)%N :: JS.decode r2
                else
                  match r2 with
                  | String e r3 =>
                      match JS.continuation e with
                      | Some y =>
                          if JS.lead3 n x then
                            ((n - 224) * 4096 + x * 64 + y)%N :: JS.decode r3
                          else
                            match r3 with
                            | String f r4 =>
                                match JS.continuation f with
                                | Some z =>
                                    if JS.lead4 n x then
                                      ((n - 240) * 262144 + x * 4096 + y * 64 + z)%N
                                        :: JS.decode r4
                                    else JS.raw c :: JS.decode r
                                | None => JS.raw c :: JS.decode r
                                end
                            | EmptyString => JS.raw c :: JS.decode r
                            end
                      | None => JS.raw c :: JS.decode r
                      end
                  | EmptyString => JS.raw c :: JS.decode r
                  end
            | None => JS.raw c :: JS.decode r
            end
        | EmptyString => JS.raw c :: JS.decode r
        end.
Proof. reflexivity. Qed.

Lemma continuation_ascii (c : ascii) :
  (JS.code c < 128)%N -> JS.continuation c = None.
Proof.
  intros H. unfold JS.continuation.
  replace (128 <=? JS.code c)%N with false by (symmetry; apply N.leb_gt; exact H).
  reflexivity.
Qed.

Lemma decode_ascii_head (c : ascii) (b : string) :
  (JS.code c < 128)%N -> JS.decode (String c b) = JS.code c :: JS.decode b.
Proof.
  intros H. rewrite decode_unfold. cbv zeta.
  now rewrite (proj2 (N.ltb_lt _ _) H).
Qed.

Lemma decode_app_ascii (a : string) (c : ascii) (b : string) :
  (JS.code c < 128)%N ->
  JS.decode (a ++ String c b)%string = JS.decode a ++ JS.code c :: JS.decode b.
Proof.
  intros Hc. pose proof (continuation_ascii c Hc) as Kc.
  remember (String.length a) as n eqn:Hn.
  assert (Hle : String.length a <= n) by lia. clear Hn.
  revert a Hle. induction n as [|n IH]; intros a Hle.
  - destruct a; [|cbn in Hle; lia]. cbn [append app JS.decode].
    now apply decode_ascii_head.
  - destruct a as [|x a1]; [now apply decode_ascii_head|].
    cbn [String.length] in Hle.
    change (String x a1 ++ String c b)%string with (String x (a1 ++ String c b))%string.
    rewrite (decode_unfold x (a1 ++ String c b)%string), (decode_unfold x a1).
    cbv zeta.
    destruct (JS.code x <? 128)%N.
    { cbn [app]. f_equal. apply IH. lia. }
    assert (R : forall r, String.length r <= n ->
                  JS.raw x :: JS.decode (r ++ String c b)%string
                  = (JS.raw x :: JS.decode r) ++ JS.code c :: JS.decode b).
    { intros r Hr. cbn [app]. f_equal. now apply IH. }
    destruct a1 as [|d a2].
    { cbn [append]. rewrite Kc. apply (R ""). cbn; lia. }
    cbn [String.length] in Hle.
    change (String d a2 ++ String c b)%string with (String d (a2 ++ String c b))%string.
    cbv iota.
    destruct (JS.continuation d) as [xx|];
      [|apply (R (String d a2)); cbn; lia].
    destruct (JS.lead2 (JS.code x)).
    { cbn [app]. f_equal. apply IH. lia. }
    destruct a2 as [|e a3].
    { cbn [append]. rewrite Kc. apply (R (String d "")). cbn; lia. }
    cbn [String.length] in Hle.
    change (String e a3 ++ String c b)%string with (String e (a3 ++ String c b))%string.
    cbv iota.
    destruct (JS.continuation e) as [y|];
      [|apply (R (String d (String e a3))); cbn; lia].
    destruct (JS.lead3 (JS.code x) xx).
    { cbn [app]. f_equal. apply IH. lia. }
    destruct a3 as [|f a4].
    { cbn [append]. rewrite Kc. apply (R (String d (String e ""))). cbn; lia. }
    cbn [String.length] in Hle.
    change (String f a4 ++ String c b)%string with (String f (a4 ++ String c b))%string.
    cbv iota.
    destruct (JS.continuation f) as [z|];
      [|apply (R (String d (String e (String f a4)))); cbn; lia].
    destruct (JS.lead4 (JS.code x) xx).
    { cbn [app]. f_equal. apply IH. lia. }
    apply (R (String d (String e (String f a4)))). cbn; lia.
Qed.

Lemma isWellFormed_app_ascii (a : string) (c : ascii) (b : string) :
  (JS.code c < 128)%N ->
  JS.isWellFormed (a ++ String c b)%string
  = JS.isWellFormed a && JS.isWellFormed b.
Proof.
  intros Hc. unfold JS.isWellFormed.
  rewrite (decode_app_ascii a c b Hc), forallb_app. cbn [forallb].
  replace (JS.code c <? 55296)%N with true by (symmetry; apply N.ltb_lt; lia).
  reflexivity.
Qed.

Lemma join_nl_isWellFormed (lines : list string) :
  JS.isWellFormed (JS.join JS.nl lines) = forallb JS.isWellFormed lines.
Proof.
  induction lines as [|l rest IH]; [reflexivity|].
  destruct rest as [|m rest].
  - cbn [JS.join forallb]. now rewrite andb_true_r.
  - change (JS.join JS.nl (l :: m :: rest))
      with (l ++ String (ascii_of_N 10) (JS.join JS.nl (m :: rest)))%string.
    rewrite isWellFormed_app_ascii by reflexivity.
    now rewrite IH.
Qed.

(** The message holds a lone surrogate exactly when a field does: the fields
    stand between Basic Latin characters of the template. *)
Lemma messageText_isWellFormed (data : B2B.FormData.t) :
  JS.isWellFormed (B2B.messageText data) = forallb JS.isWellFormed (fieldsOf data).
Proof.
  unfold fieldsOf.
  destruct data as [name business products volume payment message].
  unfold B2B.messageText, JS.truthy. cbn [B2B.FormData.name B2B.FormData.business
    B2B.FormData.products B2B.FormData.volume B2B.FormData.payment
    B2B.FormData.message].
  rewrite join_nl_isWellFormed.
  change (JS.template [ "👤 *Nombre:* "; name ])
    with ("👤 *Nombre:*" ++ String " " name)%string.
  change (JS.template [ "🏬 *Negocio:* "; business ])
    with ("🏬 *Negocio:*" ++ String " " business)%string.
  change (JS.template [ products ]) with products.
  change (JS.template [ "📊 *Volumen estimado:* "; volume ])
    with ("📊 *Volumen estimado:*" ++ String " " volume)%string.
  change (JS.template [ "💳 *Método de pago:* "; payment ])
    with ("💳 *Método de pago:*" ++ String " " payment)%string.
  change (JS.template [ "💬 *Comentarios:*"; JS.nl; message ])
    with ("💬 *Comentarios:*" ++ String (ascii_of_N 10) message)%string.
  destruct (String.eqb_spec volume "") as [-> | _];
    destruct (String.eqb_spec payment "") as [-> | _];
    destruct (String.eqb_spec message "") as [-> | _];
    cbn [negb flat_map app forallb];
    rewrite ?isWellFormed_app_ascii by reflexivity;
    vm_compute (JS.isWellFormed "");
    vm_compute (JS.isWellFormed "🏢 *SOLICITUD B2B — Phone Store Miami*");
    vm_compute (JS.isWellFormed "👤 *Nombre:*");
    vm_compute (JS.isWellFormed "🏬 *Negocio:*");
    vm_compute (JS.isWellFormed "📦 *Productos solicitados:*");
    vm_compute (JS.isWellFormed "_Solicitud enviada desde phonestoreca.com/b2b-miami_");
    try vm_compute (JS.isWellFormed "📊 *Volumen estimado:*");
    try vm_compute (JS.isWellFormed "💳 *Método de pago:*");
    try vm_compute (JS.isWellFormed "💬 *Comentarios:*");
    cbn [andb]; rewrite ?andb_true_r; reflexivity.
Qed.

Lemma messageText_WellFormedData (data : B2B.FormData.t) :
  (JS.isWellFormed (B2B.messageText data) = true <-> WellFormedData data)
  /\ (JS.isWellFormed (B2B.messageText data) = false <->
      exists s, In s (fieldsOf data) /\ JS.isWellFormed s = false).
Proof.
  rewrite messageText_isWellFormed. unfold WellFormedData. split.
  - apply forallb_forall.
  - destruct (forallb JS.isWellFormed (fieldsOf data)) eqn:E.
    + split; [discriminate|]. intros [s [Hs N]].
      rewrite (proj1 (forallb_forall _ _) E s Hs) in N. discriminate N.
    + split; [intros _ | reflexivity].
      induction (fieldsOf data) as [|x l IH]; [discriminate E|].
      cbn [forallb] in E. destruct (JS.isWellFormed x) eqn:X.
      * destruct (IH E) as [s [Hs N]]. exists s. split; [now right | exact N].
      * exists x. split; [now left | exact X].
Qed.

(** X19: when no field holds a lone surrogate the link
    [buildWhatsAppMessage] returns is "https://wa.me/584146395496?text="
    followed by characters that are letters, digits, [- _ . ! ~ * ' ( )] or
    [%] only, so the form's text can neither change the number nor add a
    parameter; and the text parameter decodes to the message, byte for byte.
    When a field holds a lone surrogate it returns no link: it throws the
    [URIError] of [encodeURIComponent]. *)
Theorem buildWhatsAppMessage_link (data : B2B.FormData.t) :
  (WellFormedData data ->
   exists text,
     B2B.buildWhatsAppMessage data
     = inr ("https://wa.me/584146395496?text=" ++ text)%string
     /\ UrlSafe text
     /\ percentDecode text = B2B.messageText data)
  /\ ((exists s, In s (fieldsOf data) /\ JS.isWellFormed s = false) ->
      B2B.buildWhatsAppMessage data = inl JS.URIError).
Proof.
  destruct (messageText_WellFormedData data) as [Wt Wf].
  unfold B2B.buildWhatsAppMessage, JS.encodeURIComponent_call.
  split; intros W; [apply Wt in W | apply Wf in W]; rewrite W; [|reflexivity].
  exists (JS.encodeURIComponent (B2B.messageText data)). split; [|split].
  - now rewrite wa_url.
  - apply encode_UrlSafe.
  - apply percentDecode_encode.
Qed.

Lemma buildWhatsAppMessage_link_witness :
  let data name :=
    {| B2B.FormData.name := name; B2B.FormData.business := "Tienda Ñ & Co";
       B2B.FormData.products := "10 iPhone 16?"; B2B.FormData.volume := "";
       B2B.FormData.payment := "Zelle"; B2B.FormData.message := "" |} in
  (exists text,
      B2B.buildWhatsAppMessage (data "Ana")
      = inr ("https://wa.me/584146395496?text=" ++ text)%string
      /\ UrlSafe text
      /\ percentDecode text = B2B.messageText (data "Ana"))
  /\ B2B.buildWhatsAppMessage (data ("Ana" ++ loneSurrogate)%string)
     = inl JS.URIError.
Proof.
  cbv zeta. split.
  - apply (proj1 (buildWhatsAppMessage_link _)).
    intros s Hs. cbn in Hs.
    repeat (destruct Hs as [<- | Hs]; [vm_compute; reflexivity|]).
    contradiction.
  - apply (proj2 (buildWhatsAppMessage_link _)).
    exists ("Ana" ++ loneSurrogate)%string.
    split; [left; reflexivity | vm_compute; reflexivity].
Defined.

(** X20: the message is the fixed head with the name, the business and the
    products, then one line for each of volume, payment and comments that is
    not empty, then an empty line and the footer; an empty optional field
    leaves no line behind. *)
Theorem messageText_layout (data : B2B.FormData.t) :
  let opt (label v : string) : string :=
    if v =? "" then "" else (JS.nl ++ label ++ v)%string in
  B2B.messageText data
  = ("🏢 *SOLICITUD B2B — Phone Store Miami*" ++ JS.nl
     ++ JS.nl
     ++ "👤 *Nombre:* " ++ data.(B2B.FormData.name) ++ JS.nl
     ++ "🏬 *Negocio:* " ++ data.(B2B.FormData.business) ++ JS.nl
     ++ JS.nl
     ++ "📦 *Productos solicitados:*" ++ JS.nl
     ++ data.(B2B.FormData.products) ++ JS.nl
     ++ opt "📊 *Volumen estimado:* " data.(B2B.FormData.volume)
     ++ opt "💳 *Método de pago:* " data.(B2B.FormData.payment)
     ++ opt ("💬 *Comentarios:*" ++ JS.nl) data.(B2B.FormData.message)
     ++ JS.nl ++ JS.nl
     ++ "_Solicitud enviada desde phonestoreca.com/b2b-miami_")%string.
Proof.
  cbv zeta. unfold B2B.messageText, JS.truthy.
  destruct (B2B.FormData.volume data =? ""),
    (B2B.FormData.payment data =? ""),
    (B2B.FormData.message data =? "");
    cbn [negb flat_map app JS.join]; unfold JS.template; cbn [String.concat];
    rewrite ?append_assoc; reflexivity.
Qed.

(** [getFieldValue] is empty exactly on a field that is missing or blank. *)
Lemma blank_iff (dom : B2B.Dom) (i : string) :
  (negb (JS.truthy (B2B.getFieldValue dom i)) = true <-> ~ Filled dom i)
  /\ (negb (JS.truthy (B2B.getFieldValue dom i)) = false <-> Filled dom i).
Proof.
  unfold B2B.getFieldValue, Filled.
  destruct (B2B.value dom i) as [v|].
  - pose proof (truthy_trim_false_iff v) as T.
    destruct (negb (JS.truthy (JS.trim v))).
    + assert (W : WhiteSpaceOnly v) by now apply T.
      split; split; try discriminate; try reflexivity.
      * intros _ [v' [E N]]. injection E as <-. contradiction.
      * intros [v' [E N]]. injection E as <-. contradiction.
    + assert (W : ~ WhiteSpaceOnly v) by (intros W; apply T in W; discriminate).
      split; split; try discriminate; try reflexivity.
      * intros N. exfalso. apply N. now exists v.
      * intros _. now exists v.
  - cbn. split; split; try discriminate; try reflexivity.
    + intros _ [v [E _]]. discriminate E.
    + intros [v [E _]]. discriminate E.
Qed.

Lemma validateForm_fields (dom : B2B.Dom) (data : B2B.FormData.t) :
  map B2B.Error.fieldId (B2B.errors (B2B.validateForm dom data))
  = filter (fun i => negb (JS.truthy (B2B.getFieldValue dom i)))
           ["field-name"; "field-business"; "field-products"].
Proof.
  unfold B2B.validateForm. cbn [B2B.errors]. rewrite map_map.
  unfold B2B.REQUIRED_FIELDS. cbn [filter B2B.Field.id].
  destruct (negb (JS.truthy (B2B.getFieldValue dom "field-name"))),
    (negb (JS.truthy (B2B.getFieldValue dom "field-business"))),
    (negb (JS.truthy (B2B.getFieldValue dom "field-products")));
    reflexivity.
Qed.

Lemma validateForm_isValid (dom : B2B.Dom) (data : B2B.FormData.t) :
  B2B.isValid (B2B.validateForm dom data)
  = (length (map B2B.Error.fieldId (B2B.errors (B2B.validateForm dom data))) =? 0)%nat.
Proof. now rewrite length_map. Qed.

(** X21: [validateForm] does not use its argument: it reads the page.  The
    result is valid exactly when it has no error, which is exactly when the
    name, business and products fields are there and not blank; the errors
    name the missing or blank ones of these three fields, in that order. *)
Theorem validateForm_spec (dom : B2B.Dom) (data data' : B2B.FormData.t) :
  let res := B2B.validateForm dom data in
  B2B.validateForm dom data' = res
  /\ (B2B.isValid res = true <-> B2B.errors res = [])
  /\ (B2B.isValid res = true <->
      Filled dom "field-name" /\ Filled dom "field-business"
      /\ Filled dom "field-products")
  /\ Subseq (map B2B.Error.fieldId (B2B.errors res))
            ["field-name"; "field-business"; "field-products"]
  /\ (forall i, In i (map B2B.Error.fieldId (B2B.errors res)) <->
                In i ["field-name"; "field-business"; "field-products"]
                /\ ~ Filled dom i).
Proof.
  cbv zeta. split; [reflexivity|]. split; [|split; [|split]].
  - unfold B2B.validateForm. cbn [B2B.isValid B2B.errors].
    rewrite Nat.eqb_eq. apply length_zero_iff_nil.
  - rewrite validateForm_isValid, validateForm_fields. cbn [filter].
    destruct (blank_iff dom "field-name") as [A1 A2].
    destruct (blank_iff dom "field-business") as [B1 B2].
    destruct (blank_iff dom "field-products") as [C1 C2].
    destruct (negb (JS.truthy (B2B.getFieldValue dom "field-name"))),
      (negb (JS.truthy (B2B.getFieldValue dom "field-business"))),
      (negb (JS.truthy (B2B.getFieldValue dom "field-products")));
      cbn; intuition (try discriminate; auto).
  - rewrite validateForm_fields. apply Subseq_filter.
  - intros i. rewrite validateForm_fields, filter_In.
    split; intros [H1 H2]; (split; [exact H1|]); now apply (blank_iff dom i).
Qed.

(** X22: a submission opens WhatsApp exactly when the name, business and
    products fields are there and not blank, the submit button with its span
    exists and [buildWhatsAppMessage] returns a link, and then on that link,
    built from the trimmed fields.  With the three fields filled it otherwise
    ends in an exception: a [TypeError] without the button, a [URIError] when
    a trimmed field holds a lone surrogate.  When one of the three is missing or blank nothing is opened:
    the errors of [validateForm] go to [showErrors], and the focus goes to the
    first of the three, in the order name, business, products, that is not
    filled, if the page has that field; if the page does not have it, nothing
    is focused. *)
Theorem handleSubmit_spec (dom : B2B.Dom) :
  let data := B2B.extractFormData dom in
  (forall url,
      B2B.handleSubmit dom = B2B.Opened url <->
      RequiredFilled dom /\ B2B.submitButton dom = true
      /\ B2B.buildWhatsAppMessage data = inr url)
  /\ (forall e,
        B2B.handleSubmit dom = B2B.Failed e <->
        RequiredFilled dom
        /\ ((B2B.submitButton dom = false /\ e = JS.TypeError)
            \/ (B2B.submitButton dom = true
                /\ (exists s, In s (fieldsOf data) /\ JS.isWellFormed s = false)
                /\ e = JS.URIError)))
  /\ (forall errors focus,
        B2B.handleSubmit dom = B2B.Rejected errors focus ->
        errors = B2B.errors (B2B.validateForm dom data)
        /\ errors <> []
        /\ exists first,
            (~ Filled dom "field-name" -> first = "field-name")
            /\ (Filled dom "field-name" -> ~ Filled dom "field-business" ->
                first = "field-business")
            /\ (Filled dom "field-name" -> Filled dom "field-business" ->
                first = "field-products" /\ ~ Filled dom "field-products")
            /\ (B2B.value dom first <> None -> focus = Some first)
            /\ (B2B.value dom first = None -> focus = None))
  /\ (~ RequiredFilled dom ->
      exists errors focus, B2B.handleSubmit dom = B2B.Rejected errors focus).
Proof.
  cbv zeta. unfold RequiredFilled.
  destruct (messageText_WellFormedData (B2B.extractFormData dom)) as [_ Wf].
  destruct (blank_iff dom "field-name") as [A1 A2].
  destruct (blank_iff dom "field-business") as [B1 B2].
  destruct (blank_iff dom "field-products") as [C1 C2].
  assert (Focus : forall i,
             (B2B.value dom i <> None ->
              match B2B.value dom i with Some _ => Some i | None => None end
              = Some i)
             /\ (B2B.value dom i = None ->
                 match B2B.value dom i with Some _ => Some i | None => None end
                 = None)).
  { intros i. destruct (B2B.value dom i); split; intros H;
      first [reflexivity | discriminate H | now contradiction H]. }
  unfold B2B.handleSubmit.
  assert (E : B2B.errors (B2B.validateForm dom (B2B.extractFormData dom))
              = B2B.errors (B2B.validateForm dom (B2B.extractFormData dom)))
    by reflexivity.
  revert E.
  generalize (B2B.errors (B2B.validateForm dom (B2B.extractFormData dom))) at 1 3.
  unfold B2B.validateForm, B2B.REQUIRED_FIELDS.
  cbn [filter B2B.Field.id B2B.isValid B2B.errors].
  destruct (negb (JS.truthy (B2B.getFieldValue dom "field-name"))),
    (negb (JS.truthy (B2B.getFieldValue dom "field-business"))),
    (negb (JS.truthy (B2B.getFieldValue dom "field-products")));
    cbn [map length Nat.eqb negb B2B.scrollToFirstError B2B.Error.fieldId
         B2B.Field.id];
    intros errs Eerrs;
    (split; [|split; [|split]]);
    try (intros url; split; [intros H; discriminate H | intuition]);
    try (intros e; split; [intros H; discriminate H | intuition]);
    try (intros _; eexists; eexists; reflexivity);
    try (intros errors focus H; injection H as <- <-;
         split; [reflexivity|]; split; [discriminate|];
         first
           [ exists "field-name";
             repeat split; try apply Focus; intuition; fail
           | exists "field-business";
             repeat split; try apply Focus; intuition; fail
           | exists "field-products";
             repeat split; try apply Focus; intuition ]).
  - intros url. unfold B2B.buildWhatsAppMessage, JS.encodeURIComponent_call.
    destruct (B2B.submitButton dom); cbn [negb];
      [destruct (JS.isWellFormed _)|]; split.
    + intros H. injection H as <-. intuition.
    + intros [_ [_ H]]. injection H as <-. reflexivity.
    + intros H. discriminate H.
    + intros [_ [_ H]]. discriminate H.
    + intros H. discriminate H.
    + intros [_ [H _]]. discriminate H.
  - intros e. unfold B2B.buildWhatsAppMessage, JS.encodeURIComponent_call.
    destruct (B2B.submitButton dom); cbn [negb];
      [destruct (JS.isWellFormed _)|]; split.
    + intros H. discriminate H.
    + intros [_ [[H _] | [_ [H _]]]]; [discriminate H|].
      apply Wf in H. discriminate H.
    + intros H. injection H as <-. split; [intuition|]. right.
      split; [reflexivity|]. split; [now apply Wf | reflexivity].
    + intros [_ [[H _] | [_ [_ ->]]]]; [discriminate H | reflexivity].
    + intros H. injection H as <-. intuition.
    + intros [_ [[_ ->] | [H _]]]; [reflexivity | discriminate H].
  - intros errors focus H.
    destruct (B2B.submitButton dom); cbn [negb] in H;
      [destruct (B2B.buildWhatsAppMessage _)|]; discriminate H.
  - intros N. exfalso. apply N. intuition.
Qed.

Lemma handleSubmit_spec_witness :
  let page (name : string) (business : option string) (button : bool) :=
    {| B2B.value := fun i => if i =? "field-name" then Some name
                             else if i =? "field-business" then business
                             else if i =? "field-products" then Some "10 iPhone 16"
                             else None;
       B2B.submitButton := button |} in
  (exists errors,
      B2B.handleSubmit (page " Ana " None true) = B2B.Rejected errors None)
  /\ (exists errors,
        B2B.handleSubmit (page " Ana " (Some "  ") true)
        = B2B.Rejected errors (Some "field-business"))
  /\ (exists url,
        B2B.handleSubmit (page " Ana " (Some "PSM") true) = B2B.Opened url
        /\ B2B.buildWhatsAppMessage
             (B2B.extractFormData (page " Ana " (Some "PSM") true)) = inr url)
  /\ B2B.handleSubmit (page " Ana " (Some "PSM") false) = B2B.Failed JS.TypeError
  /\ B2B.handleSubmit (page loneSurrogate (Some "PSM") true)
     = B2B.Failed JS.URIError.
Proof.
  cbv zeta.
  set (page := fun (name : string) (business : option string) (button : bool) =>
    {| B2B.value := fun i => if i =? "field-name" then Some name
                             else if i =? "field-business" then business
                             else if i =? "field-products" then Some "10 iPhone 16"
                             else None;
       B2B.submitButton := button |}).
  assert (Fn : forall b t, Filled (page " Ana " b t) "field-name").
  { intros b t. exists " Ana ". split; [reflexivity|].
    intros W. apply trim_empty_iff in W. discriminate W. }
  assert (Fs : forall b t, Filled (page loneSurrogate b t) "field-name").
  { intros b t. exists loneSurrogate. split; [reflexivity|].
    intros W. apply trim_empty_iff in W. discriminate W. }
  assert (Fb : forall n t, Filled (page n (Some "PSM") t) "field-business").
  { intros n t. exists "PSM". split; [reflexivity|].
    intros W. apply trim_empty_iff in W. discriminate W. }
  assert (Fp : forall n b t, Filled (page n b t) "field-products").
  { intros n b t. exists "10 iPhone 16". split; [reflexivity|].
    intros W. apply trim_empty_iff in W. discriminate W. }
  assert (Nm : forall t, ~ Filled (page " Ana " None t) "field-business").
  { intros t [v [E _]]. discriminate E. }
  assert (Nb : forall t, ~ Filled (page " Ana " (Some "  ") t) "field-business").
  { intros t [v [E N]]. injection E as <-. apply N.
    apply trim_empty_iff. reflexivity. }
  split; [|split; [|split; [|split]]].
  - destruct (proj2 (proj2 (proj2 (handleSubmit_spec (page " Ana " None true)))))
      as [errors [focus H]].
    { intros [_ [F _]]. exact (Nm true F). }
    exists errors. rewrite H. f_equal.
    destruct (proj1 (proj2 (proj2 (handleSubmit_spec (page " Ana " None true))))
                errors focus H) as [_ [_ [first [_ [F2 [_ [_ F5]]]]]]].
    apply F5. rewrite (F2 (Fn _ _) (Nm _)). reflexivity.
  - destruct (proj2 (proj2 (proj2
               (handleSubmit_spec (page " Ana " (Some "  ") true)))))
      as [errors [focus H]].
    { intros [_ [F _]]. exact (Nb true F). }
    exists errors. rewrite H. f_equal.
    destruct (proj1 (proj2 (proj2
               (handleSubmit_spec (page " Ana " (Some "  ") true))))
                errors focus H) as [_ [_ [first [_ [F2 [_ [F4 _]]]]]]].
    rewrite (F2 (Fn _ _) (Nb _)) in F4. apply F4. discriminate.
  - eexists. split.
    + apply (proj1 (handleSubmit_spec (page " Ana " (Some "PSM") true))).
      split; [repeat split; auto|]. split; [reflexivity|].
      vm_compute. reflexivity.
    + vm_compute. reflexivity.
  - apply (proj1 (proj2 (handleSubmit_spec (page " Ana " (Some "PSM") false)))).
    split; [repeat split; auto|]. left. split; reflexivity.
  - apply (proj1 (proj2 (handleSubmit_spec (page loneSurrogate (Some "PSM") true)))).
    split; [repeat split; auto|]. right.
    split; [reflexivity|]. split; [|reflexivity].
    exists loneSurrogate. split; [left; reflexivity | vm_compute; reflexivity].
Defined.

(** ** More on search, labels and related products *)

(** X23: a query of white space only filters nothing: after [handleSearch] on
    such a query the grid gets exactly what the three selections alone
    select, the same as with an empty query; the query itself is stored
    untrimmed. *)
Theorem handleSearch_blank (catalog : list Product) (query : string) (st : FilterState.t) :
  WhiteSpaceOnly query ->
  (fst (handleSearch query st)).(FilterState.search) = query
  /\ result (snd (handleSearch query st)) (loaded catalog)
     = result (snd (handleSearch "" st)) (loaded catalog)
  /\ result (snd (handleSearch query st)) (loaded catalog)
     = List.filter
         (fun p => keepsCategory st.(FilterState.category) p
                   && keepsSeries st.(FilterState.series) p
                   && keepsCondition st.(FilterState.condition) p)
         catalog.
Proof.
  intros W.
  assert (K : forall q, WhiteSpaceOnly q ->
            result (snd (handleSearch q st)) (loaded catalog)
            = List.filter
                (fun p => keepsCategory st.(FilterState.category) p
                          && keepsSeries st.(FilterState.series) p
                          && keepsCondition st.(FilterState.condition) p)
                catalog).
  { intros q Wq. unfold handleSearch. cbn [snd].
    rewrite getFilteredProducts_result.
    change (contents (loaded catalog) PRODUCTS) with catalog.
    apply filter_ext. intros p. unfold keeps.
    change (FilterState.category (assign "search" q st))
      with (FilterState.category st).
    change (FilterState.series (assign "search" q st))
      with (FilterState.series st).
    change (FilterState.condition (assign "search" q st))
      with (FilterState.condition st).
    change (FilterState.search (assign "search" q st)) with q.
    unfold keepsSearch.
    rewrite (proj2 (truthy_trim_false_iff q) Wq). cbn [orb].
    now rewrite andb_true_r. }
  split; [reflexivity|]. split.
  - rewrite (K query W). symmetry. apply K. constructor.
  - apply K, W.
Qed.

Lemma handleSearch_blank_witness :
  WhiteSpaceOnly "  "
  /\ result (snd (handleSearch "  " series16)) (loaded PSM.PRODUCTS)
     = result (snd (handleSearch "" series16)) (loaded PSM.PRODUCTS).
Proof.
  assert (W : WhiteSpaceOnly "  ") by (apply trim_empty_iff; reflexivity).
  split; [exact W|].
  exact (proj1 (proj2 (handleSearch_blank PSM.PRODUCTS "  " series16 W))).
Defined.

(** X24: on a product that keeps the typedef, the detail page promises 60 days
    exactly when the product has a series, its hero image is the first image
    of the gallery and never the fallback logo, and for an iPhone the
    condition label of a related card is the label of the catalog badge.  A
    condition other than "certificado", whatever it is, reads "Nuevo". *)
Theorem detail_presentation (p : Product) :
  (WellFormedProduct p ->
   (Producto.title (Producto.resolveWarranty p) = "60 días de garantía PSM"
    <-> p.(series) <> None)
   /\ (Producto.title (Producto.resolveWarranty p) = "30 días de garantía PSM"
       <-> p.(series) = None)
   /\ nth_error p.(gallery) 0 = Some (Producto.heroImage p)
   /\ (p.(category) = "iphone" ->
       labelOf Catalogo.resolveBadge p = Some (Producto.conditionLabel p)))
  /\ (p.(condition) <> "certificado" -> Producto.conditionLabel p = "Nuevo").
Proof.
  split.
  - intros [Hs [Hc [Hd Hg]]]. unfold Producto.resolveWarranty, Producto.heroImage.
    repeat split.
    + destruct (String.eqb_spec (category p) "iphone") as [E|E]; cbn.
      * intros _. now apply Hs.
      * intros H. discriminate H.
    + destruct (String.eqb_spec (category p) "iphone") as [E|E]; cbn.
      * reflexivity.
      * intros H. exfalso. apply E. now apply Hs.
    + destruct (String.eqb_spec (category p) "iphone") as [E|E]; cbn.
      * intros H. discriminate H.
      * intros _. destruct (series p) as [n|]; [|reflexivity].
        exfalso. apply E. apply Hs. discriminate.
    + destruct (String.eqb_spec (category p) "iphone") as [E|E]; cbn.
      * intros H. apply Hs in E. contradiction.
      * reflexivity.
    + destruct (gallery p); [contradiction | reflexivity].
    + intros E. unfold labelOf, Catalogo.resolveBadge, Producto.conditionLabel.
      rewrite E. cbn [String.eqb negb]. cbn in Hd.
      destruct Hd as [<- | [<- | []]]; reflexivity.
  - intros H. unfold Producto.conditionLabel.
    apply String.eqb_neq in H. now rewrite H.
Qed.

Lemma detail_presentation_witness :
  WellFormedProduct PSM.iph_15_black
  /\ PSM.iph_15_black.(category) = "iphone"
  /\ labelOf Catalogo.resolveBadge PSM.iph_15_black
     = Some (Producto.conditionLabel PSM.iph_15_black)
  /\ PSM.acc_airpods_4.(condition) <> "certificado"
  /\ Producto.conditionLabel PSM.acc_airpods_4 = "Nuevo".
Proof.
  assert (W : WellFormedProduct PSM.iph_15_black).
  { unfold WellFormedProduct. cbn. repeat split; try discriminate; tauto. }
  assert (N : PSM.acc_airpods_4.(condition) <> "certificado") by discriminate.
  destruct (proj1 (detail_presentation PSM.iph_15_black) W) as [_ [_ [_ L]]].
  split; [exact W|]. split; [reflexivity|]. split; [exact (L eq_refl)|].
  split; [exact N | exact (proj2 (detail_presentation PSM.acc_airpods_4) N)].
Defined.

(** X25: on the seeded catalog the related products of a product always have
    its category, so the series clause of [getRelatedProducts] never brings a
    product in: the result is the first four other products of the category;
    and it is never empty, so the related strip is always shown. *)
Theorem related_share_category (p : Product) :
  In p PSM.PRODUCTS ->
  (forall e, In e (PSM.getRelatedProducts p) -> e.(category) = p.(category))
  /\ PSM.getRelatedProducts p
     = firstn 4 (List.filter
                   (fun e => negb (e.(id) =? p.(id))
                             && (e.(category) =? p.(category)))
                   PSM.PRODUCTS)
  /\ PSM.getRelatedProducts p <> [].
Proof.
  intros Hp.
  assert (W : Forall (fun q => q.(series) <> None <-> q.(category) = "iphone")
                     PSM.PRODUCTS).
  { repeat (constructor;
            [ cbn; split; try discriminate; try (intros; discriminate);
              try (intros H; now contradiction H); tauto |]).
    constructor. }
  rewrite Forall_forall in W.
  assert (E : forall e, In e PSM.PRODUCTS ->
            ((JS.truthy_series e.(series)
              && JS.strict_eq_series e.(series) p.(series))
             || (e.(category) =? p.(category)))
            = (e.(category) =? p.(category))).
  { intros e He.
    destruct (String.eqb_spec (category e) (category p)) as [C|C];
      [apply orb_true_r|].
    rewrite orb_false_r. apply andb_false_iff.
    destruct (series e) as [n|] eqn:Se; [|now left]. right.
    destruct (series p) as [m|] eqn:Sp; [|reflexivity].
    exfalso. apply C.
    rewrite (proj1 (W e He)) by (rewrite Se; discriminate).
    rewrite (proj1 (W p Hp)) by (rewrite Sp; discriminate). reflexivity. }
  assert (R : PSM.getRelatedProducts p
              = firstn 4 (List.filter
                            (fun e => negb (e.(id) =? p.(id))
                                      && (e.(category) =? p.(category)))
                            PSM.PRODUCTS)).
  { unfold PSM.getRelatedProducts, PSM.MAX_RELATED. f_equal.
    apply filter_ext_in. intros e He. now rewrite (E e He). }
  split; [|split; [exact R|]].
  - intros e He. rewrite R in He. apply In_firstn, filter_In in He as [_ He].
    apply andb_true_iff in He as [_ He]. now apply String.eqb_eq.
  - unfold PSM.PRODUCTS in Hp. cbn [In] in Hp.
    repeat (destruct Hp as [<- | Hp]; [vm_compute; discriminate|]).
    contradiction.
Qed.

Lemma related_share_category_witness :
  In PSM.iph_15_black PSM.PRODUCTS
  /\ (forall e, In e (PSM.getRelatedProducts PSM.iph_15_black) ->
                e.(category) = PSM.iph_15_black.(category))
  /\ PSM.getRelatedProducts PSM.iph_15_black <> [].
Proof.
  assert (H : In PSM.iph_15_black PSM.PRODUCTS).
  { unfold PSM.PRODUCTS. cbn [In]. do 7 right. left. reflexivity. }
  destruct (related_share_category PSM.iph_15_black H) as [A [_ B]].
  split; [exact H|]. split; [exact A | exact B].
Defined.
